(** * Spatial Explorer parsers: format detection and schema normalisation

    A shallow embedding of the parsers in [parsers/] (cosmx.py, merscope.py,
    xenium.py, visium.py, visium_hd.py, universal.py) and proofs of the
    properties stated for them.

    Conventions of the embedding:
    - Python exceptions (all raised as [ValueError] on the paths modelled
      here) are the [Err] case of [Result]; the message is kept as a string.
    - A cell of a pandas column is a [pyval]; finite floats are exact
      rationals ([Q]); NaN, [None] and [pd.NA] are kept apart because the
      code treats them differently when it casts with [astype(str)].
    - Column names and file names are ASCII [string]s; [str.lower] and
      [str.strip] are modelled on ASCII. *)

From stdpp Require Import base gmap strings list.
From Stdlib Require Import ZArith QArith String Ascii.

(* ------------------------------------------------------------------ *)
(** ** Errors *)

Inductive Result (A : Type) : Type :=
| Ok (a : A)
| Err (msg : string).
Arguments Ok {A} a.
Arguments Err {A} msg.

Definition bindR {A B} (m : Result A) (k : A -> Result B) : Result B :=
  match m with
  | Ok a => k a
  | Err e => Err e
  end.

Notation "'let*' x := m 'in' k" := (bindR m (fun x => k))
  (at level 200, x name, m at level 100, k at level 200).

Definition is_ok {A} (r : Result A) : bool :=
  match r with Ok _ => true | Err _ => false end.

(* ------------------------------------------------------------------ *)
(** ** Python string primitives (ASCII) *)

(** [str.isspace] on ASCII: \t \n \v \f \r, the separators \x1c-\x1f and
    the space. *)
Definition py_isspace (a : ascii) : bool :=
  let n := nat_of_ascii a in
  (((9 <=? n) && (n <=? 13)) || ((28 <=? n) && (n <=? 32)))%nat.

Fixpoint lstrip (s : string) : string :=
  match s with
  | EmptyString => EmptyString
  | String a s' => if py_isspace a then lstrip s' else s
  end.

Fixpoint rev_str (s : string) : string :=
  match s with
  | EmptyString => EmptyString
  | String a s' => append (rev_str s') (String a EmptyString)
  end.

(** [str.strip()] *)
Definition py_strip (s : string) : string :=
  rev_str (lstrip (rev_str (lstrip s))).

Definition lower_ascii (a : ascii) : ascii :=
  let n := nat_of_ascii a in
  if ((65 <=? n) && (n <=? 90))%nat then ascii_of_nat (n + 32) else a.

(** [str.lower()] *)
Fixpoint py_lower (s : string) : string :=
  match s with
  | EmptyString => EmptyString
  | String a s' => String (lower_ascii a) (py_lower s')
  end.

(** [s.startswith(p)] *)
Definition py_startswith (s p : string) : bool := String.prefix p s.

(** [p in s] for strings. *)
Fixpoint py_contains (s p : string) : bool :=
  String.prefix p s ||
  match s with
  | EmptyString => false
  | String _ s' => py_contains s' p
  end.

(** [s.endswith(p)] *)
Definition py_endswith (s p : string) : bool :=
  String.prefix (rev_str p) (rev_str s).

Definition is_digit (a : ascii) : bool :=
  let n := nat_of_ascii a in ((48 <=? n) && (n <=? 57))%nat.

Definition digit_val (a : ascii) : N := N.of_nat (nat_of_ascii a - 48).

(** Decimal rendering of naturals and integers, as [str(int)] prints them. *)
Fixpoint digits_rev (fuel : nat) (n : N) : string :=
  match fuel with
  | O => EmptyString
  | S f =>
      let d := ascii_of_nat (48 + N.to_nat (n mod 10)) in
      if (n <? 10)%N then String d EmptyString
      else String d (digits_rev f (n / 10)%N)
  end.

Definition str_of_N (n : N) : string := rev_str (digits_rev (S (N.size_nat n)) n).

Definition str_of_Z (z : Z) : string :=
  match z with
  | Zneg p => append "-" (str_of_N (Npos p))
  | _ => str_of_N (Z.to_N z)
  end.

(* ------------------------------------------------------------------ *)
(** ** Column resolver (cosmx.py, merscope.py, xenium.py, visium_hd.py)

    The four modules carry identical copies of [_lower_map_columns] and
    [_first_present]; universal.py builds the same map with
    [dict.setdefault]. *)

(** The key a column is filed under: [str(c).strip().lower()]. *)
Definition lowered (c : string) : string := py_lower (py_strip c).

(** [_lower_map_columns]: lower -> original, first occurrence wins. *)
Definition lower_map_step (m : gmap string string) (c : string) : gmap string string :=
  match m !! lowered c with
  | Some _ => m
  | None => <[lowered c := c]> m
  end.

Definition _lower_map_columns (columns : list string) : gmap string string :=
  foldl lower_map_step ∅ columns.

(** [_first_present]: first candidate alias that is a key of the map. *)
Fixpoint _first_present (colmap : gmap string string) (candidates : list string)
  : option string :=
  match candidates with
  | [] => None
  | c :: cs =>
      match colmap !! c with
      | Some v => Some v
      | None => _first_present colmap cs
      end
  end.

(** The resolver as one function of the column list. *)
Definition resolve (columns candidates : list string) : option string :=
  _first_present (_lower_map_columns columns) candidates.

(** The resolver as the specification words it: the first alias (in the
    caller's order) that some column lowers to, answered with the first
    column that lowers to it. *)
Definition resolve_by_alias_priority (columns candidates : list string) : option string :=
  match find (fun a => existsb (fun c => String.eqb (lowered c) a) columns) candidates with
  | Some a => find (fun c => String.eqb (lowered c) a) columns
  | None => None
  end.

(* ------------------------------------------------------------------ *)
(** ** Python / pandas values *)

(** The numbers [pd.to_numeric] produces. *)
Inductive pynum : Type :=
| NInt (z : Z)
| NFloat (q : Q)          (** a finite float, by its exact value *)
| NInf (neg : bool).

(** One cell of a pandas column. *)
Inductive pyval : Type :=
| PStr (s : string)
| PNum (n : pynum)
| PNaN                    (** [float('nan')], what [read_csv] yields for a gap *)
| PNone                   (** [None], what object columns of parquet hold *)
| PNA.                    (** [pd.NA], the missing value of the string dtype *)

(** [pd.isna] *)
Definition is_missing (v : pyval) : bool :=
  match v with PNaN | PNone | PNA => true | _ => false end.

Definition column := list pyval.

(** A DataFrame as its ordered (label, column) pairs; labels may repeat. *)
Definition frame := list (string * column).

Definition frame_columns (df : frame) : list string := map fst df.

(** [repr(s)] of a [str], as CPython's [unicode_repr] builds it. *)
Definition hex_digit (n : nat) : ascii :=
  ascii_of_nat (if (n <? 10)%nat then 48 + n else 87 + n).

(** The characters [repr] writes as [\xNN]: the C0 controls other than tab,
    newline and carriage return, DEL, and, reading a character above 127
    as a Latin-1 code point, the non-printable C1 controls, no-break space
    and soft hyphen. *)
Definition repr_hex_escaped (n : nat) : bool :=
  ((n <? 32) || ((127 <=? n) && (n <=? 160)) || (n =? 173))%nat.

Definition repr_char (quote a : ascii) : string :=
  let n := nat_of_ascii a in
  let bs := ascii_of_nat 92 in
  if (Ascii.eqb a quote || (n =? 92)%nat)%bool then String bs (String a EmptyString)
  else if (n =? 9)%nat then String bs (String "t" EmptyString)
  else if (n =? 10)%nat then String bs (String "n" EmptyString)
  else if (n =? 13)%nat then String bs (String "r" EmptyString)
  else if repr_hex_escaped n then
    String bs (String "x" (String (hex_digit (n / 16)) (String (hex_digit (n mod 16)) EmptyString)))
  else String a EmptyString.

Fixpoint repr_body (quote : ascii) (s : string) : string :=
  match s with
  | EmptyString => EmptyString
  | String a s' => (repr_char quote a ++ repr_body quote s')%string
  end.

(** The quote is ["] when the text holds ['] and no ["], else [']. *)
Definition py_repr_str (s : string) : string :=
  let sq := ascii_of_nat 39 in
  let dq := ascii_of_nat 34 in
  let q := if (py_contains s (String sq EmptyString) &&
               negb (py_contains s (String dq EmptyString)))%bool then dq else sq in
  String q (repr_body q s ++ String q EmptyString).

Fixpoint join (sep : string) (l : list string) : string :=
  match l with
  | [] => EmptyString
  | [x] => x
  | x :: xs => (x ++ sep ++ join sep xs)%string
  end.

(** [repr(list_of_str)] *)
Definition py_list_repr (l : list string) : string :=
  ("[" ++ join ", " (map py_repr_str l) ++ "]")%string.

(** [_standardize_columns]: [df.columns = [str(c).strip() for c in df.columns]] *)
Definition _standardize_columns (df : frame) : frame :=
  map (fun nc => (py_strip nc.1, nc.2)) df.

(** [df[label]]: a label held by one column selects that column; a label
    held by several selects a DataFrame, which the dict-of-columns
    constructors below refuse. *)
Definition get_col (df : frame) (label : string) : Result column :=
  match List.filter (fun nc => String.eqb nc.1 label) df with
  | [(_, c)] => Ok c
  | [] => Err ("KeyError: " ++ py_repr_str label)%string
  | _ => Err "ValueError: Data must be 1-dimensional"
  end.

(** The column a label names in a frame built by the loaders (labels
    there are distinct). *)
Definition frame_col (df : frame) (label : string) : option column :=
  match List.find (fun nc => String.eqb nc.1 label) df with
  | Some (_, c) => Some c
  | None => None
  end.

(** The logical names whose resolved column is absent, in order. *)
Definition missing_names (cols : list (string * option string)) : list string :=
  map fst (List.filter (fun nc => match nc.2 with None => true | Some _ => false end) cols).

(** The major version of pandas in use; the repository does not pin it. *)
Inductive pandas_major := Pandas2 | Pandas3.

Section Pandas.

(** How [pd.to_numeric] reads a string (a number, or [None] when the text
    does not parse and [errors="coerce"] turns it into NaN), and CPython's
    [repr] of a finite float. Both belong to the libraries, not to this
    repository, and every result below holds for any choice of them. *)
Variable num_of_str : string -> option pynum.
Variable float_repr : Q -> string.
Variable pandas_ver : pandas_major.

Definition str_of_num (n : pynum) : string :=
  match n with
  | NInt z => str_of_Z z
  | NFloat q => float_repr q
  | NInf neg => if neg then "-inf" else "inf"
  end.

(** [str(v)], elementwise [astype(str)] *)
Definition py_str (v : pyval) : string :=
  match v with
  | PStr s => s
  | PNum n => str_of_num n
  | PNaN => "nan"
  | PNone => "None"
  | PNA => "<NA>"
  end.

(** elementwise [astype(str)]: pandas 2 writes [str(v)] for every value,
    so a missing value becomes the text "nan", "None" or "<NA>"; from
    pandas 3 the result has the [str] dtype, which keeps a missing value
    missing (as NaN). *)
Definition astype_str (v : pyval) : pyval :=
  match pandas_ver with
  | Pandas2 => PStr (py_str v)
  | Pandas3 => if is_missing v then PNaN else PStr (py_str v)
  end.

(** elementwise [astype("string")]: missing values become [pd.NA]. *)
Definition as_string (v : pyval) : pyval :=
  if is_missing v then PNA else PStr (py_str v).

(** elementwise [pd.to_numeric(..., errors="coerce")] *)
Definition to_numeric (v : pyval) : pyval :=
  match v with
  | PNum n => PNum n
  | PStr s => match num_of_str s with Some n => PNum n | None => PNaN end
  | PNaN | PNone | PNA => PNaN
  end.

(** [v == -1] on the result of [to_numeric] (NaN compares unequal). *)
Definition num_eq_minus1 (v : pyval) : bool :=
  match v with
  | PNum (NInt z) => Z.eqb z (-1)
  | PNum (NFloat q) => Qeq_bool q (-1)
  | _ => false
  end.

(** Number of rows with a missing x or y: [out[["x","y"]].isna().any(axis=1).sum()] *)
Definition count_missing_xy (xs ys : column) : nat :=
  List.length (List.filter (fun p => is_missing p.1 || is_missing p.2) (combine xs ys)).

(* ---------------- MERSCOPE transcripts (merscope.py) ---------------- *)

Definition merscope_tx_cell_aliases : list string :=
  ["entityid"; "entity_id"; "cell_id"; "cellid"; "cell"].

Definition is_int_val (v : pyval) : bool :=
  match v with PNum (NInt _) => true | _ => false end.

Definition is_float_val (v : pyval) : bool :=
  match v with PNum (NFloat _) | PNum (NInf _) | PNaN => true | _ => false end.

(** [int64 -> float64] *)
Definition int_as_float (v : pyval) : pyval :=
  match v with PNum (NInt z) => PNum (NFloat (inject_Z z)) | _ => v end.

(** [cs.where(cond, other=pd.NA)] where [repl] is [~cond]: nothing changes
    when no entry is replaced; otherwise an int64 column (every value an
    integer) is upcast to float64 and holds NaN at the replaced entries, a
    float64 column holds NaN there, and any other column holds [pd.NA]. *)
Definition series_where_na (cs : column) (repl : list bool) : column :=
  if negb (existsb (fun b => b) repl) then cs
  else if forallb is_int_val cs then
    zip_with (fun (v : pyval) (b : bool) => if b then PNaN else int_as_float v) cs repl
  else if forallb is_float_val cs then
    zip_with (fun (v : pyval) (b : bool) => if b then PNaN else v) cs repl
  else zip_with (fun (v : pyval) (b : bool) => if b then PNA else v) cs repl.

(** The [-1] sentinel rule:
    [cell_series.where(~(pd.to_numeric(cell_series, errors="coerce") == -1), other=pd.NA)]. *)
Definition merscope_unassigned (cs : column) : column :=
  series_where_na cs (map (fun v => num_eq_minus1 (to_numeric v)) cs).

(** [merscope._load_transcripts], from the table [_read_table] returned. *)
Definition merscope_load_transcripts (path : string) (raw : frame) : Result frame :=
  let df := _standardize_columns raw in
  let colmap := _lower_map_columns (frame_columns df) in
  let x_col := _first_present colmap ["global_x"; "x"; "x_um"; "xcoord"; "x_coord"] in
  let y_col := _first_present colmap ["global_y"; "y"; "y_um"; "ycoord"; "y_coord"] in
  let gene_col := _first_present colmap ["gene"; "target"; "feature_name"; "symbol"] in
  let cell_col := _first_present colmap merscope_tx_cell_aliases in
  match x_col, y_col, gene_col with
  | Some xc, Some yc, Some gc =>
      let* xs := get_col df xc in
      let* ys := get_col df yc in
      let* gs := get_col df gc in
      (* cell_series = df[cell_col] if cell_col is not None else pd.NA;
         -1 (numerically) is replaced by pd.NA before any cast *)
      let* cell_series :=
        match cell_col with
        | Some cc =>
            let* cs := get_col df cc in
            Ok (merscope_unassigned cs)
        | None => Ok (repeat PNA (List.length xs))
        end in
      let gene := map astype_str gs in                          (* .astype(str) *)
      Ok [("x", map to_numeric xs);                              (* _coerce_numeric *)
          ("y", map to_numeric ys);
          ("gene", map as_string gene);                          (* .astype("string") *)
          ("cell_id", map as_string cell_series)]
  | _, _, _ =>
      Err ("MERSCOPE: transcript table missing required columns " ++
           py_list_repr (missing_names [("x", x_col); ("y", y_col); ("gene", gene_col)]) ++
           ". Found columns: " ++ py_list_repr (frame_columns df) ++
           " (file: " ++ path ++ ")")%string
  end.

(* ------------- CosMx and Xenium transcripts (cosmx.py, xenium.py) ------------- *)

(** The four output columns both loaders build:
    [pd.DataFrame({"x": .., "y": .., "gene": df[gene_col].astype(str),
    "cell_id": ..})], then [_coerce_numeric(out, ["x","y"])] and the
    [astype("string")] casts of cell_id and gene. *)
Definition transcript_out (xs ys gs cs : column) : frame :=
  [("x", map to_numeric xs);
   ("y", map to_numeric ys);
   ("gene", map as_string (map astype_str gs));
   ("cell_id", map as_string cs)].

Definition cosmx_tx_gene_aliases : list string :=
  ["gene"; "target"; "targetname"; "target_name"; "feature_name"].

Definition xenium_tx_gene_aliases : list string :=
  ["gene"; "feature_name"; "feature"; "target"; "symbol"].

(** [cosmx._load_transcripts]; the second component is the advisory log. *)
Definition cosmx_load_transcripts (path name : string) (raw : frame)
  : Result (frame * list string) :=
  let df := _standardize_columns raw in
  let colmap := _lower_map_columns (frame_columns df) in
  let x_col := _first_present colmap ["x"; "x_global_px"; "x_global"; "x_position"; "globalx"; "centerx"] in
  let y_col := _first_present colmap ["y"; "y_global_px"; "y_global"; "y_position"; "globaly"; "centery"] in
  let gene_col := _first_present colmap cosmx_tx_gene_aliases in
  let cell_col := _first_present colmap ["cell_id"; "cellid"; "cell"; "cell_id"; "cellid_int"] in
  match x_col, y_col, gene_col with
  | Some xc, Some yc, Some gc =>
      let* xs := get_col df xc in
      let* ys := get_col df yc in
      let* gs := get_col df gc in
      let* cs := match cell_col with
                 | Some cc => get_col df cc
                 | None => Ok (repeat PNA (List.length xs))
                 end in
      let out := transcript_out xs ys gs cs in
      let xo := map to_numeric xs in
      let yo := map to_numeric ys in
      let go := map as_string (map astype_str gs) in
      let n_xy := count_missing_xy xo yo in
      let n_gene := List.length (List.filter is_missing go) in
      let log1 := if Nat.eqb n_xy 0 then [] else
          [("CosMx: " ++ str_of_Z (Z.of_nat n_xy) ++
            " transcript rows have NaN coordinates (" ++ name ++ ")")%string] in
      let log2 := if Nat.eqb n_gene 0 then [] else
          [("CosMx: " ++ str_of_Z (Z.of_nat n_gene) ++
            " transcript rows have NaN gene labels (" ++ name ++ ")")%string] in
      Ok (out, log1 ++ log2)
  | _, _, _ =>
      Err ("CosMx: transcript CSV missing required columns " ++
           py_list_repr (missing_names [("x", x_col); ("y", y_col); ("gene", gene_col)]) ++
           ". Found columns: " ++ py_list_repr (frame_columns df) ++
           " (file: " ++ path ++ ")")%string
  end.

(** [xenium._load_transcripts] (no gene advisory in this module). *)
Definition xenium_load_transcripts (path : string) (raw : frame) : Result frame :=
  let df := _standardize_columns raw in
  let colmap := _lower_map_columns (frame_columns df) in
  let x_col := _first_present colmap ["x"; "x_location"; "x_um"; "xcoord"; "x_coord"] in
  let y_col := _first_present colmap ["y"; "y_location"; "y_um"; "ycoord"; "y_coord"] in
  let gene_col := _first_present colmap xenium_tx_gene_aliases in
  let cell_col := _first_present colmap ["cell_id"; "cellid"; "cell"; "cell_id_int"] in
  match x_col, y_col, gene_col with
  | Some xc, Some yc, Some gc =>
      let* xs := get_col df xc in
      let* ys := get_col df yc in
      let* gs := get_col df gc in
      let* cs := match cell_col with
                 | Some cc => get_col df cc
                 | None => Ok (repeat PNA (List.length xs))
                 end in
      Ok (transcript_out xs ys gs cs)
  | _, _, _ =>
      Err ("Xenium: transcript table missing required columns " ++
           py_list_repr (missing_names [("x", x_col); ("y", y_col); ("gene", gene_col)]) ++
           ". Found columns: " ++ py_list_repr (frame_columns df) ++
           " (file: " ++ path ++ ")")%string
  end.

End Pandas.

(* ------------------------------------------------------------------ *)
(** ** Visium HD tissue positions (visium_hd.py) *)

(** [a or b] on two optional column names. *)
Definition or_else (a b : option string) : option string :=
  match a with Some _ => a | None => b end.

(** Keep the entries whose flag is [true] ([.loc[mask]]), in order. *)
Fixpoint select_rows {A} (keep : list bool) (c : list A) : list A :=
  match keep, c with
  | k :: ks, x :: xs => if k then x :: select_rows ks xs else select_rows ks xs
  | _, _ => []
  end.

Definition frame_filter_rows (keep : list bool) (df : frame) : frame :=
  map (fun nc => (nc.1, select_rows keep nc.2)) df.

(** Elementwise [.fillna(0)]. *)
Definition fillna0 (v : pyval) : pyval :=
  if is_missing v then PNum (NInt 0) else v.

(** Elementwise [.astype(int)] on a numeric series: ints stay, finite floats
    truncate toward zero, infinities raise (pandas' IntCastingNaNError).
    The int64 range is not modelled. *)
Definition astype_int (v : pyval) : Result Z :=
  match v with
  | PNum (NInt z) => Ok z
  | PNum (NFloat q) => Ok (Z.quot (Qnum q) (Zpos (Qden q)))
  | PNum (NInf _) => Err "Cannot convert non-finite values (NA or inf) to integer"
  | _ => Err "Cannot convert non-finite values (NA or inf) to integer"
  end.

Fixpoint mapR {A B} (f : A -> Result B) (l : list A) : Result (list B) :=
  match l with
  | [] => Ok []
  | x :: xs => let* y := f x in let* ys := mapR f xs in Ok (y :: ys)
  end.

Definition vhd_in_tissue_aliases : list string := ["in_tissue"; "tissue"].

Section VisiumHDPositions.
Variable num_of_str : string -> option pynum.
Variable float_repr : Q -> string.

(** The in-tissue filter of [_load_positions_as_cell_metadata]:
    [it = pd.to_numeric(df[in_tissue_col], errors="coerce")]; when
    [it.notna().any()], keep [out.loc[it.fillna(0).astype(int) == 1]]. *)
Definition vhd_in_tissue_filter (itv : column) (out : frame) : Result frame :=
  let it := map (to_numeric num_of_str) itv in
  if existsb (fun v => negb (is_missing v)) it then
    let* ints := mapR (fun v => astype_int (fillna0 v)) it in
    Ok (frame_filter_rows (map (fun z => Z.eqb z 1) ints) out)
  else Ok out.

(** [visium_hd._load_positions_as_cell_metadata], from the table read. *)
Definition vhd_load_positions_as_cell_metadata (path : string) (raw : frame) : Result frame :=
  let df := _standardize_columns raw in
  let colmap := _lower_map_columns (frame_columns df) in
  let barcode_col := _first_present colmap ["barcode"; "barcodes"; "spot"; "spot_id"; "cell_id"] in
  let in_tissue_col := _first_present colmap vhd_in_tissue_aliases in
  let px_row_col := _first_present colmap ["pxl_row_in_fullres"; "pixel_row"; "pxl_row"; "row_px"] in
  let px_col_col := _first_present colmap ["pxl_col_in_fullres"; "pixel_col"; "pxl_col"; "col_px"] in
  let array_row_col := _first_present colmap ["array_row"; "row"; "grid_row"] in
  let array_col_col := _first_present colmap ["array_col"; "col"; "grid_col"] in
  match barcode_col with
  | None =>
      Err ("Visium HD: tissue positions missing required barcode column. Found columns: " ++
           py_list_repr (frame_columns df) ++ " (file: " ++ path ++ ")")%string
  | Some bc =>
      match or_else px_col_col array_col_col, or_else px_row_col array_row_col with
      | Some x_src, Some y_src =>
          let* bcs := get_col df bc in
          let* xv := get_col df x_src in
          let* yv := get_col df y_src in
          let out := [("cell_id", map (as_string float_repr) bcs);
                      ("x", map (to_numeric num_of_str) xv);
                      ("y", map (to_numeric num_of_str) yv);
                      ("cell_type", repeat PNA (List.length bcs))] in
          match in_tissue_col with
          | None => Ok out
          | Some itc => let* itv := get_col df itc in vhd_in_tissue_filter itv out
          end
      | _, _ =>
          Err ("Visium HD: tissue positions missing required coordinate columns. " ++
               "Need pixel (pxl_*_in_fullres) or array (array_row/array_col). Found columns: " ++
               py_list_repr (frame_columns df) ++ " (file: " ++ path ++ ")")%string
      end
  end.

End VisiumHDPositions.

(* ------------------------------------------------------------------ *)
(** ** Sample instances of the library conversions

    Concrete choices of [num_of_str] and [float_repr] used to run the
    definitions on sample inputs; the theorems do not depend on them. *)

Fixpoint digits_prefix (s : string) : list ascii * string :=
  match s with
  | String a s' =>
      if is_digit a then let '(ds, r) := digits_prefix s' in (a :: ds, r)
      else ([], s)
  | EmptyString => ([], EmptyString)
  end.

Definition N_of_digits (ds : list ascii) : N :=
  fold_left (fun acc d => (acc * 10 + digit_val d)%N) ds 0%N.

(** Decimal literals [-12], [+3], [1.50]: an int without a point, a float
    with one; any other text does not parse. *)
Definition decimal_of_string (s : string) : option pynum :=
  let '(neg, body) :=
    match s with
    | String "-"%char r => (true, r)
    | String "+"%char r => (false, r)
    | _ => (false, s)
    end in
  let signed (n : N) : Z := if neg then (- Z.of_N n)%Z else Z.of_N n in
  let '(ids, rest) := digits_prefix body in
  match ids, rest with
  | _ :: _, EmptyString => Some (NInt (signed (N_of_digits ids)))
  | _, String "."%char r =>
      let '(fds, r2) := digits_prefix r in
      match ids ++ fds, r2 with
      | _ :: _, EmptyString =>
          Some (NFloat (Qmake (signed (N_of_digits (ids ++ fds)))
                              (Pos.of_nat (Nat.pow 10 (List.length fds)))))
      | _, _ => None
      end
  | _, _ => None
  end.

(** Integral floats print as CPython prints them ([3.0]); other values are
    shown as a fraction. *)
Definition sample_float_repr (q : Q) : string :=
  if Pos.eqb (Qden q) 1 then (str_of_Z (Qnum q) ++ ".0")%string
  else (str_of_Z (Qnum q) ++ "/" ++ str_of_Z (Zpos (Qden q)))%string.

(* ------------------------------------------------------------------ *)
(** ** Visium HD bin selection (visium_hd._discover_visium_root) *)

(** A Python float parsed from a digit string: the integer rounded to the
    nearest double (ties to even), or [inf] once it reaches 2^1024. *)
Inductive bin_score := BFin (v : N) | BInf.

Definition float_of_N (n : N) : bin_score :=
  let size := N.size n in
  if (size <=? 53)%N then BFin n
  else
    let shift := (size - 53)%N in
    let q := N.shiftr n shift in
    let r := N.land n (N.ones shift) in
    let half := N.shiftl 1 (shift - 1) in
    let q' := if (half <? r)%N || ((r =? half)%N && N.odd q) then (q + 1)%N else q in
    let v := N.shiftl q' shift in
    if (N.shiftl 1 1024 <=? v)%N then BInf else BFin v.

(** [float(m.group(1))] *)
Definition float_of_digits (ds : list ascii) : bin_score := float_of_N (N_of_digits ds).

(** [a <= b] on the scores. *)
Definition score_le (a b : bin_score) : bool :=
  match a, b with
  | BFin x, BFin y => (x <=? y)%N
  | _, BInf => true
  | BInf, BFin _ => false
  end.

(** [re.search] of the pattern (digit run, optional whitespace, [um]) in
    [s]: the leftmost start position where a
    digit run, optional whitespace and [um] follow; [\d+] is greedy and a
    shorter run is always followed by a digit, so the group is the whole run. *)
Fixpoint search_digits_um (s : string) : option (list ascii) :=
  match s with
  | EmptyString => None
  | String _ s' =>
      match digits_prefix s with
      | (ds, rest) =>
          match ds with
          | _ :: _ => if py_startswith (lstrip rest) "um" then Some ds else search_digits_um s'
          | [] => search_digits_um s'
          end
      end
  end.

(** [re.search] of a digit run in [s]. *)
Fixpoint search_digits (s : string) : option (list ascii) :=
  match s with
  | EmptyString => None
  | String _ s' =>
      match digits_prefix s with
      | (_ :: _ as ds, _) => Some ds
      | ([], _) => search_digits s'
      end
  end.

(** [bin_size_um(p)] on [p.name]. *)
Definition bin_size_um (name : string) : option bin_score :=
  match search_digits_um (py_lower name) with
  | Some ds => Some (float_of_digits ds)
  | None =>
      match search_digits name with
      | Some ds => Some (float_of_digits ds)
      | None => None
      end
  end.

(** [list.sort(key=...)]: a stable sort, here as an insertion sort that
    places each later element after the earlier ones with an equal key. *)
Fixpoint insert_by {A} (le : A -> A -> bool) (x : A) (l : list A) : list A :=
  match l with
  | [] => [x]
  | y :: l' => if le y x then y :: insert_by le x l' else x :: l
  end.

Definition sort_by {A} (le : A -> A -> bool) (l : list A) : list A :=
  fold_left (fun acc x => insert_by le x acc) l [].

(** [_discover_visium_root(base)], returning [bin_name]: [None] when the
    base itself is the root.  [binned] is [None] when [binned_outputs] does
    not exist or is not a directory, and otherwise lists its entries in
    [iterdir] order with a flag telling whether each is a directory. *)
Definition _discover_visium_root (binned : option (list (string * bool))) : option string :=
  match binned with
  | None => None
  | Some entries =>
      let bins := map fst (List.filter snd entries) in
      match bins with
      | [] => None
      | _ =>
          let scored := flat_map (fun d => match bin_size_um d with
                                           | Some s => [(s, d)]
                                           | None => []
                                           end) bins in
          let unscored := List.filter (fun d => match bin_size_um d with
                                                | Some _ => false
                                                | None => true
                                                end) bins in
          match sort_by (fun a b => score_le a.1 b.1) scored with
          | (_, chosen) :: _ => Some chosen
          | [] =>
              match sort_by String.leb unscored with
              | chosen :: _ => Some chosen
              | [] => None
              end
          end
      end
  end.

(* ------------------------------------------------------------------ *)
(** ** Matrix Market and dense loading (visium.py, xenium.py, visium_hd.py) *)

(** [f.readline()] on the remaining lines of a text file, each kept with
    its newline as [readline] returns it (so none is empty): the empty
    string at end of file. *)
Definition readline (ls : list string) : string * list string :=
  match ls with
  | [] => (EmptyString, [])
  | l :: r => (l, r)
  end.

(** [str.split()] with no separator: runs of whitespace separate fields. *)
Fixpoint split_ws_go (s : string) (cur : list ascii) : list string :=
  match s with
  | EmptyString => match cur with [] => [] | _ => [string_of_list_ascii (rev cur)] end
  | String a s' =>
      if py_isspace a then
        match cur with
        | [] => split_ws_go s' []
        | _ => string_of_list_ascii (rev cur) :: split_ws_go s' []
        end
      else split_ws_go s' (a :: cur)
  end.

Definition split_ws (s : string) : list string := split_ws_go s [].

(** [int(s)] on a field without whitespace: an optional sign, then digits
    with single underscores between them. *)
Fixpoint digits_underscore (s : string) (prev_digit : bool) : option (list ascii) :=
  match s with
  | EmptyString => if prev_digit then Some [] else None
  | String a s' =>
      if is_digit a then option_map (cons a) (digits_underscore s' true)
      else if (prev_digit && Ascii.eqb a "_"%char)%bool then
        match s' with
        | String b _ => if is_digit b then digits_underscore s' false else None
        | EmptyString => None
        end
      else None
  end.

Definition py_int (s : string) : Result Z :=
  let err := Err ("ValueError: invalid literal for int() with base 10: " ++ py_repr_str s)%string in
  let '(sign, body) :=
    match s with
    | String "-"%char r => ((-1)%Z, r)
    | String "+"%char r => (1%Z, r)
    | _ => (1%Z, s)
    end in
  match digits_underscore body false with
  | Some ds => Ok (sign * Z.of_N (N_of_digits ds))%Z
  | None => err
  end.

(** [int(v)] for a Python float (or int) [v]. *)
Definition py_int_of_float (v : pyval) : Result Z :=
  match v with
  | PNum (NInt z) => Ok z
  | PNum (NFloat q) => Ok (Z.quot (Qnum q) (Zpos (Qden q)))
  | PNum (NInf _) => Err "OverflowError: cannot convert float infinity to integer"
  | _ => Err "ValueError: cannot convert float NaN to integer"
  end.

(** [while line.startswith("%"): line = f.readline()] *)
Fixpoint skip_comment_lines (line : string) (ls : list string) {struct ls} : string * list string :=
  if py_startswith line "%" then
    match ls with
    | [] => (EmptyString, [])
    | l :: r => skip_comment_lines l r
    end
  else (line, ls).

(** A dense array: its shape and the assignments [mat[r, c] = int(v)] made
    on [np.zeros(shape)], in order, with the Python integers assigned; their storage
    in the [int32] array (which wraps, or raises from numpy 2 on, beyond 32
    bits) is not modelled. *)
Record dense := { d_rows : Z; d_cols : Z; d_set : list (Z * Z * Z) }.

Definition dense_shape (m : dense) : Z * Z := (d_rows m, d_cols m).

Definition visium_too_large_msg (path : string) (n_rows n_cols : Z) : string :=
  ("Visium: matrix is too large to load densely without scipy. " ++
   "shape=(" ++ str_of_Z n_rows ++ "," ++ str_of_Z n_cols ++ ") entries=" ++
   str_of_Z (n_rows * n_cols) ++ ". " ++
   "Install 'scipy' for sparse loading or export a smaller panel. " ++
   "(file: " ++ path ++ ")")%string.

Section MatrixMarket.
(** [float(s)] on a field: [PNum] or [PNaN], or an error. *)
Variable py_float : string -> Result pyval.

(** The entry loop of [_read_matrix_market_dense]: [k] lines still to read,
    [i] read so far. *)
Fixpoint mm_entries (path : string) (n_rows n_cols n_entries : Z) (i k : nat)
    (ls : list string) : Result (list (Z * Z * Z)) :=
  match k with
  | O => Ok []
  | S k' =>
      let '(row, ls') := readline ls in
      if String.eqb row EmptyString then
        Err ("Visium: unexpected EOF reading MatrixMarket entries (read " ++ str_of_N (N.of_nat i) ++
             "/" ++ str_of_Z n_entries ++ ") (file: " ++ path ++ ")")%string
      else
        let parts := split_ws (py_strip row) in
        match parts with
        | p0 :: p1 :: p2 :: _ =>
            let* r1 := py_int p0 in
            let* c1 := py_int p1 in
            let* v := py_float p2 in
            let r := (r1 - 1)%Z in
            let c := (c1 - 1)%Z in
            if ((r <? 0) || (c <? 0) || (n_rows <=? r) || (n_cols <=? c))%Z then
              Err ("Visium: entry index out of bounds: (" ++ str_of_Z (r + 1) ++ ", " ++
                   str_of_Z (c + 1) ++ ") for shape (" ++ str_of_Z n_rows ++ ", " ++
                   str_of_Z n_cols ++ ") (file: " ++ path ++ ")")%string
            else
              let* x := py_int_of_float v in
              let* rest := mm_entries path n_rows n_cols n_entries (S i) k' ls' in
              Ok ((r, c, x) :: rest)
        | _ =>
            Err ("Visium: invalid MatrixMarket entry line: " ++ py_repr_str row ++
                 " (file: " ++ path ++ ")")%string
        end
  end.

(** Header and dimension line of [_read_matrix_market_dense]: the declared
    [(n_rows, n_cols, n_entries)] and the lines after the dimension line. *)
Definition mm_read_dims (path : string) (lines : list string) : Result (Z * Z * Z * list string) :=
  let '(header, ls) := readline lines in
  if negb (py_startswith header "%%MatrixMarket") then
    Err ("Visium: not a MatrixMarket file: " ++ path)%string
  else
    let '(line0, ls0) := readline ls in
    let '(line, ls1) := skip_comment_lines line0 ls0 in
    match split_ws (py_strip line) with
    | [d0; d1; d2] =>
        let* n_rows := py_int d0 in
        let* n_cols := py_int d1 in
        let* n_entries := py_int d2 in
        Ok (n_rows, n_cols, n_entries, ls1)
    | _ =>
        Err ("Visium: invalid MatrixMarket dims line: " ++ py_repr_str line ++
             " (file: " ++ path ++ ")")%string
    end.

(** The part of [_read_matrix_market_dense] after the size guard:
    [np.zeros((n_rows, n_cols))], then the entry loop. *)
Definition mm_dense_alloc_fill (path : string) (n_rows n_cols n_entries : Z)
    (ls : list string) : Result dense :=
  if ((n_rows <? 0) || (n_cols <? 0))%Z then
    Err "ValueError: negative dimensions are not allowed"
  else
    let* sets := mm_entries path n_rows n_cols n_entries 0 (Z.to_nat n_entries) ls in
    Ok {| d_rows := n_rows; d_cols := n_cols; d_set := sets |}.

(** [visium._read_matrix_market_dense(path, max_dense_entries)] *)
Definition _read_matrix_market_dense (path : string) (max_dense_entries : Z)
    (lines : list string) : Result dense :=
  let* dims := mm_read_dims path lines in
  let '(n_rows, n_cols, n_entries, ls) := dims in
  if (max_dense_entries <? n_rows * n_cols)%Z then
    Err (visium_too_large_msg path n_rows n_cols)
  else mm_dense_alloc_fill path n_rows n_cols n_entries ls.

Definition _MAX_DENSE_ENTRIES : Z := 20000000.

(** [visium._load_mex_dir] once the three files were found: the feature and
    barcode name lists read, and the lines of [matrix.mtx].  The result is
    the cells x genes frame: its index, its columns and the matrix. *)
Definition visium_load_mex_dir (matrix_path : string) (features barcodes : list string)
    (lines : list string) : Result (list string * list string * dense) :=
  let* mat := _read_matrix_market_dense matrix_path _MAX_DENSE_ENTRIES lines in
  if negb (bool_decide (dense_shape mat = (Z.of_nat (List.length features), Z.of_nat (List.length barcodes)))) then
    Err ("Visium: matrix.mtx shape does not match features/barcodes: " ++
         "matrix=(" ++ str_of_Z (d_rows mat) ++ ", " ++ str_of_Z (d_cols mat) ++ "), features=" ++
         str_of_N (N.of_nat (List.length features)) ++ ", barcodes=" ++
         str_of_N (N.of_nat (List.length barcodes)) ++ " (file: " ++ matrix_path ++ ")")%string
  else Ok (barcodes, features, mat).
End MatrixMarket.

(** A sparse matrix as [scipy.io.mmread] returns it: shape and triples. *)
Record sparse := { sp_rows : Z; sp_cols : Z; sp_data : list (Z * Z * Z) }.

Definition sparse_T (m : sparse) : sparse :=
  {| sp_rows := sp_cols m; sp_cols := sp_rows m;
     sp_data := map (fun '(r, c, x) => (c, r, x)) (sp_data m) |}.

(** [pd.DataFrame.sparse.from_spmatrix(m, index=index, columns=columns)]:
    pandas' [_prep_index] checks the columns' length, then the index's. *)
Definition from_spmatrix (m : sparse) (index columns : list string) :
    Result (list string * list string * sparse) :=
  if negb (Z.eqb (Z.of_nat (List.length columns)) (sp_cols m)) then
    Err ("ValueError: Column length mismatch: " ++ str_of_N (N.of_nat (List.length columns)) ++
         " vs. " ++ str_of_Z (sp_cols m))%string
  else if negb (Z.eqb (Z.of_nat (List.length index)) (sp_rows m)) then
    Err ("ValueError: Index length mismatch: " ++ str_of_N (N.of_nat (List.length index)) ++
         " vs. " ++ str_of_Z (sp_rows m))%string
  else Ok (index, columns, m).

Section SparseMex.
(** [scipy.io.mmread(path).tocsc()]; its error text. *)
Variable mmread : string -> Result sparse.

(** [xenium._load_mex_dir] and [visium_hd._load_mex_dir] once scipy is
    importable and the three files were found; [platform] is the message
    prefix ([Xenium] or [Visium HD]). *)
Definition sparse_load_mex_dir (platform matrix_path : string)
    (barcodes features : list string) : Result (list string * list string * sparse) :=
  match mmread matrix_path with
  | Err e => Err (platform ++ ": failed reading MEX matrix " ++ matrix_path ++ ": " ++ e)%string
  | Ok mat => from_spmatrix (sparse_T mat) barcodes features
  end.
End SparseMex.

(** The dense fallback of [xenium._load_10x_h5] (scipy not importable),
    from the [shape] read in the file. *)
Definition xenium_too_large_msg (path : string) (n_features n_barcodes : Z) : string :=
  ("Xenium: reading cell_feature_matrix.h5 without scipy would require allocating a huge dense matrix. " ++
   "Install the optional dependency 'scipy' for sparse loading, or export a smaller matrix. " ++
   "(features=" ++ str_of_Z n_features ++ ", barcodes=" ++ str_of_Z n_barcodes ++
   ", file=" ++ path ++ ")")%string.

Section XeniumDense.
Variable A : Type.
(** What follows the guard: [np.zeros((n_barcodes, n_features))], the CSC
    fill and the frame. *)
Variable h5_dense_fill : Z -> Z -> Result A.

Definition xenium_h5_dense_fallback (path : string) (n_features n_barcodes : Z) : Result A :=
  let max_elements := 50000000%Z in
  if (max_elements <? n_features * n_barcodes)%Z then
    Err (xenium_too_large_msg path n_features n_barcodes)
  else h5_dense_fill n_features n_barcodes.
End XeniumDense.

(** A sample [float(s)] for evaluation: the decimal literals of
    [decimal_of_string]. *)
Definition sample_py_float (s : string) : Result pyval :=
  match decimal_of_string s with
  | Some n => Ok (PNum n)
  | None => Err ("ValueError: could not convert string to float: " ++ py_repr_str s)%string
  end.

(** Sample Matrix Market files, one line per element. *)
Definition newline : string := String (ascii_of_nat 10) EmptyString.

Definition mm_line (s : string) : string := (s ++ newline)%string.

Definition mm_small_2x3 : list string :=
  [mm_line "%%MatrixMarket matrix coordinate integer general";
   mm_line "% written by a test"; mm_line "2 3 2"; mm_line "1 1 5"; mm_line "2 3 7"].

Definition mm_header_5000x5000 : list string :=
  [mm_line "%%MatrixMarket matrix coordinate integer general"; mm_line "5000 5000 0"].

(* ------------------------------------------------------------------ *)
(** ** Platform adapters ([parse_cosmx], [parse_merscope], [parse_xenium],
       [parse_visium], [parse_visium_hd]) *)

Inductive platform := Cosmx | Merscope | Visium | VisiumHD | Xenium.

(** The prefix each adapter puts on its messages. *)
Definition platform_label (p : platform) : string :=
  match p with
  | Cosmx => "CosMx"
  | Merscope => "MERSCOPE"
  | Visium => "Visium"
  | VisiumHD => "Visium HD"
  | Xenium => "Xenium"
  end.

(** A cells x genes expression frame: index, columns, rows of values. *)
Record expr_matrix := {
  ex_index : list string;
  ex_columns : list string;
  ex_values : list (list pyval)
}.

(** [pd.DataFrame()] *)
Definition empty_expr : expr_matrix := {| ex_index := []; ex_columns := []; ex_values := [] |}.

Definition _TRANSCRIPT_REQUIRED_OUT_COLS : list string := ["x"; "y"; "gene"; "cell_id"].
Definition _CELL_REQUIRED_OUT_COLS : list string := ["cell_id"; "x"; "y"; "cell_type"].

(** [pd.DataFrame({c: pd.Series(dtype="object") for c in cols})] *)
Definition empty_frame (cols : list string) : frame := map (fun c => (c, [])) cols.
Definition _empty_transcript_df : frame := empty_frame _TRANSCRIPT_REQUIRED_OUT_COLS.
Definition _empty_cell_metadata_df : frame := empty_frame _CELL_REQUIRED_OUT_COLS.

Definition has_column (df : frame) (c : string) : bool :=
  existsb (String.eqb c) (frame_columns df).

(** The required-column check of [_validate_transcripts] and
    [_validate_cell_metadata]; every other check there only logs.  Visium
    reports all missing columns at once, the others the first one. *)
Definition validate_required (p : platform) (what : string) (req : list string)
    (df : frame) : Result unit :=
  let missing := List.filter (fun c => negb (has_column df c)) req in
  match p, missing with
  | _, [] => Ok tt
  | Visium, _ =>
      Err ("Visium: " ++ what ++ " missing required columns: " ++ py_list_repr missing)%string
  | _, c :: _ =>
      Err (platform_label p ++ ": " ++ what ++ " missing required column: " ++ c)%string
  end.

Definition _validate_transcripts (p : platform) (df : frame) : Result unit :=
  validate_required p "transcript_data" _TRANSCRIPT_REQUIRED_OUT_COLS df.

Definition _validate_cell_metadata (p : platform) (df : frame) : Result unit :=
  validate_required p "cell_metadata" _CELL_REQUIRED_OUT_COLS df.

(** What [_discover_files] found for each role.  Visium and Visium HD
    have no transcript role: their candidates carry no transcript file. *)
Record candidates := {
  cand_transcript : option string;
  cand_cell_metadata : option string;
  cand_expression : option string
}.

Definition has_transcript_role (p : platform) : bool :=
  match p with Visium | VisiumHD => false | _ => true end.

Definition discovered_transcript (p : platform) (c : candidates) : option string :=
  if has_transcript_role p then cand_transcript c else None.

(** The role loaders of one platform ([_load_transcripts],
    [_load_cell_metadata] / [_load_tissue_positions] /
    [_load_positions_as_cell_metadata], [_load_expression_matrix]). *)
Record loaders := {
  load_transcripts : string -> Result frame;
  load_cell_metadata : string -> Result frame;
  load_expression_matrix : string -> Result expr_matrix
}.

Record adapter_output := {
  out_platform : string;
  transcript_data : frame;
  cell_metadata : frame;
  expression_matrix : expr_matrix
}.

Definition platform_tag (p : platform) : string :=
  match p with
  | Cosmx => "cosmx"
  | Merscope => "merscope"
  | Visium => "visium"
  | VisiumHD => "visium_hd"
  | Xenium => "xenium"
  end.

(** [if cand is None: log; else: df = load(cand)] *)
Definition load_role {A} (default : A) (cand : option string) (load : string -> Result A) : Result A :=
  match cand with
  | None => Ok default
  | Some path => load path
  end.

(** The body of each [parse_<platform>] once [input_dir] exists and is a
    directory and discovery has run.  [_load_metadata_json] catches every
    error it meets and [_validate_expression] only logs, so neither can
    fail; the metadata dictionary is not modelled. *)
Definition parse_platform (p : platform) (cands : candidates) (ld : loaders) : Result adapter_output :=
  let* transcript_df := load_role _empty_transcript_df (discovered_transcript p cands) (load_transcripts ld) in
  let* cell_df := load_role _empty_cell_metadata_df (cand_cell_metadata cands) (load_cell_metadata ld) in
  let* expr_df := load_role empty_expr (cand_expression cands) (load_expression_matrix ld) in
  let* _ := _validate_transcripts p transcript_df in
  let* _ := _validate_cell_metadata p cell_df in
  Ok {| out_platform := platform_tag p; transcript_data := transcript_df;
        cell_metadata := cell_df; expression_matrix := expr_df |}.

(* ------------------------------------------------------------------ *)
(** ** Format detection (universal.detect_spatial_format) *)

Set Warnings "-register-all".

(** A directory tree on a case-sensitive file system. *)
Inductive fs_entry :=
| FFile (name : string)
| FDir (name : string) (children : list fs_entry).

Definition entry_name (e : fs_entry) : string :=
  match e with FFile n => n | FDir n _ => n end.

Definition entry_children (e : fs_entry) : list fs_entry :=
  match e with FFile _ => [] | FDir _ cs => cs end.

(** [{c.name.lower() for c in d.iterdir()}], the empty set when [iterdir]
    raises (on a file). *)
Definition lowered_names (e : fs_entry) : list string :=
  map (fun c => py_lower (entry_name c)) (entry_children e).

(** [d / name], when it exists. *)
Definition child_named (e : fs_entry) (name : string) : option fs_entry :=
  List.find (fun c => String.eqb (entry_name c) name) (entry_children e).

Definition mem (n : string) (names : list string) : bool := existsb (String.eqb n) names.

(** [set(sig) & names] is not empty. *)
Definition meets (sig names : list string) : bool := existsb (fun s => mem s names) sig.

(** [Path.suffixes], joined: from the first dot of the name with leading
    dots removed, nothing when the name ends with a dot. *)
Fixpoint lstrip_dots (s : string) : string :=
  match s with
  | String "."%char s' => lstrip_dots s'
  | _ => s
  end.

Fixpoint from_first_dot (s : string) : string :=
  match s with
  | EmptyString => EmptyString
  | String "."%char _ => s
  | String _ s' => from_first_dot s'
  end.

Definition joined_suffixes (name : string) : string :=
  if py_endswith name "." then EmptyString else from_first_dot (lstrip_dots name).

Definition _is_tabular_file (name : string) : bool :=
  mem (py_lower (joined_suffixes name)) [".csv"; ".tsv"; ".txt"; ".csv.gz"; ".tsv.gz"; ".txt.gz"].

Definition merscope_signature : list string :=
  ["detected_transcripts.csv"; "detected_transcripts.parquet"; "cell_by_gene.csv";
   "cell_by_gene.parquet"; "entity_by_gene.csv"; "entity_by_gene.parquet"].

Definition has_detected_transcripts (dn : list string) : bool :=
  existsb (fun n => py_contains n "detected_transcripts") dn.

Definition has_by_gene (dn : list string) : bool :=
  existsb (fun n => py_contains n "cell_by_gene" || py_contains n "entity_by_gene") dn.

(** The third test of [_merscope_in_dir]: a transcript-only or
    expression-only drop. *)
Definition merscope_weak_signature (dn : list string) : bool :=
  (has_detected_transcripts dn || has_by_gene dn) &&
  existsb (fun n => py_endswith n ".csv" || py_endswith n ".csv.gz" || py_endswith n ".parquet") dn.

Definition detection := (string * string)%type.

Definition _merscope_in_dir (d : fs_entry) (label : string) : option detection :=
  let dn := lowered_names d in
  if meets merscope_signature dn then
    Some ("merscope", "matched MERSCOPE signature in " ++ label)%string
  else if has_detected_transcripts dn && has_by_gene dn then
    Some ("merscope", "found detected_transcripts* and cell_by_gene*/entity_by_gene* in " ++ label)%string
  else if merscope_weak_signature dn then
    Some ("merscope", "weak MERSCOPE match in " ++ label)%string
  else None.

(** [to_check]: the root, its [analysis_outputs], then each child directory
    in sorted order followed by its own [analysis_outputs]. *)
Definition merscope_to_check (p : fs_entry) : list (fs_entry * string) :=
  [(p, "root")] ++
  match child_named p "analysis_outputs" with
  | Some a => [(a, "analysis_outputs")]
  | None => []
  end ++
  flat_map (fun c =>
    match c with
    | FDir n _ =>
        (c, "child:" ++ n)%string ::
        match child_named c "analysis_outputs" with
        | Some a => [(a, "child:" ++ n ++ "/analysis_outputs")%string]
        | None => []
        end
    | FFile _ => []
    end)
    (sort_by (fun a b => String.leb (entry_name a) (entry_name b)) (entry_children p)).

Fixpoint first_some {A B} (f : A -> option B) (l : list A) : option B :=
  match l with
  | [] => None
  | x :: xs => match f x with Some y => Some y | None => first_some f xs end
  end.

Definition merscope_scan (p : fs_entry) : option detection :=
  first_some (fun dl => _merscope_in_dir dl.1 dl.2) (merscope_to_check p).

Definition has_feature_matrix (names : list string) : bool :=
  meets ["filtered_feature_bc_matrix"; "filtered_feature_bc_matrix.h5";
         "raw_feature_bc_matrix"; "raw_feature_bc_matrix.h5"] names.

Definition _looks_like_visium_root (p : fs_entry) (names : list string) : bool :=
  mem "spatial" names && has_feature_matrix names &&
  meets ["tissue_positions.csv"; "tissue_positions_list.csv";
         "tissue_positions.parquet"; "tissue_positions_list.parquet"]
        (match child_named p "spatial" with Some s => lowered_names s | None => [] end).

(** [_looks_like_visium_hd_root(p, names)]; [parent_name] is [p.parent.name].
    When [binned_outputs] is listed in lowercase but [p / "binned_outputs"]
    cannot be listed (another case, or a file), [iterdir] raises and the
    function returns False. *)
Definition _looks_like_visium_hd_root (parent_name : string) (p : fs_entry) (names : list string) : bool :=
  let direct :=
    mem "spatial" names && has_feature_matrix names &&
    (let nm := py_lower (entry_name p) in
     (py_startswith nm "square_" && py_contains nm "um") ||
     String.eqb (py_lower parent_name) "binned_outputs") in
  if mem "binned_outputs" names then
    match child_named p "binned_outputs" with
    | Some (FDir _ bins) =>
        if existsb (fun d =>
              match d with
              | FDir _ _ => let dn := lowered_names d in _looks_like_visium_root d dn || mem "spatial" dn
              | FFile _ => false
              end) bins
        then true else direct
    | _ => false
    end
  else direct.

Definition xenium_signature (names : list string) : bool :=
  meets ["transcripts.parquet"; "cells.parquet"; "cell_feature_matrix.h5"; "experiment.xenium"] names.

Definition xenium_prefix_pair (names : list string) : bool :=
  existsb (fun n => py_startswith n "transcripts") names &&
  existsb (fun n => py_startswith n "cells") names.

Definition cosmx_signature (names : list string) : bool :=
  meets ["tx_file.csv"; "cell_metadata.csv"; "exprmat_file.csv"] names.

Definition cosmx_pair (names : list string) : bool :=
  existsb (fun n => py_contains n "tx_" || py_contains n "transcript") names &&
  existsb (fun n => py_contains n "cell_metadata" || py_contains n "cellmeta") names.

Definition tabular_files (p : fs_entry) : list string :=
  flat_map (fun c => match c with
                     | FFile n => if _is_tabular_file n then [n] else []
                     | FDir _ _ => []
                     end) (entry_children p).

(** [detect_spatial_format(p)]; [parent_name] is [p.parent.name]. *)
Definition detect_spatial_format (parent_name : string) (p : fs_entry) : Result detection :=
  match p with
  | FFile n =>
      if _is_tabular_file n then Ok ("tabular", "file suffix=" ++ py_lower (joined_suffixes n))%string
      else Err ("Input is a file, but not a supported tabular format. " ++
                "Expected .csv/.tsv/.txt (optionally .gz). Got: " ++ n)%string
  | FDir n _ =>
      let names := lowered_names p in
      match merscope_scan p with
      | Some res => Ok res
      | None =>
          if _looks_like_visium_hd_root parent_name p names then
            Ok ("visium_hd", "found Space Ranger binned_outputs/")
          else if _looks_like_visium_root p names then
            Ok ("visium", "found spatial/tissue_positions* and feature_bc_matrix")
          else if xenium_signature names then Ok ("xenium", "matched Xenium signature filename")
          else if xenium_prefix_pair names then Ok ("xenium", "found transcripts* and cells* files")
          else if mem "cell_feature_matrix" names then Ok ("xenium", "found cell_feature_matrix directory")
          else if cosmx_signature names then Ok ("cosmx", "matched CosMx signature filename")
          else if cosmx_pair names then Ok ("cosmx", "found tx/transcript and cell metadata files")
          else
            match tabular_files p with
            | [t] => Ok ("tabular", "directory contains single tabular file: " ++ t)%string
            | _ =>
                Err ("Could not determine spatial format for directory. " ++
                     "Expected a CosMx, MERSCOPE, Visium/Visium HD, or Xenium output directory, or a CSV/TSV file. " ++
                     "Directory: " ++ n)%string
            end
      end
  end.

(** A drop holding a MERSCOPE transcript table next to CosMx tables. *)
Definition mixed_drop : fs_entry :=
  FDir "run1" [FFile "detected_transcripts_region_0.csv"; FFile "tx_file.csv"; FFile "cell_metadata.csv"].

(* ------------------------------------------------------------------ *)
(** ** Expression tables (cosmx._load_expression_matrix,
       xenium._load_expression_table_csv, visium_hd._load_expression_table_csv) *)






(** [df[[a, b, c]]]: every column holding each label, label by label. *)
Definition select_labels (df : frame) (labels : list string) : frame :=
  flat_map (fun l => List.filter (fun nc => String.eqb nc.1 l) df) labels.

(** A key of the pivot: a [string]-dtype value, [None] for [<NA>]. *)
Definition key_of (v : pyval) : option string :=
  match v with PStr s => Some s | _ => None end.










Section Pivot.
(** [float_sum ns]: pandas' float64 groupby sum (compensated summation,
    with float64 rounding and overflow) of the non-empty list [ns] of the
    group's non-missing counts, in row order; an integer [NInt z] here
    stands for its float64 value.  The result is a float, an infinity or
    NaN (e.g. for [inf] and [-inf]). *)
Variable float_sum : list pynum -> pyval.






End Pivot.




Section ExprTable.
Variable num_of_str : string -> option pynum.
Variable float_repr : Q -> string.
Variable float_sum : list pynum -> pyval.



End ExprTable.





(* ------------------------------------------------------------------ *)
(** ** Text files and TSV name lists (visium.py, xenium.py, visium_hd.py) *)

Definition LF : ascii := ascii_of_nat 10.
Definition CR : ascii := ascii_of_nat 13.
Definition TAB : ascii := ascii_of_nat 9.

(** Iterating a text file opened with [newline=""] (visium.py's
    [_read_text_maybe_gz]): a line ends at \n, \r\n or a lone \r, and keeps
    its ending untranslated.  [cur] is the line read so far. *)
Fixpoint lines_untranslated_go (s cur : string) : list string :=
  match s with
  | EmptyString => if String.eqb cur EmptyString then [] else [cur]
  | String a s' =>
      if Ascii.eqb a LF then (cur ++ String LF EmptyString)%string :: lines_untranslated_go s' EmptyString
      else if Ascii.eqb a CR then
        match s' with
        | String b s'' =>
            if Ascii.eqb b LF then (cur ++ String CR (String LF EmptyString))%string :: lines_untranslated_go s'' EmptyString
            else (cur ++ String CR EmptyString)%string :: lines_untranslated_go s' EmptyString
        | EmptyString => [(cur ++ String CR EmptyString)%string]
        end
      else lines_untranslated_go s' (cur ++ String a EmptyString)
  end.

Definition lines_untranslated (s : string) : list string := lines_untranslated_go s EmptyString.

(** The default [newline=None] of [open(path, "rt")] and [gzip.open(path,
    "rt")]: \r\n and a lone \r are read as \n. *)
Fixpoint translate_newlines (s : string) : string :=
  match s with
  | EmptyString => EmptyString
  | String a s' =>
      if Ascii.eqb a CR then
        match s' with
        | String b s'' => if Ascii.eqb b LF then String LF (translate_newlines s'')
                          else String LF (translate_newlines s')
        | EmptyString => String LF EmptyString
        end
      else String a (translate_newlines s')
  end.

(** The lines of a file opened with the default newline handling. *)
Definition lines_translated (s : string) : list string :=
  lines_untranslated (translate_newlines s).

(** [s.rstrip(c)] for one character [c]. *)
Fixpoint rstrip_char (c : ascii) (s : string) : string :=
  match s with
  | EmptyString => EmptyString
  | String a s' =>
      let r := rstrip_char c s' in
      if String.eqb r EmptyString && Ascii.eqb a c then EmptyString else String a r
  end.

(** [s.split(sep)] for a one-character separator: never empty. *)
Fixpoint split_on_go (sep : ascii) (s cur : string) : list string :=
  match s with
  | EmptyString => [cur]
  | String a s' =>
      if Ascii.eqb a sep then cur :: split_on_go sep s' EmptyString
      else split_on_go sep s' (cur ++ String a EmptyString)
  end.

Definition split_on (sep : ascii) (s : string) : list string := split_on_go sep s EmptyString.

(** [visium._read_tsv_first_col], from the file's text. *)
Definition visium_read_tsv_first_col (text : string) : list string :=
  flat_map (fun line =>
    let l := rstrip_char LF line in
    if String.eqb l EmptyString then [] else [hd EmptyString (split_on TAB l)])
    (lines_untranslated text).

(** [visium._read_tsv_first_or_second_col], from the file's text. *)
Definition visium_read_tsv_first_or_second_col (text : string) : list string :=
  flat_map (fun line =>
    let l := rstrip_char LF line in
    if String.eqb l EmptyString then []
    else
      let parts := split_on TAB l in
      match parts with
      | _ :: p1 :: _ => if negb (String.eqb (py_strip p1) EmptyString) then [p1] else [hd EmptyString parts]
      | _ => [hd EmptyString parts]
      end)
    (lines_untranslated text).

(** The rows of [xenium._read_tsv_first_col] and
    [visium_hd._read_tsv_first_col]:
    [[line.rstrip("\n").split("\t") for line in f if line.strip()]]. *)
Definition tsv_rows (text : string) : list (list string) :=
  map (fun line => split_on TAB (rstrip_char LF line))
      (List.filter (fun line => negb (String.eqb (py_strip line) EmptyString)) (lines_translated text)).

(** [r[1]] *)
Definition second_field (r : list string) : Result string :=
  match r with
  | _ :: x :: _ => Ok x
  | _ => Err "IndexError: list index out of range"
  end.

(** [xenium._read_tsv_first_col(path, prefer_second_col)] (the
    [visium_hd] copy is identical), from the file's text. *)
Definition xenium_read_tsv_first_col (text : string) (prefer_second_col : bool) : Result (list string) :=
  match tsv_rows text with
  | [] => Ok []
  | (r0 :: _) as rows =>
      if prefer_second_col && (2 <=? List.length r0)%nat then mapR second_field rows
      else Ok (map (hd EmptyString) rows)
  end.

(** A name without whitespace (no tab, no line break). *)
Fixpoint no_space (s : string) : bool :=
  match s with
  | EmptyString => true
  | String a s' => negb (py_isspace a) && no_space s'
  end.

(** A string of whitespace only, which [str.strip] empties. *)
Fixpoint all_space (s : string) : bool :=
  match s with
  | EmptyString => true
  | String a s' => py_isspace a && all_space s'
  end.

Definition crlf : string := String CR (String LF EmptyString).
Definition lf : string := String LF EmptyString.

(** A field without tab or line break (it may hold spaces, as the
    feature type [Gene Expression] does). *)
Fixpoint no_tab_nl (s : string) : bool :=
  match s with
  | EmptyString => true
  | String a s' => negb (Ascii.eqb a TAB || Ascii.eqb a LF || Ascii.eqb a CR) && no_tab_nl s'
  end.

(** A features.tsv line: id, name and type separated by tabs. *)
Definition feature_line (f : string * string * string) (ending : string) : string :=
  let '(i, n, t) := f in (i ++ String TAB n ++ String TAB t ++ ending)%string.

(** A features.tsv file, one line per feature. *)
Definition features_text (feats : list (string * string * string)) (ending : string) : string :=
  fold_right (fun f acc => feature_line f ending ++ acc)%string EmptyString feats.

(** Names that satisfy [names_ok] make a well-formed one-per-line file. *)
Definition names_ok (names : list string) : Prop :=
  Forall (fun b => b <> EmptyString /\ no_space b = true) names.

(** Well-formed features.tsv lines. *)
Definition feats_ok (feats : list (string * string * string)) : Prop :=
  Forall (fun f => let '(i, n, t) := f in no_space i = true /\ no_space n = true /\ no_tab_nl t = true) feats.

(** A file of one name per line, with the given line ending. *)
Definition one_per_line (ending : string) (names : list string) : string :=
  fold_right (fun b acc => b ++ ending ++ acc)%string EmptyString names.

(** An entry [(r, c, x)] of a dense matrix lies inside its shape. *)
Definition entry_in_bounds (n_rows n_cols : Z) (e : Z * Z * Z) : Prop :=
  let '(r, c, _) := e in (0 <= r < n_rows /\ 0 <= c < n_cols)%Z.

(* ------------------------------------------------------------------ *)
(** ** Cell metadata loaders (cosmx.py, xenium.py, merscope.py) and the
       tabular cells file (universal.py) *)

Section CellMetadata.
Variable num_of_str : string -> option pynum.
Variable float_repr : Q -> string.

(** [pd.DataFrame({"cell_id": df[cell_col].astype("string"), "x": ..,
    "y": .., "cell_type": ..})], then [_coerce_numeric(out, ["x","y"])] and
    [out["cell_type"] = out["cell_type"].astype("string")]. *)
Definition cell_metadata_out (ids xs ys ts : column) : frame :=
  [("cell_id", map (as_string float_repr) ids);
   ("x", map (to_numeric num_of_str) xs);
   ("y", map (to_numeric num_of_str) ys);
   ("cell_type", map (as_string float_repr) ts)].

(** [df[col] if col is not None else pd.NA]: the scalar [pd.NA] is
    broadcast to the [n] rows of the cell_id series. *)
Definition col_or_na (df : frame) (col : option string) (n : nat) : Result column :=
  match col with
  | Some c => get_col df c
  | None => Ok (repeat PNA n)
  end.

(** What distinguishes the three [_load_cell_metadata]: the aliases of each
    column and the words of the missing-id message. *)
Record cell_table_aliases := {
  ct_platform : string;
  ct_table : string;
  ct_id_what : string;
  ct_cell : list string;
  ct_x : list string;
  ct_y : list string;
  ct_type : list string
}.

Definition cosmx_cell_aliases : cell_table_aliases := {|
  ct_platform := "CosMx"; ct_table := "CSV"; ct_id_what := "cell id";
  ct_cell := ["cell_id"; "cellid"; "cell"; "cell_id_int"];
  ct_x := ["x"; "centerx"; "centroid_x"; "centroidx"; "x_center"];
  ct_y := ["y"; "centery"; "centroid_y"; "centroidy"; "y_center"];
  ct_type := ["cell_type"; "celltype"; "cell_class"; "classification"; "cluster"; "annotation"; "celltype_label"] |}.

Definition xenium_cell_aliases : cell_table_aliases := {|
  ct_platform := "Xenium"; ct_table := "table"; ct_id_what := "cell id";
  ct_cell := ["cell_id"; "cellid"; "cell"; "barcode"];
  ct_x := ["x"; "x_centroid"; "centroid_x"; "centerx"];
  ct_y := ["y"; "y_centroid"; "centroid_y"; "centery"];
  ct_type := ["cell_type"; "celltype"; "annotation"; "cluster"; "graphclust"; "kmeans"; "label"] |}.

Definition merscope_cell_aliases : cell_table_aliases := {|
  ct_platform := "MERSCOPE"; ct_table := "table"; ct_id_what := "entity/cell id";
  ct_cell := ["entityid"; "entity_id"; "cell_id"; "cellid"; "cell"; "barcode"];
  ct_x := ["center_x"; "x"; "x_centroid"; "centroid_x"; "centerx"];
  ct_y := ["center_y"; "y"; "y_centroid"; "centroid_y"; "centery"];
  ct_type := ["cell_type"; "celltype"; "annotation"; "cluster"; "label"; "cell_class"] |}.

(** [_load_cell_metadata] of cosmx.py ([a = cosmx_cell_aliases]), xenium.py
    and merscope.py, from the table [pd.read_csv] / [_read_table] returned;
    the NaN-cell_id warning only logs. *)
Definition _load_cell_metadata (a : cell_table_aliases) (path : string) (raw : frame) : Result frame :=
  let df := _standardize_columns raw in
  let colmap := _lower_map_columns (frame_columns df) in
  let cell_col := _first_present colmap (ct_cell a) in
  let x_col := _first_present colmap (ct_x a) in
  let y_col := _first_present colmap (ct_y a) in
  let type_col := _first_present colmap (ct_type a) in
  match cell_col with
  | None =>
      Err (ct_platform a ++ ": cell metadata " ++ ct_table a ++ " missing required " ++
           ct_id_what a ++ " column. " ++
           "Found columns: " ++ py_list_repr (frame_columns df) ++ " (file: " ++ path ++ ")")%string
  | Some cc =>
      let* ids := get_col df cc in
      let* xs := col_or_na df x_col (List.length ids) in
      let* ys := col_or_na df y_col (List.length ids) in
      let* ts := col_or_na df type_col (List.length ids) in
      Ok (cell_metadata_out ids xs ys ts)
  end.

(** [len(df)]: the length of the columns (a frame read from a file is
    rectangular). *)
Definition frame_nrows (df : frame) : nat :=
  match df with
  | [] => 0
  | (_, c) :: _ => List.length c
  end.

Definition index_label (v : pyval) : string :=
  match key_of (as_string float_repr v) with Some s => s | None => "<NA>" end.

Definition tabular_cell_aliases : list string := ["cell_id"; "cellid"; "cell"; "barcode"; "id"].
Definition tabular_x_aliases : list string := ["x"; "x_coord"; "xcoord"; "x_centroid"; "centerx"; "centroid_x"].
Definition tabular_y_aliases : list string := ["y"; "y_coord"; "ycoord"; "y_centroid"; "centery"; "centroid_y"].
Definition tabular_type_aliases : list string := ["cell_type"; "celltype"; "type"; "annotation"; "cluster"; "label"].

(** [universal._parse_tabular_cells], from the table
    [pd.read_csv(path, sep=None, engine="python")] returned; the metadata
    dictionary and the NaN-coordinate warning are not modelled. *)
Definition parse_tabular_cells (path : string) (raw : frame) : Result adapter_output :=
  let df := _standardize_columns raw in
  let colmap := _lower_map_columns (frame_columns df) in
  let cell_col := _first_present colmap tabular_cell_aliases in
  let x_col := _first_present colmap tabular_x_aliases in
  let y_col := _first_present colmap tabular_y_aliases in
  let type_col := _first_present colmap tabular_type_aliases in
  match cell_col, x_col, y_col with
  | Some cc, Some xc, Some yc =>
      let* ids := get_col df cc in
      let* xs := get_col df xc in
      let* ys := get_col df yc in
      let* ts := match type_col with
                 | Some tc => get_col df tc
                 | None => Ok (repeat PNA (frame_nrows df))
                 end in
      let cell_metadata := cell_metadata_out ids xs ys ts in
      let known_cols := [cc; xc; yc] ++ match type_col with Some tc => [tc] | None => [] end in
      let gene_cols := List.filter (fun c => negb (mem c known_cols)) (frame_columns df) in
      let index := map index_label (map (as_string float_repr) ids) in
      let expr :=
        match gene_cols with
        | _ :: _ =>
            let sel := select_labels df gene_cols in
            {| ex_index := index;
               ex_columns := map fst sel;
               ex_values := map (fun i => map (fun nc => fillna0 (to_numeric num_of_str (nth i nc.2 PNaN))) sel)
                                (seq 0 (List.length ids)) |}
        | [] => {| ex_index := index; ex_columns := []; ex_values := map (fun _ => []) index |}
        end in
      Ok {| out_platform := "tabular";
            transcript_data := empty_frame _TRANSCRIPT_REQUIRED_OUT_COLS;
            cell_metadata := cell_metadata;
            expression_matrix := expr |}
  | _, _, _ =>
      Err ("Tabular cells file missing required columns " ++
           py_list_repr (missing_names [("cell_id", cell_col); ("x", x_col); ("y", y_col)]) ++
           ". Found columns: " ++ py_list_repr (frame_columns df) ++
           " (file: " ++ path ++ ")")%string
  end.

End CellMetadata.

(** A cell table with coordinates and no cell id column. *)
Definition cells_no_id_sample : frame :=
  [(" CenterX", [PNum (NInt 1)]); ("CenterY ", [PNum (NInt 2)])].

(** A cell table with an id (one missing) and an x column only. *)
Definition cells_sample : frame :=
  [("Cell_ID ", [PStr "c1"; PNaN]); ("x", [PNum (NInt 1); PStr "n/a"])].

(** A tabular cells file with a second x-like column. *)
Definition tabular_sample : frame :=
  [("id", [PStr "a"; PStr "b"]); ("x", [PNum (NInt 1); PStr "z"]);
   ("y", [PNum (NInt 1); PNaN]); ("centroid_x", [PStr "q"; PNum (NInt 3)])].

(* ------------------------------------------------------------------ *)
(** ** Visium tissue positions and expression matrix (visium.py) *)

Section VisiumPositions.
Variable num_of_str : string -> option pynum.
Variable float_repr : Q -> string.
Variable pandas_ver : pandas_major.

Definition tissue_positions_names : list string :=
  ["barcode"; "in_tissue"; "array_row"; "array_col"; "pxl_row_in_fullres"; "pxl_col_in_fullres"].

(** The [try]/[except] of [_load_tissue_positions] choosing the table:
    [read_header] is [pd.read_csv(path, header=0, sep=None, engine="python")],
    [read_headerless] the read with [header=None, names=tissue_positions_names].
    An exception of the first read, or a 6-column table whose first label
    is not barcode, falls back to the second, whose exception propagates. *)
Definition tissue_positions_table (read_header read_headerless : Result frame) : Result frame :=
  match read_header with
  | Ok df =>
      if (Nat.eqb (List.length df) 6 &&
          negb (String.eqb (lowered (hd EmptyString (frame_columns df))) "barcode"))%bool
      then read_headerless else Ok df
  | Err _ => read_headerless
  end.

(** [{c.lower(): c for c in df.columns}]: the last label wins. *)
Definition col_lut (cols : list string) : gmap string string :=
  foldl (fun m c => <[py_lower c := c]> m) ∅ cols.

(** The rest of [_load_tissue_positions], from the chosen table. *)
Definition tissue_positions_out (path : string) (df0 : frame) : Result frame :=
  let df := _standardize_columns df0 in
  let lut := col_lut (frame_columns df) in
  let barcode_col := lut !! "barcode" in
  let px_row_col := lut !! "pxl_row_in_fullres" in
  let px_col_col := lut !! "pxl_col_in_fullres" in
  match barcode_col, px_row_col, px_col_col with
  | Some bc, Some pr, Some pc =>
      let* bcs := get_col df bc in
      let* pcs := get_col df pc in
      let* prs := get_col df pr in
      Ok [("cell_id", map (astype_str float_repr pandas_ver) bcs);   (* .astype(str) *)
          ("x", map (to_numeric num_of_str) pcs);
          ("y", map (to_numeric num_of_str) prs);
          ("cell_type", repeat PNA (frame_nrows df))]
  | _, _, _ =>
      Err ("Visium: tissue_positions missing required columns: " ++
           py_list_repr (missing_names [("barcode", barcode_col); ("pxl_row_in_fullres", px_row_col);
                                        ("pxl_col_in_fullres", px_col_col)]) ++
           " (file: " ++ path ++ ")")%string
  end.

Definition _load_tissue_positions (path : string) (read_header read_headerless : Result frame) : Result frame :=
  let* df := tissue_positions_table read_header read_headerless in
  tissue_positions_out path df.

End VisiumPositions.

(** [_discover_files(base).expression]: the first of these names that
    exists in [base], with its path. *)
Definition visium_expression_names : list string :=
  ["filtered_feature_bc_matrix.h5"; "filtered_feature_bc_matrix";
   "raw_feature_bc_matrix.h5"; "raw_feature_bc_matrix"].

Definition visium_discover_expression (base_path : string) (base : fs_entry) : option (string * fs_entry) :=
  first_some (fun n => match child_named base n with
                       | Some e => Some (base_path ++ "/" ++ n, e)%string
                       | None => None
                       end) visium_expression_names.

(** [visium._load_expression_matrix]; [load_mex] is [_load_mex_dir]. *)
Definition visium_load_expression_matrix (load_mex : string -> fs_entry -> Result expr_matrix)
    (path : string) (e : fs_entry) : Result expr_matrix :=
  match e with
  | FDir _ _ => load_mex path e
  | FFile n =>
      if py_endswith (py_lower (joined_suffixes n)) ".h5" then
        Err ("Visium: reading *.h5 matrices requires optional dependencies (e.g., h5py/scipy). " ++
             "Provide a filtered_feature_bc_matrix/ MEX directory instead. (file: " ++ path ++ ")")%string
      else Err ("Visium: unsupported expression matrix path: " ++ path)%string
  end.

(** The expression role of [parse_visium]: the empty frame when nothing
    was found, the loader's result otherwise. *)
Definition visium_expression_role (load_mex : string -> fs_entry -> Result expr_matrix)
    (base_path : string) (base : fs_entry) : Result expr_matrix :=
  match visium_discover_expression base_path base with
  | None => Ok empty_expr
  | Some (path, e) => visium_load_expression_matrix load_mex path e
  end.

(** A Space Ranger output with both an .h5 matrix and a MEX directory. *)
Definition visium_h5_and_mex : fs_entry :=
  FDir "sample" [FDir "filtered_feature_bc_matrix" [FFile "matrix.mtx.gz"; FFile "features.tsv.gz"; FFile "barcodes.tsv.gz"];
                 FFile "filtered_feature_bc_matrix.h5"; FDir "spatial" [FFile "tissue_positions.csv"]].

(** A headerless tissue_positions_list.csv as pandas reads it both ways. *)
Definition positions_header_read : frame :=
  [("ACGT-1", [PStr "TTGA-1"]); ("1", [PNum (NInt 1)]); ("0", [PNum (NInt 0)]); ("0.1", [PNum (NInt 1)]);
   ("100", [PNum (NInt 120)]); ("200", [PNum (NInt 240)])].

Definition positions_headerless_read : frame :=
  [("barcode", [PStr "ACGT-1"; PStr "TTGA-1"]); ("in_tissue", [PNum (NInt 1); PNum (NInt 1)]);
   ("array_row", [PNum (NInt 0); PNum (NInt 0)]); ("array_col", [PNum (NInt 0); PNum (NInt 1)]);
   ("pxl_row_in_fullres", [PNum (NInt 100); PNum (NInt 120)]);
   ("pxl_col_in_fullres", [PNum (NInt 200); PNum (NInt 240)])].

(** The transcript table the loaders promise: the canonical columns in
    order, [n] rows, numeric-or-NaN coordinates, cell ids as strings or
    [pd.NA], accepted by the platform's [_validate_transcripts]. *)
Definition canonical_transcripts (p : platform) (n : nat) (out : frame) : Prop :=
  exists xs ys gs cs,
    out = [("x", xs); ("y", ys); ("gene", gs); ("cell_id", cs)] /\
    List.length xs = n /\ List.length ys = n /\ List.length gs = n /\ List.length cs = n /\
    Forall (fun v => v = PNaN \/ exists k, v = PNum k) xs /\
    Forall (fun v => v = PNaN \/ exists k, v = PNum k) ys /\
    Forall (fun v => v = PNA \/ exists s, v = PStr s) cs /\
    _validate_transcripts p out = Ok tt.

(** A CosMx transcript table with padded labels and no cell column. *)
Definition cosmx_tx_sample : frame :=
  [(" x_global_px", [PNum (NInt 10); PStr "bad"]); ("y_global_px ", [PNum (NInt 20); PNum (NInt 21)]);
   ("target", [PStr "EGFR"; PNaN])].


(* ------------------------------------------------------------------ *)
(** ** File picking in discovery (xenium.py, cosmx.py, visium.py) *)

(** [pick_file(preferred_names, contains_any, pool)] of
    [xenium._discover_files]; [cosmx._discover_files.pick] is the same
    with [pool = csvs].  Files are named relative to [base]; [p.exists()]
    holds for any entry of that name. *)
Definition pick_file (base : fs_entry) (preferred_names contains_any pool : list string) : option string :=
  match first_some (fun name => match child_named base name with
                                | Some _ => Some name
                                | None => None
                                end) preferred_names with
  | Some p => Some p
  | None =>
      (* lowered = {p.name.lower(): p for p in pool}: the last one wins *)
      let lowered := col_lut pool in
      match first_some (fun name => lowered !! py_lower name) preferred_names with
      | Some p => Some p
      | None =>
          let contains_any_l := map py_lower contains_any in
          find (fun p => existsb (fun c => py_contains (py_lower p) c) contains_any_l) pool
      end
  end.

(** [{c.name.lower(): c for c in base.iterdir()}] *)
Definition lower_entries (base : fs_entry) : gmap string fs_entry :=
  foldl (fun m c => <[py_lower (entry_name c) := c]> m) ∅ (entry_children base).

(** [visium._first_existing(base, names)]; [_load_mex_dir] calls it on the
    MEX directory [base], named [dname] with entries [children]: for each
    name in turn, the exact entry, else the case-insensitive one. *)
Definition visium_first_existing (dname : string) (children : list fs_entry) (names : list string)
  : option fs_entry :=
  let base := FDir dname children in
  first_some (fun n => match child_named base n with
                       | Some p => Some p
                       | None => lower_entries base !! py_lower n
                       end) names.

Definition mex_matrix_names : list string := ["matrix.mtx.gz"; "matrix.mtx"].
Definition mex_features_names : list string := ["features.tsv.gz"; "features.tsv"; "genes.tsv.gz"; "genes.tsv"].
Definition mex_barcodes_names : list string := ["barcodes.tsv.gz"; "barcodes.tsv"].

(** The file lookup at the start of [visium._load_mex_dir(path)], on the
    directory [path] named [dname] with entries [children]. *)
Definition visium_mex_files (path dname : string) (children : list fs_entry)
  : Result (fs_entry * fs_entry * fs_entry) :=
  let matrix_path := visium_first_existing dname children mex_matrix_names in
  let features_path := visium_first_existing dname children mex_features_names in
  let barcodes_path := visium_first_existing dname children mex_barcodes_names in
  let missing := map fst (List.filter (fun np => match np.2 with None => true | Some _ => false end)
                   [("matrix.mtx(.gz)", matrix_path); ("features.tsv(.gz)", features_path);
                    ("barcodes.tsv(.gz)", barcodes_path)]) in
  let err := Err ("Visium: MEX directory missing required files: " ++ py_list_repr missing ++
                  " (dir: " ++ path ++ ")")%string in
  match missing with
  | _ :: _ => err
  | [] =>
      match matrix_path, features_path, barcodes_path with
      | Some m, Some f, Some b => Ok (m, f, b)
      | _, _, _ => err (* not reached: [missing] is empty *)
      end
  end.

(** A MEX directory holding an upper-case gzipped matrix beside a plain one. *)
Definition mex_mixed_case : list fs_entry :=
  [FFile "matrix.mtx"; FFile "MATRIX.MTX.GZ"; FFile "features.tsv.gz"; FFile "barcodes.tsv.gz"].

(** CSV files of a CosMx export named in mixed case. *)
Definition cosmx_mixed_csvs : list string := ["Run1_tx_file.csv"; "Cell_Metadata.CSV"].

(* ------------------------------------------------------------------ *)
(** ** Run metadata (cosmx.py, xenium.py, merscope.py) *)

Section RunMetadata.
(** [json_value]: what [json.load] returns; [files_value]: the ["files"]
    summary dict. *)
Variable json_value files_value : Type.

Inductive meta_value :=
| MJson (v : json_value)
| MStr (s : string)
| MFiles (f : files_value).

(** [_load_metadata_json(json_files)]: each file as its [p.name] and the
    result of [json.load], [None] when reading raised (a warning is
    logged and the file skipped). *)
Definition _load_metadata_json (json_files : list (string * option json_value)) : gmap string meta_value :=
  match json_files with
  | [] => ∅
  | _ =>
      foldl (fun meta p => match p.2 with
                           | Some v => <[p.1 := MJson v]> meta
                           | None => meta
                           end) ∅ json_files
  end.

(** [dict.setdefault(k, v)] *)
Definition setdefault (k : string) (v : meta_value) (m : gmap string meta_value) : gmap string meta_value :=
  match m !! k with
  | Some _ => m
  | None => <[k := v]> m
  end.

(** The [metadata] dict built by [parse_cosmx], [parse_xenium] and
    [parse_merscope]. *)
Definition run_metadata (base : string) (files : files_value)
    (json_files : list (string * option json_value)) : gmap string meta_value :=
  setdefault "files" (MFiles files) (setdefault "input_dir" (MStr base) (_load_metadata_json json_files)).

End RunMetadata.

Arguments MJson {json_value files_value} v.
Arguments MStr {json_value files_value} s.
Arguments MFiles {json_value files_value} f.

(* ================================================================== *)
(** * Proofs *)

(** ** Column resolver *)

Lemma lower_map_fold_lookup (columns : list string) (m : gmap string string) (l : string) :
  foldl lower_map_step m columns !! l =
  match m !! l with
  | Some v => Some v
  | None => find (fun c => String.eqb (lowered c) l) columns
  end.
Proof.
  revert m. induction columns as [|c cs IH]; intros m; simpl.
  - destruct (m !! l); reflexivity.
  - rewrite IH. unfold lower_map_step.
    destruct (m !! lowered c) as [v|] eqn:E.
    + destruct (String.eqb_spec (lowered c) l) as [<-|Hne].
      * rewrite E. reflexivity.
      * destruct (m !! l); reflexivity.
    + destruct (String.eqb_spec (lowered c) l) as [<-|Hne].
      * rewrite lookup_insert_eq, E. reflexivity.
      * rewrite lookup_insert_ne by congruence. reflexivity.
Qed.

Lemma lower_map_lookup (columns : list string) (l : string) :
  _lower_map_columns columns !! l = find (fun c => String.eqb (lowered c) l) columns.
Proof.
  unfold _lower_map_columns. rewrite lower_map_fold_lookup. reflexivity.
Qed.

Lemma find_none_existsb {A} (f : A -> bool) (l : list A) :
  find f l = None <-> existsb f l = false.
Proof.
  induction l as [|x l IH]; simpl; [tauto|].
  destruct (f x); simpl; [split; congruence | exact IH].
Qed.

Example resolve_ex1 : resolve ["b"; "a"] ["a"; "b"] = Some "a".
Proof. reflexivity. Qed.
Example resolve_ex2 : resolve [" Gene "; "gene"; "X"] ["x"; "gene"] = Some "X".
Proof. reflexivity. Qed.
Example strip_ex : py_strip "  ab c " = "ab c".
Proof. reflexivity. Qed.
Example str_of_Z_ex : str_of_Z (-20000000) = "-20000000" /\ str_of_Z 0 = "0".
Proof. split; reflexivity. Qed.

(** Claim C4. The column resolver is ordered by alias priority, not by
    table order: [_first_present] over [_lower_map_columns] returns, for the
    first alias (in the caller's order) that some column lowers to, the
    first column (first occurrence wins) that lowers to it, and nothing if
    no alias matches. In particular aliases ["a"; "b"] over the columns
    "b" then "a" give "a". *)
Theorem resolver_alias_priority :
  (forall columns candidates : list string,
      resolve columns candidates = resolve_by_alias_priority columns candidates)
  /\ resolve ["b"; "a"] ["a"; "b"] = Some "a".
Proof.
  split; [|reflexivity].
  intros columns candidates. unfold resolve, resolve_by_alias_priority.
  induction candidates as [|a cs IH]; simpl; [reflexivity|].
  rewrite lower_map_lookup.
  destruct (find (fun c => String.eqb (lowered c) a) columns) as [v|] eqn:E.
  - assert (Hex : existsb (fun c => String.eqb (lowered c) a) columns = true).
    { destruct (existsb _ columns) eqn:E2; [reflexivity|].
      apply find_none_existsb in E2. congruence. }
    rewrite Hex. symmetry. exact E.
  - apply find_none_existsb in E. rewrite E. exact IH.
Qed.

(** ** MERSCOPE sentinel *)

(** Keep column resolution folded while loaders are unfolded in proofs. *)
Arguments _first_present : simpl never.

Lemma merscope_cell_id_column nstr frepr ver path raw out :
  merscope_load_transcripts nstr frepr ver path raw = Ok out ->
  forall cc cs,
    _first_present (_lower_map_columns (frame_columns (_standardize_columns raw)))
      merscope_tx_cell_aliases = Some cc ->
    get_col (_standardize_columns raw) cc = Ok cs ->
    frame_col out "cell_id" = Some (map (as_string frepr) (merscope_unassigned nstr cs)).
Proof.
  intros H cc cs Hcc Hcs.
  unfold merscope_load_transcripts in H. cbv zeta in H. rewrite Hcc, Hcs in H.
  destruct (_first_present _ ["global_x"; _; _; _; _]); [|discriminate].
  destruct (_first_present _ ["global_y"; _; _; _; _]); [|discriminate].
  destruct (_first_present _ ["gene"; _; _; _]); [|discriminate].
  simpl in H.
  destruct (get_col _ s); [|discriminate]. simpl in H.
  destruct (get_col _ s0); [|discriminate]. simpl in H.
  destruct (get_col _ s1); [|discriminate]. simpl in H.
  injection H as <-. reflexivity.
Qed.

Lemma nth_error_zip_with {A B C} (f : A -> B -> C) l1 l2 i :
  nth_error (zip_with f l1 l2) i =
  match nth_error l1 i, nth_error l2 i with Some a, Some b => Some (f a b) | _, _ => None end.
Proof.
  revert l2 i. induction l1 as [|a l1 IH]; intros [|b l2] [|i]; simpl; try reflexivity.
  - destruct (nth_error l1 i); reflexivity.
  - apply IH.
Qed.

Lemma nth_error_existsb_true (l : list bool) i :
  nth_error l i = Some true -> existsb (fun b => b) l = true.
Proof.
  intros H. apply existsb_exists. exists true. split; [|reflexivity].
  apply nth_error_In in H. exact H.
Qed.

Lemma series_where_na_repl cs repl i v :
  nth_error cs i = Some v -> nth_error repl i = Some true ->
  exists w, nth_error (series_where_na cs repl) i = Some w /\ is_missing w = true.
Proof.
  intros Hv Hr. unfold series_where_na. rewrite (nth_error_existsb_true _ _ Hr). simpl.
  destruct (forallb is_int_val cs); [|destruct (forallb is_float_val cs)];
    rewrite nth_error_zip_with, Hv, Hr; eexists; split; reflexivity.
Qed.

(** Claim C2. In the MERSCOPE transcript loader, every row whose entity/cell
    id reads numerically as -1 comes out with a missing cell_id ([pd.NA]),
    never the string "-1": the sentinel is replaced before the column is
    cast to the string dtype. *)
Theorem merscope_minus1_cell_id_missing nstr frepr ver path raw out :
  merscope_load_transcripts nstr frepr ver path raw = Ok out ->
  forall cc cs,
    _first_present (_lower_map_columns (frame_columns (_standardize_columns raw)))
      merscope_tx_cell_aliases = Some cc ->
    get_col (_standardize_columns raw) cc = Ok cs ->
    forall i v, nth_error cs i = Some v ->
      num_eq_minus1 (to_numeric nstr v) = true ->
      exists cell_out, frame_col out "cell_id" = Some cell_out /\
        nth_error cell_out i = Some PNA /\ nth_error cell_out i <> Some (PStr "-1").
Proof.
  intros H cc cs Hcc Hcs i v Hi Hm.
  exists (map (as_string frepr) (merscope_unassigned nstr cs)).
  split; [exact (merscope_cell_id_column nstr frepr ver path raw out H cc cs Hcc Hcs)|].
  assert (Hr : nth_error (map (fun v => num_eq_minus1 (to_numeric nstr v)) cs) i = Some true)
    by (rewrite nth_error_map, Hi; simpl; rewrite Hm; reflexivity).
  destruct (series_where_na_repl cs _ i v Hi Hr) as (w & Hw & Hmw).
  unfold merscope_unassigned. rewrite nth_error_map, Hw. simpl.
  unfold as_string. rewrite Hmw. split; [reflexivity | discriminate].
Qed.

(** ** Gene labels of the CosMx and Xenium transcript loaders *)









(** ** Witnesses: C2 and C10 applied to sample tables *)

Lemma merscope_minus1_cell_id_missing_witness :
  exists out : frame,
    merscope_load_transcripts decimal_of_string sample_float_repr Pandas2 "detected_transcripts.csv"
      [("global_x", [PStr "1"; PStr "2"]); ("global_y", [PStr "10"; PStr "20"]);
       ("gene", [PStr "A"; PStr "B"]); ("EntityID", [PNum (NInt 1); PNum (NInt (-1))])] = Ok out /\
    exists cell_out, frame_col out "cell_id" = Some cell_out /\
      nth_error cell_out 1 = Some PNA /\ nth_error cell_out 1 <> Some (PStr "-1").
Proof.
  eexists. split; [reflexivity|].
  refine (merscope_minus1_cell_id_missing decimal_of_string sample_float_repr Pandas2
            "detected_transcripts.csv"
            [("global_x", [PStr "1"; PStr "2"]); ("global_y", [PStr "10"; PStr "20"]);
             ("gene", [PStr "A"; PStr "B"]); ("EntityID", [PNum (NInt 1); PNum (NInt (-1))])]
            _ eq_refl "EntityID" [PNum (NInt 1); PNum (NInt (-1))]
            eq_refl eq_refl 1 (PNum (NInt (-1))) eq_refl eq_refl).
Defined.


(* ------------------------------------------------------------------ *)
(** ** Visium HD in-tissue filter *)

(** Positions table of three spots whose [in_tissue] values are 1, 1.5 and 0. *)
Definition vhd_positions_fractional : frame :=
  [("barcode", [PStr "AA"; PStr "BB"; PStr "CC"]);
   ("in_tissue", [PNum (NInt 1); PNum (NFloat (3#2)); PNum (NInt 0)]);
   ("array_row", [PNum (NInt 0); PNum (NInt 0); PNum (NInt 1)]);
   ("array_col", [PNum (NInt 0); PNum (NInt 1); PNum (NInt 0)])].

(** C7 (code_bug): the in-tissue mask is [it.fillna(0).astype(int) == 1],
    and [astype(int)] truncates toward zero, so a spot whose [in_tissue]
    value is 1.5 (not equal to 1) is kept next to the spot with value 1;
    only the spot with value 0 is dropped. *)
Theorem vhd_in_tissue_keeps_fractional :
  vhd_load_positions_as_cell_metadata decimal_of_string sample_float_repr
    "tissue_positions.csv" vhd_positions_fractional =
  Ok [("cell_id", [PStr "AA"; PStr "BB"]);
      ("x", [PNum (NInt 0); PNum (NInt 1)]);
      ("y", [PNum (NInt 0); PNum (NInt 0)]);
      ("cell_type", [PNA; PNA])].
Proof. vm_compute. reflexivity. Qed.

(* ------------------------------------------------------------------ *)
(** ** Visium HD bin selection *)

Section SortBy.
Context {A : Type} (le : A -> A -> bool).
Hypothesis le_refl : forall a, le a a = true.
Hypothesis le_total : forall a b, le a b = false -> le b a = true.
Hypothesis le_trans : forall a b c, le a b = true -> le b c = true -> le a c = true.

Lemma In_insert_by x l z : In z (insert_by le x l) <-> x = z \/ In z l.
Proof.
  induction l as [|y l IH]; simpl; [tauto|].
  destruct (le y x); simpl; rewrite ?IH; tauto.
Qed.

Lemma In_sort_by_acc l acc z :
  In z (fold_left (fun acc x => insert_by le x acc) l acc) <-> In z acc \/ In z l.
Proof.
  revert acc; induction l as [|x l IH]; intros acc; simpl; [tauto|].
  rewrite IH, In_insert_by. tauto.
Qed.

Lemma In_sort_by l z : In z (sort_by le l) <-> In z l.
Proof. unfold sort_by. rewrite In_sort_by_acc. simpl. tauto. Qed.

Definition head_min (l : list A) : Prop :=
  match l with [] => True | h :: _ => forall z, In z l -> le h z = true end.

Lemma insert_by_head_min x l : head_min l -> head_min (insert_by le x l).
Proof.
  destruct l as [|y l]; simpl.
  - intros _ z [<-|[]]. apply le_refl.
  - intros Hm. destruct (le y x) eqn:E; simpl.
    + intros z [<-|Hz]; [apply le_refl|].
      apply In_insert_by in Hz as [<-|Hz]; [exact E|apply Hm; now right].
    + pose proof (le_total _ _ E) as E'.
      intros z [<-|[<-|Hz]]; [apply le_refl|exact E'|].
      apply le_trans with y; [exact E'|apply Hm; now right].
Qed.

Lemma sort_by_head_min l : head_min (sort_by le l).
Proof.
  unfold sort_by. assert (H : head_min []) by exact I. revert H.
  generalize (@nil A). induction l as [|x l IH]; intros acc H; simpl; [exact H|].
  apply IH, insert_by_head_min, H.
Qed.

Lemma sort_by_head l h t z : sort_by le l = h :: t -> In z l -> le h z = true.
Proof.
  intros E Hz. pose proof (sort_by_head_min l) as Hm. rewrite E in Hm.
  apply Hm. rewrite <- E. apply In_sort_by, Hz.
Qed.
End SortBy.

Lemma score_le_refl a : score_le a a = true.
Proof. destruct a; simpl; [apply N.leb_refl|reflexivity]. Qed.

Lemma score_le_total a b : score_le a b = false -> score_le b a = true.
Proof.
  destruct a, b; simpl; try discriminate; auto.
  intros H. apply N.leb_gt in H. apply N.leb_le. lia.
Qed.

Lemma score_le_trans a b c : score_le a b = true -> score_le b c = true -> score_le a c = true.
Proof.
  destruct a, b, c; simpl; try discriminate; auto.
  rewrite !N.leb_le. lia.
Qed.

Lemma string_leb_cons x s y t :
  String.leb (String x s) (String y t) = true <->
  ((N_of_ascii x < N_of_ascii y)%N \/ (x = y /\ String.leb s t = true)).
Proof.
  unfold String.leb. simpl. unfold Ascii.compare.
  destruct (N.compare_spec (N_of_ascii x) (N_of_ascii y)) as [E|L|G].
  - assert (x = y) as <-.
    { apply (f_equal ascii_of_N) in E. now rewrite !ascii_N_embedding in E. }
    split; [intros H; right; split; [reflexivity|exact H]|].
    intros [L|[_ H]]; [lia|exact H].
  - split; [intros _; left; exact L|reflexivity].
  - split; [discriminate|]. intros [L|[-> _]]; lia.
Qed.

Lemma string_leb_refl s : String.leb s s = true.
Proof.
  induction s as [|a s IH]; [reflexivity|].
  apply string_leb_cons. right. split; [reflexivity|exact IH].
Qed.

Lemma string_leb_total a b : String.leb a b = false -> String.leb b a = true.
Proof. intros H. destruct (String.leb_total a b) as [E|E]; congruence. Qed.

Lemma string_leb_trans a b c :
  String.leb a b = true -> String.leb b c = true -> String.leb a c = true.
Proof.
  revert b c. induction a as [|x a IH]; intros [|y b] [|z c]; try reflexivity;
    try (unfold String.leb; simpl; discriminate).
  rewrite !string_leb_cons. intros [L1|[<- H1]] [L2|[<- H2]].
  - left; lia.
  - left; exact L1.
  - left; exact L2.
  - right. split; [reflexivity|exact (IH _ _ H1 H2)].
Qed.

Lemma float_of_N_exact n : (n < 2 ^ 53)%N -> float_of_N n = BFin n.
Proof.
  intros H. unfold float_of_N.
  assert (Hs : (N.size n <= 53)%N).
  { destruct (N.eq_dec n 0) as [->|Hn]; [simpl; lia|].
    rewrite N.size_log2 by exact Hn.
    assert (N.log2 n < 53)%N by (apply N.log2_lt_pow2; lia). lia. }
  apply N.leb_le in Hs. rewrite Hs. reflexivity.
Qed.

Lemma in_bins (entries : list (string * bool)) (d : string) : In d (map fst (List.filter snd entries)) <-> In (d, true) entries.
Proof.
  rewrite in_map_iff. split.
  - intros [[d' b] [<- Hin]]. apply filter_In in Hin as [Hin Hb]. simpl in Hb. subst. exact Hin.
  - intros Hin. exists (d, true). split; [reflexivity|]. apply filter_In. auto.
Qed.

Lemma in_scored bins s d :
  In (s, d) (flat_map (fun d => match bin_size_um d with
                                | Some s => [(s, d)]
                                | None => []
                                end) bins) <-> In d bins /\ bin_size_um d = Some s.
Proof.
  rewrite in_flat_map. split.
  - intros [d' [Hin Hs]]. destruct (bin_size_um d') eqn:E; [|destruct Hs].
    destruct Hs as [Hs|[]]. injection Hs as <- <-. auto.
  - intros [Hin Hs]. exists d. rewrite Hs. simpl. auto.
Qed.

(** C6: Visium HD root selection.  Whenever [_discover_visium_root] picks a
    bin directory, the pick is one of the subdirectories of [binned_outputs];
    if some subdirectory name yields a bin size (digits before [um] in the
    lowercased name, else any digit run), the pick has the smallest such size
    among all of them; otherwise it has the lexicographically smallest name.
    Whenever [binned_outputs] has a subdirectory some bin is picked, and of
    [square_008um] and [square_002um] it picks [square_002um].  Sizes are the
    Python floats of the digit runs, which are the integers themselves below
    2^53 ([float_of_N_exact]). *)
Theorem visium_hd_smallest_bin :
  (forall entries chosen,
     _discover_visium_root (Some entries) = Some chosen ->
     In (chosen, true) entries /\
     ((exists s, bin_size_um chosen = Some s /\
        forall d s', In (d, true) entries -> bin_size_um d = Some s' -> score_le s s' = true) \/
      ((forall d, In (d, true) entries -> bin_size_um d = None) /\
       forall d, In (d, true) entries -> String.leb chosen d = true))) /\
  (forall entries d, In (d, true) entries -> exists chosen, _discover_visium_root (Some entries) = Some chosen) /\
  _discover_visium_root (Some [("square_008um", true); ("square_002um", true)]) = Some "square_002um".
Proof.
  split; [|split; [|reflexivity]].
  - intros entries chosen H. unfold _discover_visium_root in H.
    remember (map fst (List.filter snd entries)) as bins eqn:Hb.
    assert (Hbins : forall d, In d bins <-> In (d, true) entries) by (intros d; subst; apply in_bins).
    destruct bins as [|b0 bs]; [discriminate|].
    set (bins := b0 :: bs) in *.
    destruct (sort_by _ _) as [|[s c] t] eqn:Es.
    + destruct (sort_by String.leb _) as [|c t'] eqn:Eu; [discriminate|].
      injection H as <-.
      assert (Hnone : forall d, In d bins -> bin_size_um d = None).
      { intros d Hd. destruct (bin_size_um d) as [s|] eqn:E; [|reflexivity].
        assert (Hin : In (s, d) (sort_by (fun a b => score_le a.1 b.1)
                  (flat_map (fun d => match bin_size_um d with
                                      | Some s => [(s, d)]
                                      | None => []
                                      end) bins))).
        { apply In_sort_by, in_scored. auto. }
        rewrite Es in Hin. destruct Hin. }
      assert (Hc : In c (List.filter (fun d => match bin_size_um d with
                                               | Some _ => false
                                               | None => true
                                               end) bins)).
      { apply (In_sort_by String.leb). rewrite Eu. left. reflexivity. }
      apply filter_In in Hc as [Hc _].
      split; [apply Hbins, Hc|]. right. split.
      * intros d Hd. apply Hnone, Hbins, Hd.
      * intros d Hd. apply (sort_by_head String.leb string_leb_refl string_leb_total
                             string_leb_trans _ _ _ _ Eu).
        apply filter_In. split; [apply Hbins, Hd|]. rewrite Hnone; [reflexivity|apply Hbins, Hd].
    + injection H as <-.
      assert (Hc : In (s, c) (flat_map (fun d => match bin_size_um d with
                                                 | Some s => [(s, d)]
                                                 | None => []
                                                 end) bins)).
      { apply (In_sort_by (fun a b => score_le a.1 b.1)). rewrite Es. left. reflexivity. }
      apply in_scored in Hc as [Hc Hs].
      split; [apply Hbins, Hc|]. left. exists s. split; [exact Hs|].
      intros d s' Hd Hs'.
      apply (sort_by_head (fun a b : bin_score * string => score_le a.1 b.1)
               (fun a => score_le_refl a.1) (fun a b => score_le_total a.1 b.1)
               (fun a b c => score_le_trans a.1 b.1 c.1) _ _ _ (s', d) Es).
      apply in_scored. split; [apply Hbins, Hd|exact Hs'].
  - intros entries d Hd. unfold _discover_visium_root.
    pose proof (proj2 (in_bins entries d) Hd) as Hin.
    destruct (map fst (List.filter snd entries)) as [|b0 bs] eqn:Eb; [destruct Hin|].
    destruct (sort_by _ _) as [|[s c] t] eqn:Es; [|eauto].
    destruct (sort_by String.leb _) as [|c t'] eqn:Eu; [|eauto].
    exfalso. destruct (bin_size_um d) as [s|] eqn:E.
    + assert (H : In (s, d) (sort_by (fun a b => score_le a.1 b.1)
                  (flat_map (fun d => match bin_size_um d with
                                      | Some s => [(s, d)]
                                      | None => []
                                      end) (b0 :: bs)))).
      { apply In_sort_by, in_scored. auto. }
      rewrite Es in H. destruct H.
    + assert (H : In d (sort_by String.leb (List.filter (fun d => match bin_size_um d with
                                               | Some _ => false
                                               | None => true
                                               end) (b0 :: bs)))).
      { apply In_sort_by, filter_In. rewrite E. auto. }
      rewrite Eu in H. destruct H.
Qed.

Lemma visium_hd_smallest_bin_witness :
  _discover_visium_root (Some [("square_008um", true); ("square_002um", true)]) = Some "square_002um" /\
  In ("square_002um", true) [("square_008um", true); ("square_002um", true)].
Proof.
  split; [reflexivity|].
  exact (proj1 (proj1 visium_hd_smallest_bin
    [("square_008um", true); ("square_002um", true)] "square_002um" eq_refl)).
Defined.

(* ------------------------------------------------------------------ *)
(** ** Matrix shapes and the dense ceiling *)

Lemma prefix_app_l (p s : string) : String.prefix p (p ++ s) = true.
Proof.
  induction p as [|a p IH]; simpl; [destruct s; reflexivity|].
  destruct (Ascii.ascii_dec a a) as [_|n]; [exact IH|congruence].
Qed.

Lemma py_contains_app (a b c : string) : py_contains (a ++ b ++ c) b = true.
Proof.
  induction a as [|x a IH]; simpl.
  - destruct b; simpl; [destruct c; reflexivity|].
    destruct (Ascii.ascii_dec a a) as [_|n]; [|congruence].
    rewrite prefix_app_l. reflexivity.
  - rewrite IH. apply orb_true_r.
Qed.

Lemma py_contains_split (s pre t post : string) :
  s = (pre ++ t ++ post)%string -> py_contains s t = true.
Proof. intros ->. apply py_contains_app. Qed.

Lemma str_app_assoc (a b c : string) : ((a ++ b) ++ c = a ++ (b ++ c))%string.
Proof.
  induction a as [|x a IH]; [reflexivity|].
  change (String x ((a ++ b) ++ c) = String x (a ++ (b ++ c)))%string. f_equal. exact IH.
Qed.

(** C8: MEX shape check.  In Visium's [_load_mex_dir], when the dense
    Matrix Market reader returns a matrix whose (rows, cols) shape differs
    from (number of features, number of barcodes), the load fails with the
    shape-mismatch error; when they agree the frame keeps every feature and
    barcode and the matrix as read.  In the scipy-based loaders of Xenium
    and Visium HD, when [mmread] returns a matrix whose shape differs, the
    load fails with pandas' column or index length-mismatch error; when they
    agree it returns the transposed matrix with all names. *)
Theorem mex_shape_mismatch_fails :
  (forall py_float matrix_path features barcodes lines mat,
     _read_matrix_market_dense py_float matrix_path _MAX_DENSE_ENTRIES lines = Ok mat ->
     (dense_shape mat <> (Z.of_nat (List.length features), Z.of_nat (List.length barcodes)) ->
      exists msg, visium_load_mex_dir py_float matrix_path features barcodes lines = Err msg /\
        py_startswith msg "Visium: matrix.mtx shape does not match features/barcodes: " = true) /\
     (dense_shape mat = (Z.of_nat (List.length features), Z.of_nat (List.length barcodes)) ->
      visium_load_mex_dir py_float matrix_path features barcodes lines = Ok (barcodes, features, mat))) /\
  (forall mmread platform matrix_path barcodes features mat,
     mmread matrix_path = Ok mat ->
     ((sp_rows mat, sp_cols mat) <> (Z.of_nat (List.length features), Z.of_nat (List.length barcodes)) ->
      exists msg, sparse_load_mex_dir mmread platform matrix_path barcodes features = Err msg /\
        (py_startswith msg "ValueError: Column length mismatch: " ||
         py_startswith msg "ValueError: Index length mismatch: ") = true) /\
     ((sp_rows mat, sp_cols mat) = (Z.of_nat (List.length features), Z.of_nat (List.length barcodes)) ->
      sparse_load_mex_dir mmread platform matrix_path barcodes features = Ok (barcodes, features, sparse_T mat))).
Proof.
  split.
  - intros py_float matrix_path features barcodes lines mat Hr.
    unfold visium_load_mex_dir. rewrite Hr. simpl. split.
    + intros Hne. rewrite bool_decide_false by exact Hne. simpl.
      eexists. split; [reflexivity|]. apply prefix_app_l.
    + intros Heq. rewrite bool_decide_true by exact Heq. reflexivity.
  - intros mmread platform matrix_path barcodes features mat Hm.
    unfold sparse_load_mex_dir, from_spmatrix. rewrite Hm. simpl. split.
    + intros Hne.
      destruct (Z.eqb_spec (Z.of_nat (List.length features)) (sp_rows mat)) as [E1|E1]; simpl.
      * destruct (Z.eqb_spec (Z.of_nat (List.length barcodes)) (sp_cols mat)) as [E2|E2]; simpl.
        -- exfalso. apply Hne. rewrite E1, E2. reflexivity.
        -- eexists. split; [reflexivity|]. apply orb_true_iff. right. apply prefix_app_l.
      * eexists. split; [reflexivity|]. apply orb_true_iff. left. apply prefix_app_l.
    + intros Heq. injection Heq as E1 E2. rewrite E1, E2, !Z.eqb_refl. reflexivity.
Qed.

(** C9 (amended): dense ceiling.  Visium's Matrix Market reader, once the
    header and dimension line parsed, fails with [visium_too_large_msg] when
    rows x cols exceeds 20,000,000 and otherwise goes on to allocate and
    fill; that message states the shape and suggests scipy.  Xenium's H5
    dense fallback fails with [xenium_too_large_msg] when features x
    barcodes exceeds 50,000,000 and otherwise goes on to the fill; that
    message states both dimensions and suggests scipy.  Neither message is
    required to state the ceiling (see [dense_ceiling_not_in_message]). *)
Theorem dense_ceiling_guard :
  (forall py_float path lines n_rows n_cols n_entries ls,
     mm_read_dims path lines = Ok (n_rows, n_cols, n_entries, ls) ->
     ((_MAX_DENSE_ENTRIES < n_rows * n_cols)%Z ->
      _read_matrix_market_dense py_float path _MAX_DENSE_ENTRIES lines =
        Err (visium_too_large_msg path n_rows n_cols)) /\
     ((n_rows * n_cols <= _MAX_DENSE_ENTRIES)%Z ->
      _read_matrix_market_dense py_float path _MAX_DENSE_ENTRIES lines =
        mm_dense_alloc_fill py_float path n_rows n_cols n_entries ls)) /\
  (forall path n_rows n_cols,
     let msg := visium_too_large_msg path n_rows n_cols in
     py_contains msg ("shape=(" ++ str_of_Z n_rows ++ "," ++ str_of_Z n_cols ++ ")") = true /\
     py_contains msg "Install 'scipy' for sparse loading" = true) /\
  (forall (A : Type) (fill : Z -> Z -> Result A) path n_features n_barcodes,
     ((50000000 < n_features * n_barcodes)%Z ->
      xenium_h5_dense_fallback A fill path n_features n_barcodes =
        Err (xenium_too_large_msg path n_features n_barcodes)) /\
     ((n_features * n_barcodes <= 50000000)%Z ->
      xenium_h5_dense_fallback A fill path n_features n_barcodes = fill n_features n_barcodes)) /\
  (forall path n_features n_barcodes,
     let msg := xenium_too_large_msg path n_features n_barcodes in
     py_contains msg ("(features=" ++ str_of_Z n_features ++ ", barcodes=" ++ str_of_Z n_barcodes) = true /\
     py_contains msg "Install the optional dependency 'scipy' for sparse loading" = true).
Proof.
  split; [|split; [|split]].
  - intros py_float path lines n_rows n_cols n_entries ls Hd.
    unfold _read_matrix_market_dense. rewrite Hd. simpl. split.
    + intros Hlt. apply Z.ltb_lt in Hlt. rewrite Hlt. reflexivity.
    + intros Hle. assert (Hf : (_MAX_DENSE_ENTRIES <? n_rows * n_cols)%Z = false) by (apply Z.ltb_ge; exact Hle).
      rewrite Hf. reflexivity.
  - intros path n_rows n_cols msg. unfold msg, visium_too_large_msg. split.
    + match goal with |- py_contains _ ?t = true =>
        apply (py_contains_split _
          "Visium: matrix is too large to load densely without scipy. " t
          (" entries=" ++ str_of_Z (n_rows * n_cols) ++ ". " ++
           "Install 'scipy' for sparse loading or export a smaller panel. " ++
           "(file: " ++ path ++ ")")) end.
      rewrite ?str_app_assoc. reflexivity.
    + apply (py_contains_split _
          ("Visium: matrix is too large to load densely without scipy. " ++
           "shape=(" ++ str_of_Z n_rows ++ "," ++ str_of_Z n_cols ++ ") entries=" ++
           str_of_Z (n_rows * n_cols) ++ ". ")
          "Install 'scipy' for sparse loading"
          (" or export a smaller panel. " ++ "(file: " ++ path ++ ")")).
      rewrite ?str_app_assoc. reflexivity.
  - intros A fill path nf nb. unfold xenium_h5_dense_fallback. split.
    + intros Hlt. apply Z.ltb_lt in Hlt. rewrite Hlt. reflexivity.
    + intros Hle. assert (Hf : (50000000 <? nf * nb)%Z = false) by (apply Z.ltb_ge; exact Hle).
      rewrite Hf. reflexivity.
  - intros path nf nb msg. unfold msg, xenium_too_large_msg. split.
    + match goal with |- py_contains _ ?t = true =>
        apply (py_contains_split _
          ("Xenium: reading cell_feature_matrix.h5 without scipy would require allocating a huge dense matrix. " ++
           "Install the optional dependency 'scipy' for sparse loading, or export a smaller matrix. ") t
          (", file=" ++ path ++ ")")) end.
      rewrite ?str_app_assoc. reflexivity.
    + apply (py_contains_split _
          "Xenium: reading cell_feature_matrix.h5 without scipy would require allocating a huge dense matrix. "
          "Install the optional dependency 'scipy' for sparse loading"
          (", or export a smaller matrix. " ++ "(features=" ++ str_of_Z nf ++ ", barcodes=" ++ str_of_Z nb ++
           ", file=" ++ path ++ ")")).
      rewrite ?str_app_assoc. reflexivity.
Qed.

Lemma mex_shape_mismatch_fails_witness :
  exists msg, visium_load_mex_dir sample_py_float "matrix.mtx" ["g1"; "g2"] ["c1"; "c2"] mm_small_2x3 = Err msg /\
    py_startswith msg "Visium: matrix.mtx shape does not match features/barcodes: " = true.
Proof.
  refine (proj1 (proj1 mex_shape_mismatch_fails sample_py_float "matrix.mtx" ["g1"; "g2"] ["c1"; "c2"]
    mm_small_2x3 {| d_rows := 2; d_cols := 3; d_set := [(0%Z, 0%Z, 5%Z); (1%Z, 2%Z, 7%Z)] |} _) _).
  - vm_compute. reflexivity.
  - intros H. vm_compute in H. discriminate H.
Defined.

Lemma dense_ceiling_guard_witness :
  (_MAX_DENSE_ENTRIES < 5000 * 5000)%Z /\
  _read_matrix_market_dense sample_py_float "matrix.mtx" _MAX_DENSE_ENTRIES mm_header_5000x5000 =
    Err (visium_too_large_msg "matrix.mtx" 5000 5000).
Proof.
  split; [unfold _MAX_DENSE_ENTRIES; lia|].
  refine (proj1 (proj1 dense_ceiling_guard sample_py_float "matrix.mtx" mm_header_5000x5000
    5000%Z 5000%Z 0%Z [] _) _).
  - vm_compute. reflexivity.
  - unfold _MAX_DENSE_ENTRIES. lia.
Defined.

(** C9 counterexample: a 5000 x 5000 Matrix Market header (25,000,000
    entries, over the 20,000,000 ceiling) makes Visium's reader fail with a
    message that gives the shape and the entry count but not the ceiling, in
    any spelling; likewise Xenium's message for 10000 x 10000 does not name
    its 50,000,000 ceiling. *)
Lemma dense_ceiling_not_in_message :
  _read_matrix_market_dense sample_py_float "matrix.mtx" _MAX_DENSE_ENTRIES mm_header_5000x5000 =
    Err "Visium: matrix is too large to load densely without scipy. shape=(5000,5000) entries=25000000. Install 'scipy' for sparse loading or export a smaller panel. (file: matrix.mtx)" /\
  py_contains (visium_too_large_msg "matrix.mtx" 5000 5000) "20000000" = false /\
  py_contains (visium_too_large_msg "matrix.mtx" 5000 5000) "20_000_000" = false /\
  py_contains (visium_too_large_msg "matrix.mtx" 5000 5000) "20,000,000" = false /\
  py_contains (xenium_too_large_msg "cell_feature_matrix.h5" 10000 10000) "50000000" = false /\
  py_contains (xenium_too_large_msg "cell_feature_matrix.h5" 10000 10000) "50_000_000" = false /\
  py_contains (xenium_too_large_msg "cell_feature_matrix.h5" 10000 10000) "50,000,000" = false.
Proof. repeat split; vm_compute; reflexivity. Qed.

(* ------------------------------------------------------------------ *)
(** ** Adapters and missing roles *)

Lemma validate_empty_transcripts p : _validate_transcripts p _empty_transcript_df = Ok tt.
Proof. destruct p; reflexivity. Qed.

Lemma validate_empty_cells p : _validate_cell_metadata p _empty_cell_metadata_df = Ok tt.
Proof. destruct p; reflexivity. Qed.

Lemma bindR_ok {A B} (m : Result A) (k : A -> Result B) b :
  bindR m k = Ok b <-> exists a, m = Ok a /\ k a = Ok b.
Proof.
  destruct m as [a|e]; simpl; split.
  - intros H. eauto.
  - intros (a' & E & H). injection E as <-. exact H.
  - discriminate.
  - intros (a' & E & _). discriminate.
Qed.

Lemma bindR_err {A B} (m : Result A) (k : A -> Result B) e :
  bindR m k = Err e <-> m = Err e \/ exists a, m = Ok a /\ k a = Err e.
Proof.
  destruct m as [a|e']; simpl; split.
  - intros H. eauto.
  - intros [E|(a' & E & H)]; [discriminate|]. injection E as <-. exact H.
  - intros H. injection H as <-. auto.
  - intros [E|(a' & E & _)]; [injection E as ->; reflexivity|discriminate].
Qed.


(** C1: a role without a discovered file never makes an adapter fail.  For
    every platform, candidates and loaders: when the adapter succeeds, each
    role whose file was not found holds the empty canonical table (columns
    x, y, gene, cell_id for transcripts; cell_id, x, y, cell_type for cells)
    or the empty expression frame; when it fails, the error is the one of a
    role whose file was found (its loader failed, or the validator rejected
    the table it loaded, e.g. a missing required column); and when every
    found role loads a table its validator accepts, the adapter succeeds,
    in particular when no file was found at all.  Visium and Visium HD have
    no transcript role, so their transcript table is always the empty one. *)
Theorem adapter_missing_role_empty :
  forall p cands ld,
  (forall out, parse_platform p cands ld = Ok out ->
     (discovered_transcript p cands = None -> transcript_data out = _empty_transcript_df) /\
     (cand_cell_metadata cands = None -> cell_metadata out = _empty_cell_metadata_df) /\
     (cand_expression cands = None -> expression_matrix out = empty_expr)) /\
  (forall e, parse_platform p cands ld = Err e ->
     (exists path, discovered_transcript p cands = Some path /\
        (load_transcripts ld path = Err e \/
         exists df, load_transcripts ld path = Ok df /\ _validate_transcripts p df = Err e)) \/
     (exists path, cand_cell_metadata cands = Some path /\
        (load_cell_metadata ld path = Err e \/
         exists df, load_cell_metadata ld path = Ok df /\ _validate_cell_metadata p df = Err e)) \/
     (exists path, cand_expression cands = Some path /\ load_expression_matrix ld path = Err e)) /\
  ((forall path, discovered_transcript p cands = Some path ->
      exists df, load_transcripts ld path = Ok df /\ _validate_transcripts p df = Ok tt) ->
   (forall path, cand_cell_metadata cands = Some path ->
      exists df, load_cell_metadata ld path = Ok df /\ _validate_cell_metadata p df = Ok tt) ->
   (forall path, cand_expression cands = Some path -> exists m, load_expression_matrix ld path = Ok m) ->
   exists out, parse_platform p cands ld = Ok out).
Proof.
  intros p cands ld. unfold parse_platform. split; [|split].
  - intros out H.
    apply bindR_ok in H as (t & Ht & H). apply bindR_ok in H as (c & Hc & H).
    apply bindR_ok in H as (x & Hx & H). apply bindR_ok in H as (u1 & _ & H).
    apply bindR_ok in H as (u2 & _ & H). injection H as <-. simpl.
    repeat split; intros En;
      [rewrite En in Ht | rewrite En in Hc | rewrite En in Hx]; simpl in *; congruence.
  - intros e H.
    apply bindR_err in H as [Ht|(t & Ht & H)].
    { left. destruct (discovered_transcript p cands) as [tp|]; [|discriminate].
      exists tp. auto. }
    apply bindR_err in H as [Hc|(c & Hc & H)].
    { right; left. destruct (cand_cell_metadata cands) as [cp|]; [|discriminate].
      exists cp. auto. }
    apply bindR_err in H as [Hx|(x & Hx & H)].
    { right; right. destruct (cand_expression cands) as [ep|]; [|discriminate].
      exists ep. auto. }
    apply bindR_err in H as [Hv|(u1 & _ & H)].
    { left. destruct (discovered_transcript p cands) as [tp|].
      - exists tp. split; [reflexivity|]. right. exists t. auto.
      - simpl in Ht. injection Ht as <-. rewrite validate_empty_transcripts in Hv. discriminate. }
    apply bindR_err in H as [Hv|(u2 & _ & H)]; [|discriminate].
    right; left. destruct (cand_cell_metadata cands) as [cp|].
    + exists cp. split; [reflexivity|]. right. exists c. auto.
    + simpl in Hc. injection Hc as <-. rewrite validate_empty_cells in Hv. discriminate.
  - intros HT HC HE.
    assert (Ht : exists t, load_role _empty_transcript_df (discovered_transcript p cands)
                   (load_transcripts ld) = Ok t /\ _validate_transcripts p t = Ok tt).
    { destruct (discovered_transcript p cands) as [tp|].
      - apply (HT tp eq_refl).
      - exists _empty_transcript_df. split; [reflexivity|apply validate_empty_transcripts]. }
    assert (Hc : exists c, load_role _empty_cell_metadata_df (cand_cell_metadata cands)
                   (load_cell_metadata ld) = Ok c /\ _validate_cell_metadata p c = Ok tt).
    { destruct (cand_cell_metadata cands) as [cp|].
      - apply (HC cp eq_refl).
      - exists _empty_cell_metadata_df. split; [reflexivity|apply validate_empty_cells]. }
    assert (Hx : exists x, load_role empty_expr (cand_expression cands)
                   (load_expression_matrix ld) = Ok x).
    { destruct (cand_expression cands) as [ep|].
      - apply (HE ep eq_refl).
      - exists empty_expr. reflexivity. }
    destruct Ht as (t & Ht & Hvt), Hc as (c & Hc & Hvc), Hx as (x & Hx).
    rewrite Ht, Hc, Hx. simpl. rewrite Hvt. simpl. rewrite Hvc. simpl. eauto.
Qed.

Lemma adapter_missing_role_empty_witness :
  let cands := {| cand_transcript := None; cand_cell_metadata := Some "cells.csv";
                  cand_expression := None |} in
  let ld := {| load_transcripts := fun _ => Err "unused";
               load_cell_metadata := fun _ => Ok [("cell_id", [PStr "c1"]); ("x", [PNum (NInt 1)]);
                                                 ("y", [PNum (NInt 2)]); ("cell_type", [PNA])];
               load_expression_matrix := fun _ => Err "unused" |} in
  exists out, parse_platform Cosmx cands ld = Ok out /\
    transcript_data out = _empty_transcript_df /\ expression_matrix out = empty_expr.
Proof.
  intros cands ld. eexists. split; [reflexivity|].
  refine (match proj1 (adapter_missing_role_empty Cosmx cands ld) _ eq_refl with
          | conj Ht (conj _ Hx) => conj (Ht eq_refl) (Hx eq_refl) end).
Defined.

(* ------------------------------------------------------------------ *)
(** ** Format detection *)

Lemma first_some_in {A B} (f : A -> option B) l y :
  first_some f l = Some y -> exists x, In x l /\ f x = Some y.
Proof.
  induction l as [|x l IH]; simpl; [discriminate|].
  destruct (f x) eqn:E.
  - intros H. injection H as <-. eauto.
  - intros H. destruct (IH H) as (x' & Hin & Hx). eauto.
Qed.

Lemma merscope_in_dir_tag d label res : _merscope_in_dir d label = Some res -> res.1 = "merscope".
Proof.
  unfold _merscope_in_dir.
  destruct (meets _ _); [intros H; injection H as <-; reflexivity|].
  destruct (_ && _); [intros H; injection H as <-; reflexivity|].
  destruct (merscope_weak_signature _); [intros H; injection H as <-; reflexivity|discriminate].
Qed.

Lemma merscope_scan_tag p res : merscope_scan p = Some res -> res.1 = "merscope".
Proof.
  unfold merscope_scan. intros H. apply first_some_in in H as (dl & _ & H).
  exact (merscope_in_dir_tag _ _ _ H).
Qed.

Lemma merscope_scan_root n cs :
  merscope_weak_signature (lowered_names (FDir n cs)) = true ->
  exists r, merscope_scan (FDir n cs) = Some ("merscope", r).
Proof.
  intros Hw. unfold merscope_scan, merscope_to_check. simpl. unfold _merscope_in_dir.
  destruct (meets _ _); [eauto|].
  destruct (_ && _); [eauto|]. rewrite Hw. eauto.
Qed.

Ltac detect_cases H :=
  unfold detect_spatial_format in H; cbv beta iota zeta in H;
  let Es := fresh "Es" in
  destruct (merscope_scan _) as [res|] eqn:Es;
  [ injection H as ->; apply merscope_scan_tag in Es; discriminate Es
  | repeat (match type of H with context [if ?b then _ else _] =>
              let Eb := fresh "Eb" in destruct b eqn:Eb end);
    try discriminate H;
    try (match type of H with context [match ?l with _ => _ end] =>
           destruct l as [|? [|? ?]]; try discriminate H end) ].

(** C5: detector precedence.  For a directory, the MERSCOPE scan over its
    candidate roots (root, analysis_outputs, sorted child directories and
    their analysis_outputs) is decisive whenever it matches; a result of any
    other platform implies that the scan found nothing; and each later
    result implies that every earlier test in the order Visium HD, Visium,
    Xenium (three tests), CosMx (two tests), single tabular file failed.  So
    a directory with a MERSCOPE weak signature and a CosMx strong signature
    is detected as merscope, e.g. [mixed_drop]. *)
Theorem detector_precedence :
  (forall parent n cs,
     (forall res, merscope_scan (FDir n cs) = Some res ->
        detect_spatial_format parent (FDir n cs) = Ok res /\ res.1 = "merscope") /\
     (forall t r, detect_spatial_format parent (FDir n cs) = Ok (t, r) -> t <> "merscope" ->
        merscope_scan (FDir n cs) = None) /\
     (forall r, detect_spatial_format parent (FDir n cs) = Ok ("visium", r) ->
        _looks_like_visium_hd_root parent (FDir n cs) (lowered_names (FDir n cs)) = false) /\
     (forall r, detect_spatial_format parent (FDir n cs) = Ok ("xenium", r) ->
        _looks_like_visium_hd_root parent (FDir n cs) (lowered_names (FDir n cs)) = false /\
        _looks_like_visium_root (FDir n cs) (lowered_names (FDir n cs)) = false) /\
     (forall r, detect_spatial_format parent (FDir n cs) = Ok ("cosmx", r) ->
        _looks_like_visium_hd_root parent (FDir n cs) (lowered_names (FDir n cs)) = false /\
        _looks_like_visium_root (FDir n cs) (lowered_names (FDir n cs)) = false /\
        xenium_signature (lowered_names (FDir n cs)) = false /\
        xenium_prefix_pair (lowered_names (FDir n cs)) = false /\
        mem "cell_feature_matrix" (lowered_names (FDir n cs)) = false) /\
     (forall r, detect_spatial_format parent (FDir n cs) = Ok ("tabular", r) ->
        _looks_like_visium_hd_root parent (FDir n cs) (lowered_names (FDir n cs)) = false /\
        _looks_like_visium_root (FDir n cs) (lowered_names (FDir n cs)) = false /\
        xenium_signature (lowered_names (FDir n cs)) = false /\
        xenium_prefix_pair (lowered_names (FDir n cs)) = false /\
        mem "cell_feature_matrix" (lowered_names (FDir n cs)) = false /\
        cosmx_signature (lowered_names (FDir n cs)) = false /\
        cosmx_pair (lowered_names (FDir n cs)) = false)) /\
  (forall parent n cs,
     merscope_weak_signature (lowered_names (FDir n cs)) = true ->
     cosmx_signature (lowered_names (FDir n cs)) = true ->
     exists r, detect_spatial_format parent (FDir n cs) = Ok ("merscope", r)) /\
  detect_spatial_format "data" mixed_drop = Ok ("merscope", "weak MERSCOPE match in root").
Proof.
  split; [|split; [|reflexivity]].
  - intros parent n cs. split; [|split; [|split; [|split; [|split]]]].
    + intros res Hs. unfold detect_spatial_format. cbv beta iota zeta. rewrite Hs.
      split; [reflexivity|exact (merscope_scan_tag _ _ Hs)].
    + intros t r H Ht. destruct (merscope_scan (FDir n cs)) as [res|] eqn:Es; [|reflexivity].
      exfalso. unfold detect_spatial_format in H. cbv beta iota zeta in H. rewrite Es in H.
      injection H as ->. apply merscope_scan_tag in Es. simpl in Es. congruence.
    + intros r H. detect_cases H; auto.
    + intros r H. detect_cases H; auto.
    + intros r H. detect_cases H; auto 10.
    + intros r H. detect_cases H; auto 20.
  - intros parent n cs Hw _. destruct (merscope_scan_root n cs Hw) as [r Hr].
    exists r. unfold detect_spatial_format. cbv beta iota zeta. rewrite Hr. reflexivity.
Qed.

Lemma detector_precedence_witness :
  merscope_weak_signature (lowered_names mixed_drop) = true /\
  cosmx_signature (lowered_names mixed_drop) = true /\
  exists r, detect_spatial_format "data" mixed_drop = Ok ("merscope", r).
Proof.
  split; [reflexivity|split; [reflexivity|]].
  exact (proj1 (proj2 detector_precedence) "data" "run1"
    [FFile "detected_transcripts_region_0.csv"; FFile "tx_file.csv"; FFile "cell_metadata.csv"]
    eq_refl eq_refl).
Defined.

(* ------------------------------------------------------------------ *)
(** ** C3 *)

Lemma get_col_filter df l c :
  get_col df l = Ok c -> List.filter (fun nc => String.eqb nc.1 l) df = [(l, c)].
Proof.
  unfold get_col. destruct (List.filter _ df) as [|[x c'] [|y r]] eqn:E; try discriminate.
  intros H. injection H as Hcc. subst c.
  assert (Hin : In (x, c') (List.filter (fun nc => String.eqb nc.1 l) df)) by (rewrite E; left; reflexivity).
  apply filter_In in Hin as [_ Hx]. simpl in Hx. apply String.eqb_eq in Hx. subst. reflexivity.
Qed.









(* ------------------------------------------------------------------ *)
(** ** Matrix Market reader and TSV name files *)

Section MMProps.
Variable py_float : string -> Result pyval.

Lemma mm_entries_ok path nr nc ne i k ls sets :
  mm_entries py_float path nr nc ne i k ls = Ok sets ->
  List.length sets = k /\ Forall (entry_in_bounds nr nc) sets /\ (k <= List.length ls)%nat.
Proof.
  revert i ls sets. induction k as [|k IH]; intros i ls sets H; simpl in H.
  - injection H as <-. simpl. split; [reflexivity|]. split; [constructor|lia].
  - destruct ls as [|l ls]; simpl in H; [discriminate|].
    destruct (String.eqb l EmptyString); [discriminate|].
    destruct (split_ws (py_strip l)) as [|p0 [|p1 [|p2 ps]]]; try discriminate.
    destruct (py_int p0) as [r1|]; [|discriminate]. simpl in H.
    destruct (py_int p1) as [c1|]; [|discriminate]. simpl in H.
    destruct (py_float p2) as [v|]; [|discriminate]. simpl in H.
    destruct ((r1 - 1 <? 0) || (c1 - 1 <? 0) || (nr <=? r1 - 1) || (nc <=? c1 - 1))%Z eqn:B;
      [discriminate|].
    destruct (py_int_of_float v) as [x|]; [|discriminate]. simpl in H.
    destruct (mm_entries py_float path nr nc ne (S i) k ls) as [rest|] eqn:E; [|discriminate].
    simpl in H. injection H as <-.
    destruct (IH _ _ _ E) as (L & F & K).
    rewrite !Bool.orb_false_iff in B. destruct B as [[[B1 B2] B3] B4].
    apply Z.ltb_ge in B1, B2. apply Z.leb_gt in B3, B4.
    simpl. split; [lia|]. split; [|lia]. constructor; [simpl; lia|exact F].
Qed.

Lemma mm_entries_app path nr nc ne i k ls extra sets :
  mm_entries py_float path nr nc ne i k ls = Ok sets ->
  mm_entries py_float path nr nc ne i k (ls ++ extra) = Ok sets.
Proof.
  revert i ls sets. induction k as [|k IH]; intros i ls sets H; [exact H|].
  destruct ls as [|l ls]; [simpl in H; discriminate|].
  simpl in H |- *.
  destruct (String.eqb l EmptyString); [exact H|].
  destruct (split_ws (py_strip l)) as [|p0 [|p1 [|p2 ps]]]; try exact H.
  destruct (py_int p0) as [r1|]; [|exact H]. simpl in H |- *.
  destruct (py_int p1) as [c1|]; [|exact H]. simpl in H |- *.
  destruct (py_float p2) as [v|]; [|exact H]. simpl in H |- *.
  destruct (_ || _)%Z; [exact H|].
  destruct (py_int_of_float v) as [x|]; [|exact H]. simpl in H |- *.
  destruct (mm_entries py_float path nr nc ne (S i) k ls) as [rest|] eqn:E; [|discriminate].
  rewrite (IH _ _ _ E). exact H.
Qed.

Lemma skip_comment_lines_app line ls extra l' ls' :
  skip_comment_lines line ls = (l', ls') -> l' <> EmptyString ->
  skip_comment_lines line (ls ++ extra) = (l', ls' ++ extra).
Proof.
  revert line. induction ls as [|l ls IH]; intros line H Hne; simpl in H |- *.
  - destruct (py_startswith line "%") eqn:P; injection H as <- <-; [congruence|].
    destruct extra; simpl; rewrite P; reflexivity.
  - destruct (py_startswith line "%") eqn:P; [apply IH; assumption|].
    injection H as <- <-. reflexivity.
Qed.

Lemma mm_read_dims_app path lines extra nr nc ne ls :
  mm_read_dims path lines = Ok (nr, nc, ne, ls) ->
  mm_read_dims path (lines ++ extra) = Ok (nr, nc, ne, ls ++ extra).
Proof.
  unfold mm_read_dims.
  destruct lines as [|h lines]; [simpl; discriminate|]. simpl.
  destruct (negb (py_startswith h "%%MatrixMarket")); [discriminate|].
  destruct lines as [|l0 lines]; simpl.
  - destruct (py_startswith "" "%"); simpl; discriminate.
  - destruct (skip_comment_lines l0 lines) as [line ls1] eqn:S.
    destruct (split_ws (py_strip line)) as [|d0 [|d1 [|d2 [|d3 ds]]]] eqn:W; try discriminate.
    assert (Hne : line <> EmptyString) by (intros ->; vm_compute in W; discriminate W).
    rewrite (skip_comment_lines_app _ _ _ _ _ S Hne), W.
    destruct (py_int d0); [|discriminate]. simpl.
    destruct (py_int d1); [|discriminate]. simpl.
    destruct (py_int d2); [|discriminate]. simpl.
    intros H; injection H as -> -> -> ->. reflexivity.
Qed.
End MMProps.

(** Dense Matrix Market reader ([_read_matrix_market_dense]): a successful
    read returns the shape declared on the dimension line (both sides
    non-negative, their product within the ceiling), exactly as many
    assignments as the declared entry count, and every assignment inside
    the shape. *)
Theorem mm_dense_entries_in_bounds :
  forall py_float path max_dense_entries lines m,
    _read_matrix_market_dense py_float path max_dense_entries lines = Ok m ->
    exists n_entries rest,
      mm_read_dims path lines = Ok (d_rows m, d_cols m, n_entries, rest) /\
      (0 <= d_rows m)%Z /\ (0 <= d_cols m)%Z /\
      (d_rows m * d_cols m <= max_dense_entries)%Z /\
      List.length (d_set m) = Z.to_nat n_entries /\
      Forall (entry_in_bounds (d_rows m) (d_cols m)) (d_set m).
Proof.
  intros py_float path mx lines m H. unfold _read_matrix_market_dense in H.
  destruct (mm_read_dims path lines) as [[[[nr nc] ne] ls]|] eqn:D; [|discriminate]. simpl in H.
  destruct (mx <? nr * nc)%Z eqn:B; [discriminate|]. apply Z.ltb_ge in B.
  unfold mm_dense_alloc_fill in H.
  destruct ((nr <? 0) || (nc <? 0))%Z eqn:B2; [discriminate|].
  apply Bool.orb_false_iff in B2 as [B2 B3]. apply Z.ltb_ge in B2, B3.
  destruct (mm_entries py_float path nr nc ne 0 (Z.to_nat ne) ls) as [sets|] eqn:E; [|discriminate].
  simpl in H. injection H as <-.
  destruct (mm_entries_ok _ _ _ _ _ _ _ _ _ E) as (L & F & _).
  exists ne, ls. simpl. repeat split; auto.
Qed.

(** Dense Matrix Market reader: a file with fewer entry lines after the
    dimension line than the declared entry count never loads. *)
Theorem mm_dense_eof_fails :
  forall py_float path max_dense_entries lines n_rows n_cols n_entries rest,
    mm_read_dims path lines = Ok (n_rows, n_cols, n_entries, rest) ->
    (List.length rest < Z.to_nat n_entries)%nat ->
    is_ok (_read_matrix_market_dense py_float path max_dense_entries lines) = false.
Proof.
  intros py_float path mx lines nr nc ne rest D L. unfold _read_matrix_market_dense.
  rewrite D. simpl. destruct (mx <? nr * nc)%Z; [reflexivity|].
  unfold mm_dense_alloc_fill. destruct (_ || _)%Z; [reflexivity|].
  destruct (mm_entries py_float path nr nc ne 0 (Z.to_nat ne) rest) as [sets|] eqn:E; [|reflexivity].
  destruct (mm_entries_ok _ _ _ _ _ _ _ _ _ E) as (_ & _ & K). lia.
Qed.

(** Dense Matrix Market reader: lines after the declared entries are never
    read; appending any lines to a file that loads gives the same matrix. *)
Theorem mm_dense_ignores_trailing_lines :
  forall py_float path max_dense_entries lines extra m,
    _read_matrix_market_dense py_float path max_dense_entries lines = Ok m ->
    _read_matrix_market_dense py_float path max_dense_entries (lines ++ extra) = Ok m.
Proof.
  intros py_float path mx lines extra m H. unfold _read_matrix_market_dense in *.
  destruct (mm_read_dims path lines) as [[[[nr nc] ne] ls]|] eqn:D; [|discriminate].
  rewrite (mm_read_dims_app _ _ _ _ _ _ _ D). simpl in *.
  destruct (mx <? nr * nc)%Z; [exact H|].
  unfold mm_dense_alloc_fill in *. destruct (_ || _)%Z; [exact H|].
  destruct (mm_entries py_float path nr nc ne 0 (Z.to_nat ne) ls) as [sets|] eqn:E; [|discriminate].
  rewrite (mm_entries_app _ _ _ _ _ _ _ _ _ _ E). exact H.
Qed.


Lemma space_not_special a : py_isspace a = false ->
  Ascii.eqb a LF = false /\ Ascii.eqb a CR = false /\ Ascii.eqb a TAB = false.
Proof.
  intros H. split; [|split].
  - destruct (Ascii.eqb_spec a LF) as [->|]; [vm_compute in H; discriminate H|reflexivity].
  - destruct (Ascii.eqb_spec a CR) as [->|]; [vm_compute in H; discriminate H|reflexivity].
  - destruct (Ascii.eqb_spec a TAB) as [->|]; [vm_compute in H; discriminate H|reflexivity].
Qed.

Lemma str_app_nil (s : string) : (s ++ EmptyString)%string = s.
Proof. induction s as [|a s IH]; [reflexivity|]. change (String a (s ++ EmptyString) = String a s). now rewrite IH. Qed.

Lemma chars_app (a b : string) :
  list_ascii_of_string (a ++ b) = list_ascii_of_string a ++ list_ascii_of_string b.
Proof. induction a as [|x a IH]; [reflexivity|]. simpl. now rewrite IH. Qed.

Lemma lines_go_app_gen b s cur :
  (forall a, In a (list_ascii_of_string b) -> Ascii.eqb a LF = false /\ Ascii.eqb a CR = false) ->
  lines_untranslated_go (b ++ s) cur = lines_untranslated_go s (cur ++ b).
Proof.
  revert cur. induction b as [|a b IH]; intros cur H.
  - change (lines_untranslated_go s cur = lines_untranslated_go s (cur ++ EmptyString)).
    now rewrite str_app_nil.
  - destruct (H a (or_introl eq_refl)) as [H1 H2].
    change (lines_untranslated_go (String a (b ++ s)) cur = lines_untranslated_go s (cur ++ String a b)).
    simpl. rewrite H1, H2, IH by (intros x Hx; apply H; right; exact Hx).
    rewrite str_app_assoc. reflexivity.
Qed.

Lemma no_space_chars b a : no_space b = true -> In a (list_ascii_of_string b) -> py_isspace a = false.
Proof.
  induction b as [|x b IH]; simpl; [tauto|].
  intros H [<-|Hin]; apply andb_prop in H as [Hx Hb]; [now apply negb_true_iff|auto].
Qed.

Lemma no_space_no_nl b : no_space b = true ->
  forall a, In a (list_ascii_of_string b) -> Ascii.eqb a LF = false /\ Ascii.eqb a CR = false.
Proof.
  intros Hb a Ha. destruct (space_not_special a (no_space_chars b a Hb Ha)) as (H1 & H2 & _). auto.
Qed.

Lemma lines_go_app b s cur : no_space b = true ->
  lines_untranslated_go (b ++ s) cur = lines_untranslated_go s (cur ++ b).
Proof. intros Hb. apply lines_go_app_gen, no_space_no_nl, Hb. Qed.

Lemma split_go_app sep b s cur : (forall a, In a (list_ascii_of_string b) -> Ascii.eqb a sep = false) ->
  split_on_go sep (b ++ s) cur = split_on_go sep s (cur ++ b).
Proof.
  revert cur. induction b as [|a b IH]; intros cur H.
  - change (split_on_go sep s cur = split_on_go sep s (cur ++ EmptyString)). now rewrite str_app_nil.
  - change (split_on_go sep (String a (b ++ s)) cur = split_on_go sep s (cur ++ String a b)).
    simpl. rewrite (H a (or_introl eq_refl)), IH by (intros x Hx; apply H; right; exact Hx).
    rewrite str_app_assoc. reflexivity.
Qed.

Lemma rstrip_app c b s : (forall a, In a (list_ascii_of_string b) -> Ascii.eqb a c = false) ->
  rstrip_char c (b ++ s) = (b ++ rstrip_char c s)%string.
Proof.
  induction b as [|a b IH]; intros H; [reflexivity|].
  change (rstrip_char c (String a (b ++ s)) = String a (b ++ rstrip_char c s)).
  simpl. rewrite IH by (intros x Hx; apply H; right; exact Hx).
  rewrite (H a (or_introl eq_refl)), andb_false_r. reflexivity.
Qed.

Lemma translate_app_gen b s :
  (forall a, In a (list_ascii_of_string b) -> Ascii.eqb a CR = false) ->
  translate_newlines (b ++ s) = (b ++ translate_newlines s)%string.
Proof.
  induction b as [|a b IH]; intros H; [reflexivity|].
  change (translate_newlines (String a (b ++ s)) = String a (b ++ translate_newlines s)).
  simpl. rewrite (H a (or_introl eq_refl)), IH by (intros x Hx; apply H; right; exact Hx).
  reflexivity.
Qed.

Lemma translate_app b s : no_space b = true ->
  translate_newlines (b ++ s) = (b ++ translate_newlines s)%string.
Proof. intros Hb. apply translate_app_gen. intros a Ha. apply (no_space_no_nl b Hb a Ha). Qed.

Lemma all_space_app a b : all_space (a ++ b) = all_space a && all_space b.
Proof. induction a as [|x a IH]; [reflexivity|]. simpl. rewrite IH. apply andb_assoc. Qed.

Lemma all_space_rev s : all_space (rev_str s) = all_space s.
Proof.
  induction s as [|a s IH]; [reflexivity|]. simpl. rewrite all_space_app, IH. simpl.
  rewrite andb_true_r. apply andb_comm.
Qed.

Lemma rev_str_empty s : rev_str s = EmptyString -> s = EmptyString.
Proof.
  destruct s as [|a s]; [reflexivity|]. simpl. intros H.
  destruct (rev_str s); discriminate H.
Qed.

Lemma lstrip_empty s : lstrip s = EmptyString <-> all_space s = true.
Proof.
  induction s as [|a s IH]; simpl; [tauto|].
  destruct (py_isspace a); simpl; [exact IH|split; discriminate].
Qed.

Lemma lstrip_all_space s : all_space (lstrip s) = all_space s.
Proof.
  induction s as [|a s IH]; [reflexivity|]. simpl.
  destruct (py_isspace a) eqn:E; simpl; [exact IH|rewrite E; reflexivity].
Qed.

Lemma py_strip_empty s : py_strip s = EmptyString -> all_space s = true.
Proof.
  unfold py_strip. intros H. apply rev_str_empty, lstrip_empty in H.
  rewrite all_space_rev, lstrip_all_space in H. exact H.
Qed.

Lemma no_space_all_space s : no_space s = true -> all_space s = true -> s = EmptyString.
Proof.
  destruct s as [|a s]; [reflexivity|]. simpl. intros H1 H2.
  apply andb_prop in H1 as [H1 _]. apply andb_prop in H2 as [H2 _]. rewrite H2 in H1. discriminate.
Qed.

Lemma one_per_line_cons e b names : one_per_line e (b :: names) = (b ++ e ++ one_per_line e names)%string.
Proof. reflexivity. Qed.

Lemma lines_go_lf s cur : lines_untranslated_go (lf ++ s) cur = (cur ++ lf)%string :: lines_untranslated_go s EmptyString.
Proof. reflexivity. Qed.

Lemma lines_go_crlf s cur : lines_untranslated_go (crlf ++ s) cur = (cur ++ crlf)%string :: lines_untranslated_go s EmptyString.
Proof. reflexivity. Qed.

Lemma translate_crlf s : translate_newlines (crlf ++ s) = (lf ++ translate_newlines s)%string.
Proof. reflexivity. Qed.

Lemma translate_lf s : translate_newlines (lf ++ s) = (lf ++ translate_newlines s)%string.
Proof. reflexivity. Qed.

Lemma no_space_not_sep b sep : no_space b = true -> py_isspace sep = true ->
  forall a, In a (list_ascii_of_string b) -> Ascii.eqb a sep = false.
Proof.
  intros Hb Hs a Ha. destruct (Ascii.eqb_spec a sep) as [->|]; [|reflexivity].
  rewrite (no_space_chars b sep Hb Ha) in Hs. discriminate.
Qed.

Lemma lines_one_per_line_lf names : names_ok names ->
  lines_untranslated (one_per_line lf names) = map (fun b => b ++ lf)%string names.
Proof.
  unfold lines_untranslated. induction 1 as [|b names [Hne Hb] _ IH]; [reflexivity|].
  rewrite one_per_line_cons, lines_go_app, lines_go_lf, IH by exact Hb. reflexivity.
Qed.

Lemma lines_one_per_line_crlf names : names_ok names ->
  lines_untranslated (one_per_line crlf names) = map (fun b => b ++ crlf)%string names.
Proof.
  unfold lines_untranslated. induction 1 as [|b names [Hne Hb] _ IH]; [reflexivity|].
  rewrite one_per_line_cons, lines_go_app, lines_go_crlf, IH by exact Hb. reflexivity.
Qed.

Lemma translate_one_per_line_crlf names : names_ok names ->
  translate_newlines (one_per_line crlf names) = one_per_line lf names.
Proof.
  induction 1 as [|b names [Hne Hb] _ IH]; [reflexivity|].
  rewrite !one_per_line_cons, translate_app, translate_crlf, IH by exact Hb. reflexivity.
Qed.

Lemma translate_one_per_line_lf names : names_ok names ->
  translate_newlines (one_per_line lf names) = one_per_line lf names.
Proof.
  induction 1 as [|b names [Hne Hb] _ IH]; [reflexivity|].
  rewrite !one_per_line_cons, translate_app, translate_lf, IH by exact Hb. reflexivity.
Qed.

Lemma split_on_no_space b : no_space b = true -> split_on TAB b = [b].
Proof.
  intros Hb. unfold split_on. rewrite <- (str_app_nil b) at 1.
  rewrite split_go_app by (apply no_space_not_sep; [exact Hb|reflexivity]). reflexivity.
Qed.

Lemma rstrip_lf b : no_space b = true -> rstrip_char LF (b ++ lf) = b.
Proof.
  intros Hb. rewrite rstrip_app by (apply no_space_not_sep; [exact Hb|reflexivity]).
  change (rstrip_char LF lf) with EmptyString. apply str_app_nil.
Qed.

Lemma rows_one_per_line_lf names : names_ok names ->
  tsv_rows (one_per_line lf names) = map (fun b => [b]) names.
Proof.
  intros Hall. unfold tsv_rows, lines_translated.
  rewrite translate_one_per_line_lf, lines_one_per_line_lf by exact Hall.
  induction Hall as [|b names [Hne Hb] _ IH]; [reflexivity|].
  simpl. destruct (String.eqb_spec (py_strip (b ++ lf)) EmptyString) as [E|_].
  - apply py_strip_empty in E. rewrite all_space_app in E. apply andb_prop in E as [E _].
    exfalso. exact (Hne (no_space_all_space b Hb E)).
  - simpl. rewrite IH, rstrip_lf, split_on_no_space by exact Hb. reflexivity.
Qed.

(** One-column name files (barcodes.tsv): for names without whitespace,
    Visium's [_read_tsv_first_col] returns the names from a file with \n
    endings, but keeps a trailing \r on every name from a file with \r\n
    endings (the file is opened with [newline=""]); the Xenium / Visium HD
    reader returns the names for both endings. *)
Theorem tsv_names_line_endings :
  forall names, Forall (fun b => b <> EmptyString /\ no_space b = true) names ->
    visium_read_tsv_first_col (one_per_line lf names) = names /\
    visium_read_tsv_first_col (one_per_line crlf names) = map (fun b => b ++ String CR EmptyString)%string names /\
    xenium_read_tsv_first_col (one_per_line lf names) false = Ok names /\
    xenium_read_tsv_first_col (one_per_line crlf names) false = Ok names.
Proof.
  intros names Hall. fold (names_ok names) in Hall.
  split; [|split; [|split]].
  - unfold visium_read_tsv_first_col. rewrite lines_one_per_line_lf by exact Hall.
    induction Hall as [|b names [Hne Hb] _ IH]; [reflexivity|].
    simpl. rewrite rstrip_lf by exact Hb.
    destruct (String.eqb_spec b EmptyString) as [E|_]; [contradiction|].
    simpl. rewrite IH, split_on_no_space by exact Hb. reflexivity.
  - unfold visium_read_tsv_first_col. rewrite lines_one_per_line_crlf by exact Hall.
    induction Hall as [|b names [Hne Hb] _ IH]; [reflexivity|].
    simpl. rewrite rstrip_app by (apply no_space_not_sep; [exact Hb|reflexivity]).
    change (rstrip_char LF crlf) with (String CR EmptyString).
    destruct (String.eqb_spec (b ++ String CR EmptyString) EmptyString) as [E|_];
      [destruct b; discriminate|].
    simpl. rewrite IH. f_equal.
    unfold split_on. rewrite split_go_app by (apply no_space_not_sep; [exact Hb|reflexivity]). reflexivity.
  - unfold xenium_read_tsv_first_col. rewrite rows_one_per_line_lf by exact Hall.
    destruct names; [reflexivity|]. simpl. rewrite map_map. simpl. rewrite map_id. reflexivity.
  - unfold xenium_read_tsv_first_col.
    replace (tsv_rows (one_per_line crlf names)) with (tsv_rows (one_per_line lf names)).
    + rewrite rows_one_per_line_lf by exact Hall.
      destruct names; [reflexivity|]. simpl. rewrite map_map. simpl. rewrite map_id. reflexivity.
    + unfold tsv_rows, lines_translated.
      rewrite translate_one_per_line_crlf, translate_one_per_line_lf by exact Hall. reflexivity.
Qed.


Lemma feature_line_split i n t e :
  feature_line (i, n, t) e = ((i ++ String TAB (n ++ String TAB t)) ++ e)%string.
Proof.
  unfold feature_line. rewrite str_app_assoc. f_equal.
  change (String TAB (n ++ String TAB t ++ e) = String TAB ((n ++ String TAB t) ++ e))%string.
  rewrite str_app_assoc. reflexivity.
Qed.

Lemma no_tab_nl_chars t a : no_tab_nl t = true -> In a (list_ascii_of_string t) ->
  Ascii.eqb a TAB = false /\ Ascii.eqb a LF = false /\ Ascii.eqb a CR = false.
Proof.
  induction t as [|x t IH]; simpl; [tauto|].
  intros H [<-|Hin]; apply andb_prop in H as [Hx Ht]; [|auto].
  apply negb_true_iff, orb_false_iff in Hx as [Hx H3]. apply orb_false_iff in Hx as [H1 H2]. auto.
Qed.

Lemma body_no_nl i n t : no_space i = true -> no_space n = true -> no_tab_nl t = true ->
  forall a, In a (list_ascii_of_string (i ++ String TAB (n ++ String TAB t))) ->
  Ascii.eqb a LF = false /\ Ascii.eqb a CR = false.
Proof.
  intros Hi Hn Ht a Ha. rewrite chars_app in Ha. apply in_app_or in Ha as [H|H].
  - exact (no_space_no_nl i Hi a H).
  - change (In a (TAB :: list_ascii_of_string (n ++ String TAB t))) in H.
    destruct H as [<-|H]; [split; reflexivity|].
    rewrite chars_app in H. apply in_app_or in H as [H|H].
    + exact (no_space_no_nl n Hn a H).
    + change (In a (TAB :: list_ascii_of_string t)) in H.
      destruct H as [<-|H]; [split; reflexivity|].
      destruct (no_tab_nl_chars t a Ht H) as (_ & H1 & H2). auto.
Qed.

Lemma split_step s cur : split_on_go TAB (String TAB s) cur = cur :: split_on_go TAB s EmptyString.
Proof. reflexivity. Qed.

Lemma split_body i n t : no_space i = true -> no_space n = true -> no_tab_nl t = true ->
  split_on TAB (i ++ String TAB (n ++ String TAB t)) = [i; n; t].
Proof.
  intros Hi Hn Ht. unfold split_on.
  rewrite split_go_app by (apply no_space_not_sep; [exact Hi|reflexivity]).
  rewrite split_step. simpl (EmptyString ++ i)%string.
  rewrite split_go_app by (apply no_space_not_sep; [exact Hn|reflexivity]).
  rewrite split_step. simpl (EmptyString ++ n)%string. f_equal. f_equal.
  rewrite <- (str_app_nil t) at 1.
  rewrite split_go_app by (intros a Ha; apply (no_tab_nl_chars t a Ht Ha)). reflexivity.
Qed.

Lemma rstrip_body i n t : no_space i = true -> no_space n = true -> no_tab_nl t = true ->
  rstrip_char LF ((i ++ String TAB (n ++ String TAB t)) ++ lf) = (i ++ String TAB (n ++ String TAB t))%string.
Proof.
  intros Hi Hn Ht. rewrite rstrip_app.
  - change (rstrip_char LF lf) with EmptyString. apply str_app_nil.
  - intros a Ha. apply (body_no_nl i n t Hi Hn Ht a Ha).
Qed.


Lemma lines_features feats : feats_ok feats ->
  lines_untranslated (features_text feats lf) =
  map (fun f => let '(i, n, t) := f in ((i ++ String TAB (n ++ String TAB t)) ++ lf)%string) feats.
Proof.
  unfold lines_untranslated. induction 1 as [|[[i n] t] feats (Hi & Hn & Ht) _ IH]; [reflexivity|].
  change (features_text ((i, n, t) :: feats) lf) with (feature_line (i, n, t) lf ++ features_text feats lf)%string.
  rewrite feature_line_split, str_app_assoc, lines_go_app_gen by (apply body_no_nl; assumption).
  rewrite lines_go_lf, IH. reflexivity.
Qed.

Lemma translate_features feats : feats_ok feats ->
  translate_newlines (features_text feats lf) = features_text feats lf.
Proof.
  induction 1 as [|[[i n] t] feats (Hi & Hn & Ht) _ IH]; [reflexivity|].
  change (features_text ((i, n, t) :: feats) lf) with (feature_line (i, n, t) lf ++ features_text feats lf)%string.
  rewrite feature_line_split, str_app_assoc, translate_app_gen
    by (intros a Ha; apply (body_no_nl i n t Hi Hn Ht a Ha)).
  rewrite translate_lf, IH. reflexivity.
Qed.

Lemma py_strip_no_space n : no_space n = true -> (py_strip n = EmptyString <-> n = EmptyString).
Proof.
  intros Hn. split; [intros H; apply py_strip_empty in H; exact (no_space_all_space n Hn H)|].
  intros ->. reflexivity.
Qed.

(** features.tsv with id, name and type columns: Visium's
    [_read_tsv_first_or_second_col] returns each line's name, or its id when
    the name is empty; Xenium's [_read_tsv_first_col(..., True)] returns the
    names as they are, empty ones included (ids non-empty). *)
Theorem features_name_column :
  forall feats, Forall (fun f => let '(i, n, t) := f in
                           no_space i = true /\ no_space n = true /\ no_tab_nl t = true) feats ->
    visium_read_tsv_first_or_second_col (features_text feats lf) =
      map (fun f => let '(i, n, _) := f in if String.eqb n EmptyString then i else n) feats /\
    (Forall (fun f => let '(i, _, _) := f in i <> EmptyString) feats ->
     xenium_read_tsv_first_col (features_text feats lf) true = Ok (map (fun f => let '(_, n, _) := f in n) feats)).
Proof.
  intros feats Hall. fold (feats_ok feats) in Hall. split.
  - unfold visium_read_tsv_first_or_second_col. rewrite lines_features by exact Hall.
    induction Hall as [|[[i n] t] feats (Hi & Hn & Ht) _ IH]; [reflexivity|].
    simpl. rewrite rstrip_body by assumption.
    destruct (String.eqb_spec (i ++ String TAB (n ++ String TAB t)) EmptyString) as [E|_];
      [destruct i; discriminate|].
    rewrite split_body by assumption. simpl. rewrite IH. f_equal.
    destruct (String.eqb_spec (py_strip n) EmptyString) as [E|E];
      destruct (String.eqb_spec n EmptyString) as [E'|E']; simpl; try reflexivity.
    + exfalso. apply E'. apply (py_strip_no_space n Hn), E.
    + exfalso. apply E. apply (py_strip_no_space n Hn), E'.
  - intros Hne. unfold xenium_read_tsv_first_col, tsv_rows, lines_translated.
    rewrite translate_features, lines_features by exact Hall.
    assert (Hrows : map (fun line => split_on TAB (rstrip_char LF line))
              (List.filter (fun line => negb (String.eqb (py_strip line) EmptyString))
                 (map (fun f => let '(i, n, t) := f in ((i ++ String TAB (n ++ String TAB t)) ++ lf)%string) feats))
            = map (fun f => let '(i, n, t) := f in [i; n; t]) feats).
    { induction Hall as [|[[i n] t] feats (Hi & Hn & Ht) _ IH]; [reflexivity|].
      inversion Hne as [|? ? Hi0 Hne']; subst. simpl.
      destruct (String.eqb_spec (py_strip ((i ++ String TAB (n ++ String TAB t)) ++ lf)) EmptyString) as [E|_].
      - exfalso. apply py_strip_empty in E. rewrite !all_space_app in E.
        apply andb_prop in E as [E _]. apply andb_prop in E as [E _].
        exact (Hi0 (no_space_all_space i Hi E)).
      - simpl. rewrite rstrip_body, split_body by assumption. rewrite IH by exact Hne'. reflexivity. }
    rewrite Hrows. destruct feats as [|[[i n] t] feats]; [reflexivity|]. simpl.
    clear Hrows Hne. inversion Hall as [|? ? _ Hall']; subst. clear Hall.
    induction Hall' as [|[[i' n'] t'] feats _ _ IH]; [reflexivity|].
    simpl in IH |- *. destruct (mapR second_field _) as [l|]; [|discriminate].
    simpl in IH |- *. injection IH as IH. rewrite IH. reflexivity.
Qed.


Lemma mapR_second_ok rows : Forall (fun r => (2 <= List.length r)%nat) rows ->
  mapR second_field rows = Ok (map (fun r => nth 1 r EmptyString) rows).
Proof.
  induction 1 as [|r rows Hr _ IH]; [reflexivity|].
  destruct r as [|x [|y r]]; simpl in Hr; try lia. simpl. rewrite IH. reflexivity.
Qed.

Lemma mapR_second_err rows r : In r rows -> (List.length r < 2)%nat ->
  mapR second_field rows = Err "IndexError: list index out of range".
Proof.
  induction rows as [|r' rows IH]; [intros []|]. intros [E|Hin] Hl.
  - subst r'. destruct r as [|x [|y r2]]; simpl in Hl; try lia; reflexivity.
  - destruct r' as [|x [|y r2]]; [reflexivity|reflexivity|].
    simpl. rewrite (IH Hin Hl). reflexivity.
Qed.

(** [_read_tsv_first_col(path, prefer_second_col=True)] (Xenium, Visium HD)
    decides from the first non-blank row alone: when it has two fields,
    every row must have two (a later one-field row raises IndexError), and
    when it has one, the first field of every row is returned. *)
Theorem tsv_second_col_first_row_decides :
  forall text r0 rest, tsv_rows text = r0 :: rest ->
    ((2 <= List.length r0)%nat -> Forall (fun r => (2 <= List.length r)%nat) rest ->
       xenium_read_tsv_first_col text true = Ok (map (fun r => nth 1 r EmptyString) (r0 :: rest))) /\
    ((2 <= List.length r0)%nat -> (exists r, In r rest /\ (List.length r < 2)%nat) ->
       xenium_read_tsv_first_col text true = Err "IndexError: list index out of range") /\
    ((List.length r0 < 2)%nat ->
       xenium_read_tsv_first_col text true = Ok (map (hd EmptyString) (r0 :: rest))).
Proof.
  intros text r0 rest E. unfold xenium_read_tsv_first_col. rewrite E.
  split; [|split].
  - intros H0 Hr. apply Nat.leb_le in H0. lazy beta iota. rewrite H0. apply mapR_second_ok. constructor; [|exact Hr].
    apply Nat.leb_le, H0.
  - intros H0 [r [Hin Hl]]. apply Nat.leb_le in H0. lazy beta iota. rewrite H0.
    apply (mapR_second_err _ r); [right; exact Hin|exact Hl].
  - intros H0. assert (H1 : (2 <=? List.length r0)%nat = false) by (apply Nat.leb_gt; lia).
    lazy beta iota. rewrite H1. reflexivity.
Qed.

Lemma tsv_second_col_first_row_decides_witness :
  xenium_read_tsv_first_col (String.concat EmptyString ["E1"; String TAB EmptyString; "A"; lf; "E2"; lf]) true
  = Err "IndexError: list index out of range".
Proof.
  apply (proj1 (proj2 (tsv_second_col_first_row_decides
    (String.concat EmptyString ["E1"; String TAB EmptyString; "A"; lf; "E2"; lf]) ["E1"; "A"] [["E2"]]
    ltac:(vm_compute; reflexivity)))).
  - simpl. lia.
  - exists ["E2"]. split; [left; reflexivity|simpl; lia].
Defined.

Lemma mm_dense_entries_in_bounds_witness :
  _read_matrix_market_dense sample_py_float "matrix.mtx" _MAX_DENSE_ENTRIES mm_small_2x3 =
    Ok {| d_rows := 2; d_cols := 3; d_set := [(0, 0, 5); (1, 2, 7)]%Z |} /\
  exists n_entries rest,
    mm_read_dims "matrix.mtx" mm_small_2x3 = Ok (2%Z, 3%Z, n_entries, rest) /\
    (0 <= 2)%Z /\ (0 <= 3)%Z /\ (2 * 3 <= _MAX_DENSE_ENTRIES)%Z /\
    List.length [(0, 0, 5); (1, 2, 7)]%Z = Z.to_nat n_entries /\
    Forall (entry_in_bounds 2 3) [(0, 0, 5); (1, 2, 7)]%Z.
Proof.
  split; [vm_compute; reflexivity|].
  exact (mm_dense_entries_in_bounds sample_py_float "matrix.mtx" _MAX_DENSE_ENTRIES mm_small_2x3
           {| d_rows := 2; d_cols := 3; d_set := [(0, 0, 5); (1, 2, 7)]%Z |}
           ltac:(vm_compute; reflexivity)).
Defined.

Lemma mm_dense_eof_fails_witness :
  is_ok (_read_matrix_market_dense sample_py_float "matrix.mtx" _MAX_DENSE_ENTRIES
           (firstn 4 mm_small_2x3)) = false.
Proof.
  apply (mm_dense_eof_fails sample_py_float "matrix.mtx" _MAX_DENSE_ENTRIES (firstn 4 mm_small_2x3)
           2 3 2 [mm_line "1 1 5"]).
  - vm_compute. reflexivity.
  - simpl. lia.
Defined.

Lemma mm_dense_ignores_trailing_lines_witness :
  _read_matrix_market_dense sample_py_float "matrix.mtx" _MAX_DENSE_ENTRIES
    (mm_small_2x3 ++ [mm_line "not an entry"]) =
  Ok {| d_rows := 2; d_cols := 3; d_set := [(0, 0, 5); (1, 2, 7)]%Z |}.
Proof.
  apply mm_dense_ignores_trailing_lines. vm_compute. reflexivity.
Defined.

Lemma tsv_names_line_endings_witness :
  visium_read_tsv_first_col (one_per_line crlf ["AAACAAGTATCTCCCA-1"; "AAACACCAATAACTGC-1"]) =
    ["AAACAAGTATCTCCCA-1" ++ String CR EmptyString; "AAACACCAATAACTGC-1" ++ String CR EmptyString]%string.
Proof.
  apply (proj1 (proj2 (tsv_names_line_endings ["AAACAAGTATCTCCCA-1"; "AAACACCAATAACTGC-1"]
                          ltac:(repeat constructor; discriminate)))).
Defined.

Lemma features_name_column_witness :
  visium_read_tsv_first_or_second_col
    (features_text [("ENSG00000243485", "MIR1302-2HG", "Gene Expression"); ("ENSG00000237613", EmptyString, "Gene Expression")] lf) =
    ["MIR1302-2HG"; "ENSG00000237613"].
Proof.
  apply (proj1 (features_name_column
    [("ENSG00000243485", "MIR1302-2HG", "Gene Expression"); ("ENSG00000237613", EmptyString, "Gene Expression")]
    ltac:(repeat constructor))).
Defined.

(** ** Cell metadata loaders and the tabular cells file *)

Lemma lstrip_head s a t : lstrip s = String a t -> py_isspace a = false.
Proof.
  induction s as [|b s IH]; simpl; [discriminate|].
  destruct (py_isspace b) eqn:E; [exact IH|]. intros H. injection H as -> ->. exact E.
Qed.

Lemma lstrip_id s : (forall a t, s = String a t -> py_isspace a = false) -> lstrip s = s.
Proof.
  destruct s as [|a s]; [reflexivity|]. intros H. simpl. rewrite (H a s eq_refl). reflexivity.
Qed.

Lemma lstrip_decomp s : exists sp, s = (sp ++ lstrip s)%string.
Proof.
  induction s as [|a s [sp IH]]; [exists EmptyString; reflexivity|]. simpl.
  destruct (py_isspace a).
  - exists (String a sp). change (String a s = String a (sp ++ lstrip s)). rewrite <- IH. reflexivity.
  - exists EmptyString. reflexivity.
Qed.

Lemma rev_str_app a b : rev_str (a ++ b) = (rev_str b ++ rev_str a)%string.
Proof.
  induction a as [|x a IH].
  - simpl. symmetry. apply str_app_nil.
  - change (rev_str (a ++ b) ++ String x EmptyString = rev_str b ++ (rev_str a ++ String x EmptyString))%string.
    rewrite IH. apply str_app_assoc.
Qed.

Lemma rev_str_rev s : rev_str (rev_str s) = s.
Proof.
  induction s as [|a s IH]; [reflexivity|]. simpl. rewrite rev_str_app, IH. reflexivity.
Qed.

Lemma py_strip_idem s : py_strip (py_strip s) = py_strip s.
Proof.
  unfold py_strip. set (t := lstrip s). set (u := lstrip (rev_str t)).
  assert (Hu : lstrip (rev_str u) = rev_str u).
  { apply lstrip_id. intros a w Hw.
    destruct (lstrip_decomp (rev_str t)) as [sp Hsp]. fold u in Hsp.
    assert (Ht : t = (rev_str u ++ rev_str sp)%string).
    { rewrite <- (rev_str_rev t), Hsp, rev_str_app. reflexivity. }
    rewrite Hw in Ht. apply (lstrip_head s a (w ++ rev_str sp)%string). exact Ht. }
  rewrite Hu, rev_str_rev. f_equal. apply lstrip_id.
  intros a w Hw. apply (lstrip_head (rev_str t) a w). exact Hw.
Qed.

Lemma lowered_strip c : lowered (py_strip c) = lowered c.
Proof. unfold lowered. rewrite py_strip_idem. reflexivity. Qed.

Lemma std_columns raw : frame_columns (_standardize_columns raw) = map (fun nc => py_strip nc.1) raw.
Proof. unfold frame_columns, _standardize_columns. rewrite map_map. reflexivity. Qed.

Lemma std_rect raw n :
  Forall (fun nc => List.length nc.2 = n) raw ->
  Forall (fun nc => List.length nc.2 = n) (_standardize_columns raw).
Proof. intros H. unfold _standardize_columns. apply Forall_map. exact H. Qed.

Lemma first_present_cons m c cs :
  _first_present m (c :: cs) = match m !! c with Some v => Some v | None => _first_present m cs end.
Proof. reflexivity. Qed.

Lemma first_present_none cols cands :
  _first_present (_lower_map_columns cols) cands = None <->
  Forall (fun c => ~ In (lowered c) cands) cols.
Proof.
  induction cands as [|a cs IH].
  - split; [intros _|reflexivity]. apply List.Forall_forall. intros c _ [].
  - rewrite first_present_cons, lower_map_lookup.
    destruct (find (fun c => String.eqb (lowered c) a) cols) as [v|] eqn:E.
    + split; [discriminate|]. intros H. apply find_some in E as [Hin Heq].
      apply String.eqb_eq in Heq. rewrite List.Forall_forall in H.
      exfalso. apply (H v Hin). left. symmetry. exact Heq.
    + rewrite IH. pose proof (find_none _ _ E) as Hn. split; intros H.
      * rewrite List.Forall_forall in H |- *. intros c Hc [Ha|Hcs].
        -- specialize (Hn c Hc). simpl in Hn. rewrite Ha in Hn. rewrite String.eqb_refl in Hn. discriminate.
        -- exact (H c Hc Hcs).
      * eapply Forall_impl; [exact H|]. intros c Hc Hcs. apply Hc. right. exact Hcs.
Qed.

Lemma first_present_in cols cands v :
  _first_present (_lower_map_columns cols) cands = Some v -> In v cols /\ In (lowered v) cands.
Proof.
  induction cands as [|a cs IH]; [discriminate|].
  rewrite first_present_cons, lower_map_lookup.
  destruct (find (fun c => String.eqb (lowered c) a) cols) as [w|] eqn:E.
  - intros H. injection H as <-. apply find_some in E as [Hin Heq].
    apply String.eqb_eq in Heq. split; [exact Hin|left; symmetry; exact Heq].
  - intros H. destruct (IH H) as [H1 H2]. split; [exact H1|right; exact H2].
Qed.

(** No alias over the raw labels is the same as none over the stripped ones. *)
Lemma std_first_present_none raw cands :
  _first_present (_lower_map_columns (frame_columns (_standardize_columns raw))) cands = None <->
  Forall (fun nc => ~ In (lowered nc.1) cands) raw.
Proof.
  rewrite first_present_none, std_columns, Forall_map.
  split; intros H; eapply Forall_impl; try exact H; intros nc; simpl; rewrite lowered_strip; tauto.
Qed.

Lemma std_exists raw cands :
  Exists (fun nc => In (lowered nc.1) cands) raw ->
  exists v, _first_present (_lower_map_columns (frame_columns (_standardize_columns raw))) cands = Some v.
Proof.
  intros Hex. destruct (_first_present _ cands) as [v|] eqn:E; [eauto|].
  apply std_first_present_none in E. exfalso.
  apply List.Exists_exists in Hex as [nc [Hin Hl]]. rewrite List.Forall_forall in E. exact (E nc Hin Hl).
Qed.

Lemma std_some_exists raw cands v :
  _first_present (_lower_map_columns (frame_columns (_standardize_columns raw))) cands = Some v ->
  Exists (fun nc => In (lowered nc.1) cands) raw.
Proof.
  intros E. apply first_present_in in E as [Hin Hl]. rewrite std_columns in Hin.
  apply in_map_iff in Hin as [nc [<- Hnc]]. apply List.Exists_exists. exists nc.
  rewrite lowered_strip in Hl. split; assumption.
Qed.

Lemma filter_label_nil (df : frame) l :
  ~ In l (frame_columns df) -> List.filter (fun nc => String.eqb nc.1 l) df = [].
Proof.
  induction df as [|[x c] df IH]; simpl; [reflexivity|]. intros H.
  destruct (String.eqb_spec x l) as [->|_]; [exfalso; apply H; left; reflexivity|].
  apply IH. intros Hi. apply H. right. exact Hi.
Qed.

Lemma get_col_nodup (df : frame) l :
  NoDup (frame_columns df) -> In l (frame_columns df) ->
  exists c, get_col df l = Ok c /\ In (l, c) df.
Proof.
  induction df as [|[x c] df IH]; simpl; intros ND Hin; [contradiction|].
  inversion ND as [|? ? Hx ND']; subst. unfold get_col. simpl.
  destruct (String.eqb_spec x l) as [->|Hne].
  - rewrite filter_label_nil by (intros Hi; apply Hx, list_elem_of_In, Hi). exists c. split; [reflexivity|left; reflexivity].
  - destruct Hin as [->|Hin]; [congruence|].
    destruct (IH ND' Hin) as [c' [Hg Hi]]. exists c'. split; [exact Hg|right; exact Hi].
Qed.

Lemma get_col_rect (df : frame) l c n :
  Forall (fun nc => List.length nc.2 = n) df -> In (l, c) df -> List.length c = n.
Proof. intros H Hin. rewrite List.Forall_forall in H. exact (H _ Hin). Qed.

Lemma col_or_na_ok (df : frame) col n :
  NoDup (frame_columns df) -> Forall (fun nc => List.length nc.2 = n) df ->
  (forall v, col = Some v -> In v (frame_columns df)) ->
  exists c, col_or_na df col n = Ok c /\ List.length c = n.
Proof.
  intros ND R Hcol. destruct col as [v|].
  - destruct (get_col_nodup df v ND (Hcol v eq_refl)) as [c [Hg Hi]].
    exists c. split; [exact Hg|]. exact (get_col_rect _ _ _ _ R Hi).
  - exists (repeat PNA n). split; [reflexivity|apply repeat_length].
Qed.

Lemma as_string_shape frepr v : as_string frepr v = PNA \/ exists s, as_string frepr v = PStr s.
Proof. unfold as_string. destruct (is_missing v); [left; reflexivity|right; eauto]. Qed.

Lemma to_numeric_shape nstr v : to_numeric nstr v = PNaN \/ exists k, to_numeric nstr v = PNum k.
Proof.
  destruct v as [s|k| | |]; simpl; try (left; reflexivity); [|right; eauto].
  destruct (nstr s); [right; eauto|left; reflexivity].
Qed.

Lemma map_as_string_shape frepr (c : column) :
  Forall (fun v => v = PNA \/ exists s, v = PStr s) (map (as_string frepr) c).
Proof. apply Forall_map, List.Forall_forall. intros v _. apply as_string_shape. Qed.

Lemma map_to_numeric_shape nstr (c : column) :
  Forall (fun v => v = PNaN \/ exists k, v = PNum k) (map (to_numeric nstr) c).
Proof. apply Forall_map, List.Forall_forall. intros v _. apply to_numeric_shape. Qed.

(** The three [_load_cell_metadata] fail, whatever else the table holds,
    when no column label (stripped and lowercased) is a cell id alias; the
    message names the platform and lists the stripped labels. *)
Theorem cell_metadata_missing_id_column nstr frepr a path raw :
  Forall (fun nc => ~ In (lowered nc.1) (ct_cell a)) raw ->
  _load_cell_metadata nstr frepr a path raw =
    Err (ct_platform a ++ ": cell metadata " ++ ct_table a ++ " missing required " ++
         ct_id_what a ++ " column. " ++
         "Found columns: " ++ py_list_repr (frame_columns (_standardize_columns raw)) ++
         " (file: " ++ path ++ ")")%string.
Proof.
  intros H. unfold _load_cell_metadata. cbv zeta.
  rewrite (proj2 (std_first_present_none raw (ct_cell a)) H). reflexivity.
Qed.

(** The three [_load_cell_metadata] succeed on every table (rectangular,
    [n] rows, labels distinct once stripped) with a cell id alias among its
    labels, x, y and cell type columns present or not: the result has the
    canonical columns cell_id, x, y, cell_type, keeps the [n] rows, and is
    accepted by [_validate_cell_metadata] of every platform. *)
Theorem cell_metadata_loads nstr frepr a path raw n :
  Forall (fun nc => List.length nc.2 = n) raw ->
  NoDup (frame_columns (_standardize_columns raw)) ->
  Exists (fun nc => In (lowered nc.1) (ct_cell a)) raw ->
  exists out, _load_cell_metadata nstr frepr a path raw = Ok out /\
    frame_columns out = _CELL_REQUIRED_OUT_COLS /\
    Forall (fun nc => List.length nc.2 = n) out /\
    (forall p, _validate_cell_metadata p out = Ok tt).
Proof.
  intros R ND Hex. unfold _load_cell_metadata. cbv zeta.
  set (df := _standardize_columns raw) in *.
  assert (Rd : Forall (fun nc => List.length nc.2 = n) df) by (apply std_rect; exact R).
  destruct (std_exists raw _ Hex) as [cc Ec]. fold df in Ec. rewrite Ec.
  destruct (get_col_nodup df cc ND (proj1 (first_present_in _ _ _ Ec))) as [ids [Hg Hi]].
  rewrite Hg. simpl. pose proof (get_col_rect _ _ _ _ Rd Hi) as Li. rewrite Li.
  assert (Hcol : forall cands v, _first_present (_lower_map_columns (frame_columns df)) cands = Some v ->
                 In v (frame_columns df)) by (intros ? ? E; exact (proj1 (first_present_in _ _ _ E))).
  destruct (col_or_na_ok df _ n ND Rd (Hcol (ct_x a))) as [xs [Hx Lx]]. rewrite Hx. simpl.
  destruct (col_or_na_ok df _ n ND Rd (Hcol (ct_y a))) as [ys [Hy Ly]]. rewrite Hy. simpl.
  destruct (col_or_na_ok df _ n ND Rd (Hcol (ct_type a))) as [ts [Ht Lt]]. rewrite Ht. simpl.
  eexists. split; [reflexivity|]. split; [reflexivity|]. split.
  - repeat constructor; simpl; rewrite length_map; assumption.
  - intros p. destruct p; reflexivity.
Qed.

(** What the three [_load_cell_metadata] return holds cell_id and
    cell_type as strings or [pd.NA] (never NaN or None), x and y as numbers
    or NaN (never strings); a coordinate without an alias among the labels
    is NaN on every row, and a missing cell type column is [pd.NA] on every
    row. *)
Theorem cell_metadata_values nstr frepr a path raw out :
  _load_cell_metadata nstr frepr a path raw = Ok out ->
  exists ids xs ys ts,
    out = [("cell_id", ids); ("x", xs); ("y", ys); ("cell_type", ts)] /\
    Forall (fun v => v = PNA \/ exists s, v = PStr s) ids /\
    Forall (fun v => v = PNaN \/ exists k, v = PNum k) xs /\
    Forall (fun v => v = PNaN \/ exists k, v = PNum k) ys /\
    Forall (fun v => v = PNA \/ exists s, v = PStr s) ts /\
    (Forall (fun nc => ~ In (lowered nc.1) (ct_x a)) raw -> Forall (eq PNaN) xs) /\
    (Forall (fun nc => ~ In (lowered nc.1) (ct_y a)) raw -> Forall (eq PNaN) ys) /\
    (Forall (fun nc => ~ In (lowered nc.1) (ct_type a)) raw -> Forall (eq PNA) ts).
Proof.
  unfold _load_cell_metadata. cbv zeta.
  destruct (_first_present _ (ct_cell a)) as [cc|]; [|discriminate].
  intros H. apply bindR_ok in H as [ids [_ H]].
  apply bindR_ok in H as [xs [Hx H]]. apply bindR_ok in H as [ys [Hy H]].
  apply bindR_ok in H as [ts [Ht H]]. injection H as <-.
  exists (map (as_string frepr) ids), (map (to_numeric nstr) xs),
         (map (to_numeric nstr) ys), (map (as_string frepr) ts).
  split; [reflexivity|].
  split; [apply map_as_string_shape|]. split; [apply map_to_numeric_shape|].
  split; [apply map_to_numeric_shape|]. split; [apply map_as_string_shape|].
  assert (Hna : forall c (cands : list string),
            col_or_na (_standardize_columns raw)
              (_first_present (_lower_map_columns (frame_columns (_standardize_columns raw))) cands)
              (List.length ids) = Ok c ->
            Forall (fun nc => ~ In (lowered nc.1) cands) raw ->
            c = repeat PNA (List.length ids)).
  { intros c cands Hc Hno.
    rewrite (proj2 (std_first_present_none raw cands) Hno) in Hc. simpl in Hc.
    injection Hc as <-. reflexivity. }
  split; [|split]; intros Hno.
  - rewrite (Hna _ _ Hx Hno), map_repeat. apply List.Forall_forall.
    intros v Hv. apply repeat_spec in Hv. symmetry. exact Hv.
  - rewrite (Hna _ _ Hy Hno), map_repeat. apply List.Forall_forall.
    intros v Hv. apply repeat_spec in Hv. symmetry. exact Hv.
  - rewrite (Hna _ _ Ht Hno), map_repeat. apply List.Forall_forall.
    intros v Hv. apply repeat_spec in Hv. symmetry. exact Hv.
Qed.

Lemma Ok_inj {A} (a b : A) : Ok a = Ok b -> a = b.
Proof. intros H. injection H as ->. reflexivity. Qed.

Lemma in_select_labels (df : frame) gs c :
  In c (map fst (select_labels df gs)) <-> In c gs /\ In c (frame_columns df).
Proof.
  unfold select_labels, frame_columns. rewrite in_map_iff. split.
  - intros [nc [<- Hin]]. apply in_flat_map in Hin as [l [Hl Hf]].
    apply filter_In in Hf as [Hnc Heq]. apply String.eqb_eq in Heq. subst l.
    split; [exact Hl|]. apply in_map. exact Hnc.
  - intros [Hg Hd]. apply in_map_iff in Hd as [nc [<- Hnc]].
    exists nc. split; [reflexivity|]. apply in_flat_map. exists nc.1. split; [exact Hg|].
    apply filter_In. split; [exact Hnc|]. apply String.eqb_refl.
Qed.

Lemma mem_false c l : mem c l = false <-> ~ In c l.
Proof.
  unfold mem. rewrite <- not_true_iff_false, existsb_exists. split.
  - intros H Hin. apply H. exists c. split; [exact Hin|apply String.eqb_refl].
  - intros H [x [Hx Heq]]. apply String.eqb_eq in Heq. subst x. exact (H Hx).
Qed.

Lemma fillna0_to_numeric nstr v : exists k, fillna0 (to_numeric nstr v) = PNum k.
Proof.
  destruct (to_numeric_shape nstr v) as [E|[k E]]; rewrite E; [exists (NInt 0)|exists k]; reflexivity.
Qed.

(** [universal._parse_tabular_cells] on a table whose labels are distinct
    once stripped: it succeeds exactly when labels for the cell id, x and y
    are present (stripped, lowercased, among the aliases); the cell type
    column may be missing. *)
Theorem tabular_cells_ok_iff nstr frepr path raw :
  NoDup (frame_columns (_standardize_columns raw)) ->
  (is_ok (parse_tabular_cells nstr frepr path raw) = true <->
   Exists (fun nc => In (lowered nc.1) tabular_cell_aliases) raw /\
   Exists (fun nc => In (lowered nc.1) tabular_x_aliases) raw /\
   Exists (fun nc => In (lowered nc.1) tabular_y_aliases) raw).
Proof.
  intros ND. unfold parse_tabular_cells. cbv zeta.
  split.
  - destruct (_first_present _ tabular_cell_aliases) as [cc|] eqn:Ec; [|intros H; discriminate H].
    destruct (_first_present _ tabular_x_aliases) as [xc|] eqn:Ex; [|intros H; discriminate H].
    destruct (_first_present _ tabular_y_aliases) as [yc|] eqn:Ey; [|intros H; discriminate H].
    intros _. split; [|split]; eapply std_some_exists; eassumption.
  - intros (H1 & H2 & H3).
    destruct (std_exists _ _ H1) as [cc Ec]. destruct (std_exists _ _ H2) as [xc Ex].
    destruct (std_exists _ _ H3) as [yc Ey]. rewrite Ec, Ex, Ey.
    set (df := _standardize_columns raw) in *.
    destruct (get_col_nodup df cc ND (proj1 (first_present_in _ _ _ Ec))) as [ids [Hi _]].
    destruct (get_col_nodup df xc ND (proj1 (first_present_in _ _ _ Ex))) as [xs [Hx _]].
    destruct (get_col_nodup df yc ND (proj1 (first_present_in _ _ _ Ey))) as [ys [Hy _]].
    rewrite Hi, Hx, Hy. simpl.
    destruct (_first_present _ tabular_type_aliases) as [tc|] eqn:Et.
    + destruct (get_col_nodup df tc ND (proj1 (first_present_in _ _ _ Et))) as [ts [Ht _]].
      rewrite Ht. reflexivity.
    + reflexivity.
Qed.

(** What [universal._parse_tabular_cells] returns: platform "tabular", the
    empty canonical transcript table, the canonical cell columns, and an
    expression matrix with one row per cell, one value per gene column in
    each row, every value a number (unparsable and missing counts become 0).
    Its gene columns are exactly the labels other than the four columns
    chosen for cell id, x, y and cell type: a second coordinate-like label
    (e.g. centroid_x beside x) is read as a gene. *)
Theorem tabular_cells_output nstr frepr path raw o :
  parse_tabular_cells nstr frepr path raw = Ok o ->
  out_platform o = "tabular" /\
  transcript_data o = _empty_transcript_df /\
  frame_columns (cell_metadata o) = _CELL_REQUIRED_OUT_COLS /\
  Forall (Forall (fun v => exists k, v = PNum k)) (ex_values (expression_matrix o)) /\
  List.length (ex_values (expression_matrix o)) = List.length (ex_index (expression_matrix o)) /\
  Forall (fun row => List.length row = List.length (ex_columns (expression_matrix o)))
         (ex_values (expression_matrix o)) /\
  (forall c, In c (ex_columns (expression_matrix o)) <->
     In c (frame_columns (_standardize_columns raw)) /\
     resolve (frame_columns (_standardize_columns raw)) tabular_cell_aliases <> Some c /\
     resolve (frame_columns (_standardize_columns raw)) tabular_x_aliases <> Some c /\
     resolve (frame_columns (_standardize_columns raw)) tabular_y_aliases <> Some c /\
     resolve (frame_columns (_standardize_columns raw)) tabular_type_aliases <> Some c).
Proof.
  unfold parse_tabular_cells, resolve. cbv zeta.
  set (df := _standardize_columns raw).
  destruct (_first_present _ tabular_cell_aliases) as [cc|] eqn:Ec; [|discriminate].
  destruct (_first_present _ tabular_x_aliases) as [xc|] eqn:Ex; [|discriminate].
  destruct (_first_present _ tabular_y_aliases) as [yc|] eqn:Ey; [|discriminate].
  intros H. apply bindR_ok in H as [ids [Hi H]].
  apply bindR_ok in H as [xs [Hx H]]. apply bindR_ok in H as [ys [Hy H]].
  apply bindR_ok in H as [ts [Ht H]]. apply Ok_inj in H. subst o.
  set (known := [cc; xc; yc] ++ match _first_present (_lower_map_columns (frame_columns df)) tabular_type_aliases with
                                 | Some tc => [tc] | None => [] end).
  assert (Hgene : forall c, In c (List.filter (fun c => negb (mem c known)) (frame_columns df)) <->
     In c (frame_columns df) /\ Some cc <> Some c /\ Some xc <> Some c /\ Some yc <> Some c /\
     _first_present (_lower_map_columns (frame_columns df)) tabular_type_aliases <> Some c).
  { intros c. rewrite filter_In, negb_true_iff, mem_false. unfold known.
    destruct (_first_present _ tabular_type_aliases) as [tc|]; simpl;
      split; intros [Hin Hk]; (split; [exact Hin|]).
    - repeat split; intros E; injection E as ->; tauto.
    - intros Hc. destruct Hk as (H1 & H2 & H3 & H4).
      repeat destruct Hc as [Hc|Hc]; subst; tauto.
    - repeat split; try discriminate; intros E; injection E as ->; tauto.
    - intros Hc. destruct Hk as (H1 & H2 & H3 & H4).
      repeat destruct Hc as [Hc|Hc]; subst; tauto. }
  destruct (List.filter (fun c => negb (mem c known)) (frame_columns df)) as [|g gs] eqn:G;
    cbn [out_platform transcript_data cell_metadata expression_matrix ex_values ex_index ex_columns];
    (split; [reflexivity|]); (split; [reflexivity|]); (split; [reflexivity|]).
  - split; [apply Forall_map, List.Forall_forall; intros; constructor|].
    split; [rewrite !length_map; reflexivity|].
    split; [apply Forall_map, List.Forall_forall; intros; reflexivity|].
    intros c. split; [intros []|]. intros Hc. apply Hgene in Hc. exact Hc.
  - split.
    + apply Forall_map, List.Forall_forall. intros i _. apply Forall_map, List.Forall_forall.
      intros nc _. apply fillna0_to_numeric.
    + split; [rewrite !length_map, length_seq; reflexivity|]. split.
      * apply Forall_map, List.Forall_forall. intros i _. rewrite !length_map. reflexivity.
      * intros c. rewrite in_select_labels, Hgene. tauto.
Qed.

Lemma cell_metadata_missing_id_column_witness :
  _load_cell_metadata (fun _ => None) sample_float_repr cosmx_cell_aliases "cells.csv" cells_no_id_sample =
    Err "CosMx: cell metadata CSV missing required cell id column. Found columns: ['CenterX', 'CenterY'] (file: cells.csv)".
Proof.
  rewrite (cell_metadata_missing_id_column (fun _ => None) sample_float_repr cosmx_cell_aliases "cells.csv"
             cells_no_id_sample ltac:(repeat constructor; simpl; intros H; repeat destruct H as [H|H]; try discriminate H; exact H)).
  vm_compute. reflexivity.
Defined.

Lemma cell_metadata_loads_witness :
  exists out, _load_cell_metadata (fun _ => None) sample_float_repr xenium_cell_aliases "cells.parquet" cells_sample = Ok out /\
    frame_columns out = _CELL_REQUIRED_OUT_COLS /\
    Forall (fun nc => List.length nc.2 = 2%nat) out /\
    (forall p, _validate_cell_metadata p out = Ok tt).
Proof.
  apply (cell_metadata_loads (fun _ => None) sample_float_repr xenium_cell_aliases "cells.parquet" cells_sample 2).
  - repeat constructor.
  - apply (bool_decide_unpack _). vm_compute. exact I.
  - apply Exists_cons_hd. simpl. auto.
Defined.

Lemma cell_metadata_values_witness :
  exists ids xs ys ts,
    [("cell_id", [PStr "c1"; PNA]); ("x", [PNum (NInt 1); PNaN]); ("y", [PNaN; PNaN]); ("cell_type", [PNA; PNA])] =
      [("cell_id", ids); ("x", xs); ("y", ys); ("cell_type", ts)] /\
    Forall (fun v => v = PNA \/ exists s, v = PStr s) ids /\
    Forall (fun v => v = PNaN \/ exists k, v = PNum k) xs /\
    Forall (fun v => v = PNaN \/ exists k, v = PNum k) ys /\
    Forall (fun v => v = PNA \/ exists s, v = PStr s) ts /\
    (Forall (fun nc => ~ In (lowered nc.1) (ct_x merscope_cell_aliases)) cells_sample -> Forall (eq PNaN) xs) /\
    (Forall (fun nc => ~ In (lowered nc.1) (ct_y merscope_cell_aliases)) cells_sample -> Forall (eq PNaN) ys) /\
    (Forall (fun nc => ~ In (lowered nc.1) (ct_type merscope_cell_aliases)) cells_sample -> Forall (eq PNA) ts).
Proof.
  apply (cell_metadata_values (fun _ => None) sample_float_repr merscope_cell_aliases "cells.parquet" cells_sample).
  vm_compute. reflexivity.
Defined.

Lemma tabular_cells_ok_iff_witness :
  is_ok (parse_tabular_cells (fun _ => None) sample_float_repr "cells.csv" tabular_sample) = true <->
   Exists (fun nc => In (lowered nc.1) tabular_cell_aliases) tabular_sample /\
   Exists (fun nc => In (lowered nc.1) tabular_x_aliases) tabular_sample /\
   Exists (fun nc => In (lowered nc.1) tabular_y_aliases) tabular_sample.
Proof.
  apply tabular_cells_ok_iff. apply (bool_decide_unpack _). vm_compute. exact I.
Defined.

Lemma tabular_cells_output_witness :
  exists o, parse_tabular_cells (fun _ => None) sample_float_repr "cells.csv" tabular_sample = Ok o /\
  (forall c, In c (ex_columns (expression_matrix o)) <->
     In c (frame_columns (_standardize_columns tabular_sample)) /\
     resolve (frame_columns (_standardize_columns tabular_sample)) tabular_cell_aliases <> Some c /\
     resolve (frame_columns (_standardize_columns tabular_sample)) tabular_x_aliases <> Some c /\
     resolve (frame_columns (_standardize_columns tabular_sample)) tabular_y_aliases <> Some c /\
     resolve (frame_columns (_standardize_columns tabular_sample)) tabular_type_aliases <> Some c).
Proof.
  eexists. split; [vm_compute; reflexivity|].
  apply (tabular_cells_output (fun _ => None) sample_float_repr "cells.csv" tabular_sample).
  vm_compute. reflexivity.
Defined.

(** ** Visium tissue positions and expression matrix *)

Lemma get_col_in (df : frame) l c : get_col df l = Ok c -> In (l, c) df.
Proof.
  intros H. apply get_col_filter in H.
  assert (Hin : In (l, c) (List.filter (fun nc => String.eqb nc.1 l) df)) by (rewrite H; left; reflexivity).
  apply filter_In in Hin. exact (proj1 Hin).
Qed.

Lemma find_app {A} (f : A -> bool) (l1 l2 : list A) :
  find f (l1 ++ l2) = match find f l1 with Some x => Some x | None => find f l2 end.
Proof. induction l1 as [|x l1 IH]; simpl; [reflexivity|]. destruct (f x); [reflexivity|exact IH]. Qed.

Lemma col_lut_fold (m : gmap string string) cols k :
  foldl (fun m c => <[py_lower c := c]> m) m cols !! k =
  match find (fun c => String.eqb (py_lower c) k) (rev cols) with Some c => Some c | None => m !! k end.
Proof.
  revert m. induction cols as [|c cs IH]; intros m; simpl; [reflexivity|].
  rewrite IH, find_app. destruct (find _ (rev cs)); [reflexivity|]. simpl.
  destruct (String.eqb_spec (py_lower c) k) as [<-|Hne].
  - apply lookup_insert_eq.
  - rewrite lookup_insert_ne by congruence. reflexivity.
Qed.

Lemma col_lut_lookup cols k :
  col_lut cols !! k = find (fun c => String.eqb (py_lower c) k) (rev cols).
Proof.
  unfold col_lut. rewrite col_lut_fold. destruct (find _ _); reflexivity.
Qed.

(** [_load_tissue_positions]: the table used is the header read unless it
    has 6 columns and a first label other than barcode (or raised), then
    the headerless read.  Its output takes cell_id from the last column
    whose lowercased label is barcode, cast with [astype(str)] (with
    pandas 2 every barcode becomes text, never missing; with pandas 3 a
    missing barcode stays missing), x from the last pxl_col_in_fullres
    column and y from the last pxl_row_in_fullres column (both numeric or
    NaN), and a cell_type that is missing on every row; Visium's
    [_validate_cell_metadata] accepts it. *)
Theorem visium_positions_output nstr frepr ver path rh rhl out :
  _load_tissue_positions nstr frepr ver path rh rhl = Ok out ->
  exists df0,
    ((rh = Ok df0 /\ (List.length df0 <> 6%nat \/ lowered (hd EmptyString (frame_columns df0)) = "barcode"))
     \/ rhl = Ok df0) /\
    exists bc pr pc bcs prs pcs,
      find (fun c => String.eqb (py_lower c) "barcode") (rev (frame_columns (_standardize_columns df0))) = Some bc /\
      find (fun c => String.eqb (py_lower c) "pxl_row_in_fullres") (rev (frame_columns (_standardize_columns df0))) = Some pr /\
      find (fun c => String.eqb (py_lower c) "pxl_col_in_fullres") (rev (frame_columns (_standardize_columns df0))) = Some pc /\
      In (bc, bcs) (_standardize_columns df0) /\ In (pr, prs) (_standardize_columns df0) /\
      In (pc, pcs) (_standardize_columns df0) /\
      out = [("cell_id", map (astype_str frepr ver) bcs);
             ("x", map (to_numeric nstr) pcs);
             ("y", map (to_numeric nstr) prs);
             ("cell_type", repeat PNA (frame_nrows (_standardize_columns df0)))] /\
      (ver = Pandas2 -> Forall (fun v => is_missing v = false) (map (astype_str frepr ver) bcs)) /\
      (ver = Pandas3 -> map is_missing (map (astype_str frepr ver) bcs) = map is_missing bcs) /\
      _validate_cell_metadata Visium out = Ok tt.
Proof.
  unfold _load_tissue_positions. intros H. apply bindR_ok in H as [df0 [Ht H]].
  exists df0. split.
  - unfold tissue_positions_table in Ht. destruct rh as [d|e]; [|right; exact Ht].
    destruct (Nat.eqb_spec (List.length d) 6) as [E6|N6]; simpl in Ht.
    + destruct (String.eqb_spec (lowered (hd EmptyString (frame_columns d))) "barcode") as [Eb|Nb];
        simpl in Ht; [|right; exact Ht].
      left. injection Ht as <-. split; [reflexivity|right; exact Eb].
    + left. injection Ht as <-. split; [reflexivity|left; exact N6].
  - unfold tissue_positions_out in H. cbv zeta in H. rewrite !col_lut_lookup in H.
    destruct (find _ _) as [bc|] eqn:Eb; [|discriminate].
    destruct (find (fun c => String.eqb (py_lower c) "pxl_row_in_fullres") _) as [pr|] eqn:Er; [|discriminate].
    destruct (find (fun c => String.eqb (py_lower c) "pxl_col_in_fullres") _) as [pc|] eqn:Ec; [|discriminate].
    apply bindR_ok in H as [bcs [Hb H]]. apply bindR_ok in H as [pcs [Hc H]].
    apply bindR_ok in H as [prs [Hr H]]. injection H as <-.
    exists bc, pr, pc, bcs, prs, pcs.
    repeat split; try assumption; try (apply get_col_in; assumption).
    + intros ->. clear. induction bcs; simpl; constructor; auto.
    + intros ->. clear. induction bcs as [|v bcs IH]; simpl; [reflexivity|].
      rewrite IH. unfold astype_str. destruct (is_missing v) eqn:E; rewrite ?E; reflexivity.
Qed.

(** Visium's expression role: when [filtered_feature_bc_matrix.h5] is a
    file of the input directory, parsing always fails with the message
    about optional h5 dependencies, even when a
    [filtered_feature_bc_matrix/] MEX directory sits beside it; only
    without that file is the MEX directory loaded. *)
Theorem visium_h5_blocks_mex load_mex base_path name cs :
  (child_named (FDir name cs) "filtered_feature_bc_matrix.h5" = Some (FFile "filtered_feature_bc_matrix.h5") ->
   visium_expression_role load_mex base_path (FDir name cs) =
     Err ("Visium: reading *.h5 matrices requires optional dependencies (e.g., h5py/scipy). " ++
          "Provide a filtered_feature_bc_matrix/ MEX directory instead. (file: " ++
          (base_path ++ "/" ++ "filtered_feature_bc_matrix.h5") ++ ")")%string) /\
  (forall n' cs',
   child_named (FDir name cs) "filtered_feature_bc_matrix.h5" = None ->
   child_named (FDir name cs) "filtered_feature_bc_matrix" = Some (FDir n' cs') ->
   visium_expression_role load_mex base_path (FDir name cs) =
     load_mex (base_path ++ "/" ++ "filtered_feature_bc_matrix")%string (FDir n' cs')).
Proof.
  unfold visium_expression_role, visium_discover_expression, visium_expression_names. cbn [first_some].
  split.
  - intros H. rewrite H. reflexivity.
  - intros n' cs' H1 H2. rewrite H1, H2. reflexivity.
Qed.

Lemma visium_positions_output_witness :
  exists df0,
    ((Ok positions_header_read = Ok df0 /\
      (List.length df0 <> 6%nat \/ lowered (hd EmptyString (frame_columns df0)) = "barcode"))
     \/ Ok positions_headerless_read = Ok df0) /\
    exists bc pr pc bcs prs pcs,
      find (fun c => String.eqb (py_lower c) "barcode") (rev (frame_columns (_standardize_columns df0))) = Some bc /\
      find (fun c => String.eqb (py_lower c) "pxl_row_in_fullres") (rev (frame_columns (_standardize_columns df0))) = Some pr /\
      find (fun c => String.eqb (py_lower c) "pxl_col_in_fullres") (rev (frame_columns (_standardize_columns df0))) = Some pc /\
      In (bc, bcs) (_standardize_columns df0) /\ In (pr, prs) (_standardize_columns df0) /\
      In (pc, pcs) (_standardize_columns df0) /\
      [("cell_id", [PStr "ACGT-1"; PStr "TTGA-1"]); ("x", [PNum (NInt 200); PNum (NInt 240)]);
       ("y", [PNum (NInt 100); PNum (NInt 120)]); ("cell_type", [PNA; PNA])] =
        [("cell_id", map (astype_str sample_float_repr Pandas2) bcs);
         ("x", map (to_numeric (fun _ => None)) pcs);
         ("y", map (to_numeric (fun _ => None)) prs);
         ("cell_type", repeat PNA (frame_nrows (_standardize_columns df0)))] /\
      (Pandas2 = Pandas2 -> Forall (fun v => is_missing v = false) (map (astype_str sample_float_repr Pandas2) bcs)) /\
      (Pandas2 = Pandas3 -> map is_missing (map (astype_str sample_float_repr Pandas2) bcs) = map is_missing bcs) /\
      _validate_cell_metadata Visium
        [("cell_id", [PStr "ACGT-1"; PStr "TTGA-1"]); ("x", [PNum (NInt 200); PNum (NInt 240)]);
         ("y", [PNum (NInt 100); PNum (NInt 120)]); ("cell_type", [PNA; PNA])] = Ok tt.
Proof.
  apply (visium_positions_output (fun _ => None) sample_float_repr Pandas2 "spatial/tissue_positions_list.csv"
           (Ok positions_header_read) (Ok positions_headerless_read)).
  vm_compute. reflexivity.
Defined.

Lemma visium_h5_blocks_mex_witness :
  visium_expression_role (fun _ _ => Ok empty_expr) "/data/sample" visium_h5_and_mex =
    Err ("Visium: reading *.h5 matrices requires optional dependencies (e.g., h5py/scipy). " ++
         "Provide a filtered_feature_bc_matrix/ MEX directory instead. (file: " ++
         ("/data/sample" ++ "/" ++ "filtered_feature_bc_matrix.h5") ++ ")")%string.
Proof.
  unfold visium_h5_and_mex.
  apply (proj1 (visium_h5_blocks_mex (fun _ _ => Ok empty_expr) "/data/sample" "sample" _)).
  reflexivity.
Defined.

(** ** Transcript loaders and their validator *)

Lemma get_col_len (raw : frame) l c n :
  Forall (fun nc => List.length nc.2 = n) raw ->
  get_col (_standardize_columns raw) l = Ok c -> List.length c = n.
Proof.
  intros R H. apply get_col_in in H. exact (get_col_rect _ _ _ _ (std_rect _ _ R) H).
Qed.

Lemma merscope_unassigned_length nstr (cs : column) :
  List.length (merscope_unassigned nstr cs) = List.length cs.
Proof.
  unfold merscope_unassigned, series_where_na.
  assert (Z : forall (f : pyval -> bool -> pyval) (repl : list bool),
             List.length repl = List.length cs -> List.length (zip_with f cs repl) = List.length cs).
  { intros f repl. revert repl. induction cs as [|v cs' IH]; intros [|b repl] L; simpl in *; try lia.
    f_equal. apply IH. lia. }
  destruct (negb _); [reflexivity|].
  destruct (forallb is_int_val cs); [apply Z; apply length_map|].
  destruct (forallb is_float_val cs); apply Z; apply length_map.
Qed.

(** The transcript loaders of CosMx, Xenium and MERSCOPE, on a table of [n]
    rows, return when they succeed the canonical transcript table of [n]
    rows: columns x, y, gene, cell_id in that order, numeric-or-NaN
    coordinates, cell ids as strings or [pd.NA], and the platform's
    [_validate_transcripts] accepts it. *)
Theorem transcripts_output_shape nstr frepr ver path name raw n :
  Forall (fun nc => List.length nc.2 = n) raw ->
  (forall out log, cosmx_load_transcripts nstr frepr ver path name raw = Ok (out, log) ->
                   canonical_transcripts Cosmx n out) /\
  (forall out, xenium_load_transcripts nstr frepr ver path raw = Ok out ->
               canonical_transcripts Xenium n out) /\
  (forall out, merscope_load_transcripts nstr frepr ver path raw = Ok out ->
               canonical_transcripts Merscope n out).
Proof.
  intros R.
  assert (Hopt : forall (col : option string) (xs cs : column),
            List.length xs = n ->
            match col with
            | Some cc => get_col (_standardize_columns raw) cc
            | None => Ok (repeat PNA (List.length xs))
            end = Ok cs -> List.length cs = n).
  { intros [cc|] xs cs Lx H.
    - exact (get_col_len raw _ _ n R H).
    - injection H as <-. rewrite repeat_length. exact Lx. }
  split; [|split].
  - intros out log. unfold cosmx_load_transcripts. cbv zeta.
    destruct (_first_present _ ["x"; _; _; _; _; _]) as [xc|]; [|discriminate].
    destruct (_first_present _ ["y"; _; _; _; _; _]) as [yc|]; [|discriminate].
    destruct (_first_present _ cosmx_tx_gene_aliases) as [gc|]; [|discriminate].
    intros H. apply bindR_ok in H as [xs [Hx H]]. apply bindR_ok in H as [ys [Hy H]].
    apply bindR_ok in H as [gs [Hg H]]. apply bindR_ok in H as [cs [Hc H]].
    injection H as <- _.
    pose proof (get_col_len raw _ _ n R Hx) as Lx.
    exists (map (to_numeric nstr) xs), (map (to_numeric nstr) ys),
           (map (as_string frepr) (map (astype_str frepr ver) gs)), (map (as_string frepr) cs).
    split; [reflexivity|]. rewrite !length_map.
    split; [exact Lx|]. split; [exact (get_col_len raw _ _ n R Hy)|].
    split; [exact (get_col_len raw _ _ n R Hg)|]. split; [exact (Hopt _ xs cs Lx Hc)|].
    split; [apply map_to_numeric_shape|]. split; [apply map_to_numeric_shape|].
    split; [apply map_as_string_shape|reflexivity].
  - intros out. unfold xenium_load_transcripts. cbv zeta.
    destruct (_first_present _ ["x"; _; _; _; _]) as [xc|]; [|discriminate].
    destruct (_first_present _ ["y"; _; _; _; _]) as [yc|]; [|discriminate].
    destruct (_first_present _ xenium_tx_gene_aliases) as [gc|]; [|discriminate].
    intros H. apply bindR_ok in H as [xs [Hx H]]. apply bindR_ok in H as [ys [Hy H]].
    apply bindR_ok in H as [gs [Hg H]]. apply bindR_ok in H as [cs [Hc H]].
    injection H as <-.
    pose proof (get_col_len raw _ _ n R Hx) as Lx.
    exists (map (to_numeric nstr) xs), (map (to_numeric nstr) ys),
           (map (as_string frepr) (map (astype_str frepr ver) gs)), (map (as_string frepr) cs).
    split; [reflexivity|]. rewrite !length_map.
    split; [exact Lx|]. split; [exact (get_col_len raw _ _ n R Hy)|].
    split; [exact (get_col_len raw _ _ n R Hg)|]. split; [exact (Hopt _ xs cs Lx Hc)|].
    split; [apply map_to_numeric_shape|]. split; [apply map_to_numeric_shape|].
    split; [apply map_as_string_shape|reflexivity].
  - intros out. unfold merscope_load_transcripts. cbv zeta.
    destruct (_first_present _ ["global_x"; _; _; _; _]) as [xc|]; [|discriminate].
    destruct (_first_present _ ["global_y"; _; _; _; _]) as [yc|]; [|discriminate].
    destruct (_first_present _ ["gene"; _; _; _]) as [gc|]; [|discriminate].
    intros H. apply bindR_ok in H as [xs [Hx H]]. apply bindR_ok in H as [ys [Hy H]].
    apply bindR_ok in H as [gs [Hg H]]. apply bindR_ok in H as [cs [Hc H]].
    injection H as <-.
    pose proof (get_col_len raw _ _ n R Hx) as Lx.
    assert (Lc : List.length cs = n).
    { destruct (_first_present _ merscope_tx_cell_aliases) as [cc|].
      - apply bindR_ok in Hc as [cs0 [Hc0 Hc]]. injection Hc as <-. rewrite merscope_unassigned_length.
        exact (get_col_len raw _ _ n R Hc0).
      - injection Hc as <-. rewrite repeat_length. exact Lx. }
    exists (map (to_numeric nstr) xs), (map (to_numeric nstr) ys),
           (map (as_string frepr) (map (astype_str frepr ver) gs)), (map (as_string frepr) cs).
    split; [reflexivity|]. rewrite !length_map.
    split; [exact Lx|]. split; [exact (get_col_len raw _ _ n R Hy)|].
    split; [exact (get_col_len raw _ _ n R Hg)|]. split; [exact Lc|].
    split; [apply map_to_numeric_shape|]. split; [apply map_to_numeric_shape|].
    split; [apply map_as_string_shape|reflexivity].
Qed.

Lemma transcripts_output_shape_witness :
  canonical_transcripts Cosmx 2
    [("x", [PNum (NInt 10); PNaN]); ("y", [PNum (NInt 20); PNum (NInt 21)]);
     ("gene", [PStr "EGFR"; PStr "nan"]); ("cell_id", [PNA; PNA])].
Proof.
  apply (proj1 (transcripts_output_shape (fun s => if String.eqb s "bad" then None else Some (NInt 0))
                  sample_float_repr Pandas2 "tx.csv" "tx.csv" cosmx_tx_sample 2 ltac:(repeat constructor))
           _ [("CosMx: 1 transcript rows have NaN coordinates (tx.csv)")%string]).
  vm_compute. reflexivity.
Defined.

(* ------------------------------------------------------------------ *)
(** ** File picking in discovery *)

Lemma first_some_none {A B} (f : A -> option B) l :
  first_some f l = None <-> Forall (fun x => f x = None) l.
Proof.
  induction l as [|x l IH]; simpl; [split; constructor|].
  destruct (f x) eqn:E; split.
  - discriminate.
  - intros H; inversion H; congruence.
  - intros H; constructor; [exact E|apply IH, H].
  - intros H; inversion H; apply IH; assumption.
Qed.

Lemma first_some_split {A B} (f : A -> option B) l y :
  first_some f l = Some y ->
  exists pre x post, l = pre ++ x :: post /\ f x = Some y /\ Forall (fun z => f z = None) pre.
Proof.
  induction l as [|x l IH]; simpl; [discriminate|].
  destruct (f x) eqn:E.
  - intros [= <-]. exists [], x, l. auto.
  - intros H. destruct (IH H) as (pre & x' & post & -> & Hx & Hpre).
    exists (x :: pre), x', post. split; [reflexivity|split; [exact Hx|constructor; auto]].
Qed.

Lemma find_none_iff {A} (p : A -> bool) l : find p l = None <-> Forall (fun x => p x = false) l.
Proof.
  induction l as [|x l IH]; simpl; [split; constructor|].
  destruct (p x) eqn:E; split.
  - discriminate.
  - intros H; inversion H; congruence.
  - intros H; constructor; [exact E|apply IH, H].
  - intros H; inversion H; apply IH; assumption.
Qed.

Lemma find_rev_none {A} (p : A -> bool) l : find p (rev l) = None <-> find p l = None.
Proof.
  rewrite !find_none_iff, !List.Forall_forall. setoid_rewrite <- in_rev. reflexivity.
Qed.

(** [pick_file] finds nothing exactly when no preferred name is present in
    the directory and no pool file, lowercased, equals a lowercased preferred
    name or contains a lowercased keyword. *)
Theorem pick_file_none_iff base preferred_names contains_any pool :
  pick_file base preferred_names contains_any pool = None <->
  Forall (fun n => child_named base n = None) preferred_names /\
  Forall (fun p => ~ In (py_lower p) (map py_lower preferred_names) /\
                   existsb (fun c => py_contains (py_lower p) c) (map py_lower contains_any) = false) pool.
Proof.
  unfold pick_file.
  assert (Hex : first_some (fun name => match child_named base name with Some _ => Some name | None => None end)
                  preferred_names = None <-> Forall (fun n => child_named base n = None) preferred_names).
  { rewrite first_some_none. split; intros H; (eapply Forall_impl; [exact H|]); intros n Hn; cbv beta in *; destruct (child_named base n); congruence. }
  assert (Hlo : first_some (fun name => col_lut pool !! py_lower name) preferred_names = None <->
                Forall (fun p => ~ In (py_lower p) (map py_lower preferred_names)) pool).
  { rewrite first_some_none. setoid_rewrite col_lut_lookup. setoid_rewrite find_rev_none.
    setoid_rewrite find_none_iff. repeat setoid_rewrite List.Forall_forall. split.
    - intros H p Hp Hin. apply in_map_iff in Hin as (n & En & Hn).
      specialize (H n Hn p Hp). simpl in H. rewrite En, String.eqb_refl in H. discriminate.
    - intros H n Hn p Hp. simpl. destruct (String.eqb_spec (py_lower p) (py_lower n)) as [E|]; [|reflexivity].
      exfalso. apply (H p Hp). rewrite E. apply in_map, Hn. }
  destruct (first_some (fun name => match child_named base name with Some _ => Some name | None => None end)
             preferred_names) eqn:E1.
  - split; [discriminate|]. intros [H _]. apply Hex in H. congruence.
  - destruct (first_some (fun name => col_lut pool !! py_lower name) preferred_names) eqn:E2.
    + split; [discriminate|]. intros [_ H]. exfalso.
      assert (H' : Forall (fun p => ~ In (py_lower p) (map py_lower preferred_names)) pool)
        by (eapply Forall_impl; [exact H|]; intros x [Hx _]; exact Hx).
      apply Hlo in H'. congruence.
    + rewrite find_none_iff. split.
      * intros H. split; [apply Hex; reflexivity|].
        assert (H' := proj1 Hlo eq_refl). rewrite List.Forall_forall in H, H' |- *.
        intros p Hp. split; [apply H', Hp|apply H, Hp].
      * intros [_ H]. eapply Forall_impl; [exact H|]. intros x [_ Hx]; exact Hx.
Qed.

(** A file picked by [pick_file] is either a preferred name present in the
    directory, or a pool file whose lowercased name is a lowercased preferred
    name or contains a lowercased keyword. *)
Theorem pick_file_sound base preferred_names contains_any pool r :
  pick_file base preferred_names contains_any pool = Some r ->
  (In r preferred_names /\ exists e, child_named base r = Some e) \/
  (In r pool /\ (In (py_lower r) (map py_lower preferred_names) \/
                 existsb (fun c => py_contains (py_lower r) c) (map py_lower contains_any) = true)).
Proof.
  unfold pick_file.
  destruct (first_some (fun name => match child_named base name with Some _ => Some name | None => None end)
             preferred_names) eqn:E1.
  - intros [= <-]. left. apply first_some_split in E1 as (pre & x & post & -> & Hx & _).
    destruct (child_named base x) as [e|] eqn:Ec; [|discriminate]. injection Hx as <-.
    split; [apply in_or_app; right; left; reflexivity|exists e; exact Ec].
  - destruct (first_some (fun name => col_lut pool !! py_lower name) preferred_names) eqn:E2.
    + intros [= <-]. right. apply first_some_split in E2 as (pre & x & post & -> & Hx & _).
      rewrite col_lut_lookup in Hx. apply find_some in Hx as [Hin Hq].
      apply String.eqb_eq in Hq. split; [apply in_rev, Hin|]. left. rewrite Hq.
      apply in_map, in_or_app; right; left; reflexivity.
    + intros Hf. apply find_some in Hf as [Hin Hq]. right. auto.
Qed.

Lemma pick_file_sound_witness :
  pick_file (FDir "run" (map FFile cosmx_mixed_csvs))
    ["cell_metadata.csv"; "cells.csv"; "cellmetadata.csv"] ["cell_metadata"; "cellmeta"; "cells"]
    cosmx_mixed_csvs = Some "Cell_Metadata.CSV" /\
  ((In "Cell_Metadata.CSV" ["cell_metadata.csv"; "cells.csv"; "cellmetadata.csv"] /\
    exists e, child_named (FDir "run" (map FFile cosmx_mixed_csvs)) "Cell_Metadata.CSV" = Some e) \/
   (In "Cell_Metadata.CSV" cosmx_mixed_csvs /\
    (In (py_lower "Cell_Metadata.CSV") (map py_lower ["cell_metadata.csv"; "cells.csv"; "cellmetadata.csv"]) \/
     existsb (fun c => py_contains (py_lower "Cell_Metadata.CSV") c)
       (map py_lower ["cell_metadata"; "cellmeta"; "cells"]) = true))).
Proof.
  assert (H : pick_file (FDir "run" (map FFile cosmx_mixed_csvs))
    ["cell_metadata.csv"; "cells.csv"; "cellmetadata.csv"] ["cell_metadata"; "cellmeta"; "cells"]
    cosmx_mixed_csvs = Some "Cell_Metadata.CSV") by (vm_compute; reflexivity).
  split; [exact H|]. exact (pick_file_sound _ _ _ _ _ H).
Defined.

Lemma lower_entries_fold (m : gmap string fs_entry) cs k :
  foldl (fun m c => <[py_lower (entry_name c) := c]> m) m cs !! k =
  match find (fun c => String.eqb (py_lower (entry_name c)) k) (rev cs) with Some c => Some c | None => m !! k end.
Proof.
  revert m. induction cs as [|c cs IH]; intros m; simpl; [reflexivity|].
  rewrite IH, find_app. destruct (find _ (rev cs)); [reflexivity|]. simpl.
  destruct (String.eqb_spec (py_lower (entry_name c)) k) as [<-|Hne].
  - apply lookup_insert_eq.
  - rewrite lookup_insert_ne by congruence. reflexivity.
Qed.

Lemma lower_entries_lookup dname cs k :
  lower_entries (FDir dname cs) !! k = find (fun c => String.eqb (py_lower (entry_name c)) k) (rev cs).
Proof. unfold lower_entries. simpl. rewrite lower_entries_fold. destruct (find _ _); reflexivity. Qed.

Lemma first_existing_step_some dname cs n e :
  match child_named (FDir dname cs) n with
  | Some p => Some p
  | None => lower_entries (FDir dname cs) !! py_lower n
  end = Some e -> In e cs /\ py_lower (entry_name e) = py_lower n.
Proof.
  unfold child_named. simpl. destruct (find _ cs) as [p|] eqn:E.
  - intros [= <-]. apply find_some in E as [Hin Hq]. apply String.eqb_eq in Hq. subst n. auto.
  - rewrite lower_entries_lookup. intros Hf. apply find_some in Hf as [Hin Hq].
    apply String.eqb_eq in Hq. split; [apply in_rev, Hin|exact Hq].
Qed.

Lemma first_existing_step_none dname cs n :
  match child_named (FDir dname cs) n with
  | Some p => Some p
  | None => lower_entries (FDir dname cs) !! py_lower n
  end = None <-> Forall (fun c => py_lower (entry_name c) <> py_lower n) cs.
Proof.
  unfold child_named. simpl. rewrite List.Forall_forall. destruct (find _ cs) as [p|] eqn:E.
  - split; [discriminate|]. intros H. apply find_some in E as [Hin Hq].
    apply String.eqb_eq in Hq. subst n. exfalso. exact (H p Hin eq_refl).
  - rewrite lower_entries_lookup, find_none_iff, List.Forall_forall. split.
    + intros H c Hc Heq. specialize (H c (proj1 (in_rev _ _) Hc)). simpl in H.
      rewrite Heq, String.eqb_refl in H. discriminate.
    + intros H c Hc. simpl. apply String.eqb_neq. apply H. apply in_rev, Hc.
Qed.

(** [_first_existing] on a directory finds nothing exactly when no entry's
    lowercased name equals any lowercased candidate name. *)
Theorem first_existing_none_iff dname children names :
  visium_first_existing dname children names = None <->
  Forall (fun n => Forall (fun c => py_lower (entry_name c) <> py_lower n) children) names.
Proof.
  unfold visium_first_existing. rewrite first_some_none.
  split; intros H; (eapply Forall_impl; [exact H|]); intros n Hn; cbv beta in *.
  - apply (proj1 (first_existing_step_none dname children n)), Hn.
  - apply (proj2 (first_existing_step_none dname children n)), Hn.
Qed.

(** The entry returned by [_first_existing] belongs to the directory and
    matches, up to case, the earliest candidate name that any entry matches
    up to case: an earlier name matched only up to case wins over a later
    name matched exactly. *)
Theorem first_existing_earliest dname children names e :
  visium_first_existing dname children names = Some e ->
  exists pre n post, names = pre ++ n :: post /\ In e children /\ py_lower (entry_name e) = py_lower n /\
    Forall (fun m => Forall (fun c => py_lower (entry_name c) <> py_lower m) children) pre.
Proof.
  unfold visium_first_existing. intros H.
  apply first_some_split in H as (pre & n & post & -> & Hn & Hpre).
  apply first_existing_step_some in Hn as [Hin Hl].
  exists pre, n, post. split; [reflexivity|split; [exact Hin|split; [exact Hl|]]].
  eapply Forall_impl; [exact Hpre|]. intros m Hm. apply (proj1 (first_existing_step_none dname children m)), Hm.
Qed.

Lemma first_existing_earliest_witness :
  visium_first_existing "filtered_feature_bc_matrix" mex_mixed_case ["matrix.mtx.gz"; "matrix.mtx"]
    = Some (FFile "MATRIX.MTX.GZ") /\
  exists pre n post, ["matrix.mtx.gz"; "matrix.mtx"] = pre ++ n :: post /\
    In (FFile "MATRIX.MTX.GZ") mex_mixed_case /\
    py_lower (entry_name (FFile "MATRIX.MTX.GZ")) = py_lower n /\
    Forall (fun m => Forall (fun c => py_lower (entry_name c) <> py_lower m) mex_mixed_case) pre.
Proof.
  assert (H : visium_first_existing "filtered_feature_bc_matrix" mex_mixed_case ["matrix.mtx.gz"; "matrix.mtx"]
    = Some (FFile "MATRIX.MTX.GZ")) by (vm_compute; reflexivity).
  split; [exact H|]. exact (first_existing_earliest _ _ _ _ H).
Defined.

Lemma existsb_false_Forall {A} (f : A -> bool) l : existsb f l = false <-> Forall (fun x => f x = false) l.
Proof.
  induction l as [|x l IH]; simpl; [split; constructor|].
  destruct (f x) eqn:E; simpl; split.
  - discriminate.
  - intros H; inversion H; congruence.
  - intros H; constructor; [exact E|apply IH, H].
  - intros H; inversion H; apply IH; assumption.
Qed.

Lemma first_existing_none_found dname children names :
  visium_first_existing dname children names = None <->
  existsb (fun n => existsb (fun c => String.eqb (py_lower (entry_name c)) (py_lower n)) children) names = false.
Proof.
  rewrite first_existing_none_iff, existsb_false_Forall. split; intros H; (eapply Forall_impl; [exact H|]);
    intros n Hn; cbv beta in *.
  - apply existsb_false_Forall. eapply Forall_impl; [exact Hn|]. intros c Hc. apply String.eqb_neq, Hc.
  - apply existsb_false_Forall in Hn. eapply Forall_impl; [exact Hn|]. intros c Hc. apply String.eqb_neq, Hc.
Qed.

(** [_load_mex_dir]'s file lookup: it succeeds with the three entries
    [_first_existing] returns, or fails naming, in order, exactly the file
    groups (matrix, features, barcodes) none of whose names any entry of the
    directory matches up to case. *)
Theorem visium_mex_files_result path dname children :
  let found names :=
    existsb (fun n => existsb (fun c => String.eqb (py_lower (entry_name c)) (py_lower n)) children) names in
  match visium_mex_files path dname children with
  | Ok (m, f, b) =>
      visium_first_existing dname children mex_matrix_names = Some m /\
      visium_first_existing dname children mex_features_names = Some f /\
      visium_first_existing dname children mex_barcodes_names = Some b
  | Err msg =>
      found mex_matrix_names && found mex_features_names && found mex_barcodes_names = false /\
      msg = ("Visium: MEX directory missing required files: " ++
             py_list_repr ((if found mex_matrix_names then [] else ["matrix.mtx(.gz)"]) ++
                           (if found mex_features_names then [] else ["features.tsv(.gz)"]) ++
                           (if found mex_barcodes_names then [] else ["barcodes.tsv(.gz)"])) ++
             " (dir: " ++ path ++ ")")%string
  end.
Proof.
  intros found. unfold visium_mex_files.
  assert (Hf : forall names, visium_first_existing dname children names =
            match visium_first_existing dname children names with Some e => Some e | None => None end /\
            (visium_first_existing dname children names = None <-> found names = false))
    by (intros names; split; [destruct (visium_first_existing _ _ _); reflexivity|apply first_existing_none_found]).
  destruct (Hf mex_matrix_names) as [_ Hm], (Hf mex_features_names) as [_ Hfe], (Hf mex_barcodes_names) as [_ Hb].
  clear Hf. clearbody found.
  destruct (visium_first_existing dname children mex_matrix_names) as [m|];
  [destruct (found mex_matrix_names); [|exfalso; discriminate (proj2 Hm eq_refl)]
  |rewrite (proj1 Hm eq_refl)];
  (destruct (visium_first_existing dname children mex_features_names) as [f|];
  [destruct (found mex_features_names); [|exfalso; discriminate (proj2 Hfe eq_refl)]
  |rewrite (proj1 Hfe eq_refl)]);
  (destruct (visium_first_existing dname children mex_barcodes_names) as [b|];
  [destruct (found mex_barcodes_names); [|exfalso; discriminate (proj2 Hb eq_refl)]
  |rewrite (proj1 Hb eq_refl)]);
  simpl; auto.
Qed.


(* ------------------------------------------------------------------ *)
(** ** Run metadata *)

Lemma metadata_fold_lookup {J F} (m : gmap string (meta_value J F)) (l : list (string * option J)) k :
  foldl (fun meta p => match p.2 with Some v => <[p.1 := MJson v]> meta | None => meta end) m l !! k =
  match find (fun p => String.eqb p.1 k && match p.2 with Some _ => true | None => false end) (rev l) with
  | Some (_, Some v) => Some (MJson v)
  | _ => m !! k
  end.
Proof.
  revert m. induction l as [|[n r] l IH]; intros m; simpl; [reflexivity|].
  rewrite IH, find_app.
  destruct (find _ (rev l)) as [[n' [v'|]]|] eqn:E.
  - reflexivity.
  - apply find_some in E as [_ E]. simpl in E. rewrite andb_false_r in E. discriminate.
  - simpl. destruct r as [v|]; simpl.
    + destruct (String.eqb_spec n k) as [<-|Hne]; simpl.
      * apply lookup_insert_eq.
      * rewrite lookup_insert_ne by congruence. reflexivity.
    + rewrite andb_false_r. reflexivity.
Qed.

Lemma load_metadata_json_lookup {J F} (l : list (string * option J)) k :
  _load_metadata_json J F l !! k =
  match find (fun p => String.eqb p.1 k && match p.2 with Some _ => true | None => false end) (rev l) with
  | Some (_, Some v) => Some (MJson v)
  | _ => None
  end.
Proof.
  unfold _load_metadata_json. destruct l as [|p l]; [reflexivity|].
  rewrite metadata_fold_lookup. destruct (find _ _) as [[? [?|]]|]; reflexivity.
Qed.

Lemma setdefault_lookup {J F} k v (m : gmap string (meta_value J F)) k' :
  setdefault J F k v m !! k' = if String.eqb k' k then match m !! k with Some x => Some x | None => Some v end
                                else m !! k'.
Proof.
  unfold setdefault. destruct (String.eqb_spec k' k) as [->|Hne].
  - destruct (m !! k) eqn:E; [exact E|apply lookup_insert_eq].
  - destruct (m !! k); [reflexivity|]. rewrite lookup_insert_ne by congruence. reflexivity.
Qed.

(** When no JSON file is named ["input_dir"] or ["files"] (the globs
    [*.json], [*.JSON] (and [*.xenium], [*.XENIUM]) ensure it), the run
    metadata maps ["input_dir"] to the input path and ["files"] to the file
    summary, and every other key to the content of the last file of that
    name that was read without error, or to nothing. *)
Theorem run_metadata_lookup {J F} base (files : F) (json_files : list (string * option J)) :
  Forall (fun p => p.1 <> "input_dir" /\ p.1 <> "files") json_files ->
  run_metadata J F base files json_files !! "input_dir" = Some (MStr base) /\
  run_metadata J F base files json_files !! "files" = Some (MFiles files) /\
  forall k, k <> "input_dir" -> k <> "files" ->
    run_metadata J F base files json_files !! k =
    match find (fun p => String.eqb p.1 k && match p.2 with Some _ => true | None => false end) (rev json_files) with
    | Some (_, Some v) => Some (MJson v)
    | _ => None
    end.
Proof.
  intros Hn.
  assert (Hnone : forall k, (k = "input_dir" \/ k = "files") -> _load_metadata_json J F json_files !! k = None).
  { intros k Hk. rewrite load_metadata_json_lookup.
    destruct (find _ (rev json_files)) as [[n r]|] eqn:E; [|reflexivity].
    apply find_some in E as [Hin Hq]. apply in_rev in Hin.
    rewrite List.Forall_forall in Hn. destruct (Hn _ Hin) as [H1 H2]. simpl in H1, H2.
    apply andb_true_iff in Hq as [Hq _]. apply String.eqb_eq in Hq. simpl in Hq. subst k.
    exfalso. destruct Hk; congruence. }
  unfold run_metadata. split; [|split].
  - rewrite setdefault_lookup. simpl. rewrite setdefault_lookup. simpl.
    rewrite Hnone by (left; reflexivity). reflexivity.
  - rewrite setdefault_lookup. simpl. rewrite setdefault_lookup. simpl.
    rewrite Hnone by (right; reflexivity). reflexivity.
  - intros k H1 H2. rewrite !setdefault_lookup.
    destruct (String.eqb_spec k "files"); [contradiction|].
    destruct (String.eqb_spec k "input_dir"); [contradiction|].
    apply load_metadata_json_lookup.
Qed.

Lemma run_metadata_lookup_witness :
  Forall (fun p => p.1 <> "input_dir" /\ p.1 <> "files")
    [("experiment.xenium", Some 1%Z); ("metrics.json", None); ("experiment.xenium", Some 2%Z)] /\
  run_metadata Z unit "/data/run1" tt
    [("experiment.xenium", Some 1%Z); ("metrics.json", None); ("experiment.xenium", Some 2%Z)] !! "input_dir"
    = Some (MStr "/data/run1").
Proof.
  assert (H : Forall (fun p : string * option Z => p.1 <> "input_dir" /\ p.1 <> "files")
    [("experiment.xenium", Some 1%Z); ("metrics.json", None); ("experiment.xenium", Some 2%Z)])
    by (repeat constructor; simpl; discriminate).
  split; [exact H|]. exact (proj1 (run_metadata_lookup "/data/run1" tt _ H)).
Defined.
